(** * WhatsApp chatbot relay: webhook ingestion, conversations and messages

    A shallow embedding of the webhook routes ([src/routes/webhooks.py]),
    the conversation, message and webhook-event models
    ([src/models/conversation.py], [src/models/webhook.py]), the routes that
    send a message, close and reopen a conversation
    ([src/routes/conversations.py]) with [User.get_companies]
    ([src/models/user.py]), and the two channel adapters
    ([src/services/whatsapp_service.py], [src/services/botpress_service.py]).

    Conventions of the embedding.
    - A table is the list of its rows, oldest first; [first()] is [find].
    - [db.session.add] appends the row with its column defaults applied
      (primary key drawn from [uuid4], timestamps from [utcnow]); the Python
      object itself only sees those defaults after a flush, which is why an
      expression such as [webhook_event.id] read before any flush is [None].
    - [flush] and [commit] check the primary keys and the NOT NULL columns
      that the code can leave unset; a violation raises [IntegrityError].  A
      JSON column stores [None] as the JSON value [null], which is not NULL.
    - An Enum column takes any string when a row is written; loading a row
      whose stored string is not one of the column's values raises
      [LookupError].  This is modelled for the [type] column of messages;
      the rows of [webhook_events] are read as stored.
    - Three calls raise on every input as the code is written (the two
      [WebhookEvent(...)] calls of the webhook routes and
      [user.get_companies()]).  The handlers take these calls as parameters;
      [as_written] instantiates them with the code's, and the results that
      follow the handlers past these calls hold for every instance.
    - A request handler runs on the committed database; [commit] makes the
      session's state the new database and [rollback] restores the old one.
    - Python exceptions are outcomes of a state-and-exception monad that keeps
      the state reached when the exception was raised, as [try]/[except] does.
    - External services, [uuid4], [utcnow], [json.dumps], HMAC-SHA256 and
      [str.upper] outside ASCII are fields of a [World] record. *)

From Stdlib Require Import String Ascii List ZArith NArith Bool Arith Lia.
From Stdlib Require Import Sorted Permutation.
Import ListNotations.
Local Open Scope string_scope.
Local Open Scope list_scope.

(** ** Python values used throughout *)

Definition datetime := Z.

Inductive PyExn : Type :=
| TypeError (msg : string)
| AttributeError (msg : string)
| IndexError (msg : string)
| BadRequest
| IntegrityError (msg : string)
| LookupError (msg : string)
| OverflowError (msg : string)
| ServiceError (msg : string).

Inductive Outcome (A : Type) : Type :=
| Ok (a : A)
| Raise (e : PyExn).
Arguments Ok {A} a.
Arguments Raise {A} e.

Definition is_ok {A} (o : Outcome A) : bool :=
  match o with Ok _ => true | Raise _ => false end.

Definition opt_eqb (a b : option string) : bool :=
  match a, b with
  | Some x, Some y => String.eqb x y
  | None, None => true
  | _, _ => false
  end.

(** Truth value of an [Optional[str]]: [None] and [''] are falsy. *)
Definition truthy (o : option string) : bool :=
  match o with
  | Some s => negb (String.eqb s "")
  | None => false
  end.

(** A [str] is a string of bytes here; it is ASCII when every byte is. *)
Definition str_is_ascii (s : string) : bool :=
  forallb (fun c => (nat_of_ascii c <? 128)%nat) (list_ascii_of_string s).

(** A JSON value as far as the handlers look into it. *)
Inductive JVal : Type :=
| JNull
| JString (s : string)
| JRaw (doc : string).

Definition Dict := list (string * JVal).

Fixpoint dict_get (d : Dict) (k : string) : option JVal :=
  match d with
  | [] => None
  | (k', v) :: d' => if String.eqb k k' then Some v else dict_get d' k
  end.

Definition jstr (v : JVal) : option string :=
  match v with
  | JString s => Some s
  | JRaw s => Some s
  | JNull => None
  end.

(** [d.get(k)] read as an optional string. *)
Definition get_str (d : Dict) (k : string) : option string :=
  match dict_get d k with
  | Some v => jstr v
  | None => None
  end.

(** [d.get(k, default)]. *)
Definition get_str_default (d : Dict) (k : string) (default : string) : option string :=
  match dict_get d k with
  | Some v => jstr v
  | None => Some default
  end.

(** ** Phone numbers ([WhatsAppService.format_phone_number])

    A Python [str] is a sequence of code points.  [str.isdigit] holds of the
    ASCII characters '0'..'9' and of further Unicode digits, whose table is
    the parameter [unicode_isdigit]. *)

Definition pystr := list N.

Definition chr_7 : N := 55.
Definition chr_8 : N := 56.

Definition isdigit (unicode_isdigit : N -> bool) (c : N) : bool :=
  if (c <? 128)%N then (48 <=? c)%N && (c <=? 57)%N else unicode_isdigit c.

Definition startswith (s : pystr) (c : N) : bool :=
  match s with
  | x :: _ => (x =? c)%N
  | [] => false
  end.

Definition format_phone_number (unicode_isdigit : N -> bool) (phone_number : pystr) : pystr :=
  let cleaned := filter (isdigit unicode_isdigit) phone_number in
  if (length cleaned =? 10)%nat && startswith cleaned chr_7 then cleaned
  else if (length cleaned =? 10)%nat then chr_7 :: cleaned
  else if (length cleaned =? 11)%nat && startswith cleaned chr_8 then chr_7 :: tl cleaned
  else cleaned.

Definition validate_phone_number (unicode_isdigit : N -> bool) (phone_number : pystr) : bool :=
  let formatted := format_phone_number unicode_isdigit phone_number in
  (10 <=? length formatted)%nat
  && negb (length formatted =? 0)%nat
  && forallb (isdigit unicode_isdigit) formatted.

(** ** Subscription handshake ([WhatsAppService.verify_webhook] and its route) *)

Inductive Field : Type :=
| FStr (s : string)
| FNum (n : Z).

Inductive Body : Type :=
| BText (s : string)
| BJson (fields : list (string * Field)).

Record Response := mkResponse { body : Body; status_code : Z }.

Definition verify_webhook (verify_token : option string)
    (mode token challenge : option string) : option string :=
  if opt_eqb mode (Some "subscribe") && opt_eqb token verify_token
  then challenge
  else None.

Definition verify_whatsapp_webhook (verify_token : option string)
    (mode token challenge : option string) : Response :=
  let result := verify_webhook verify_token mode token challenge in
  if truthy result
  then mkResponse (BText (match result with Some s => s | None => "" end)) 200
  else mkResponse (BText "Verification failed") 403.

(** ** Models *)

Module Chatbot.
Inductive Status : Type := draft | active | inactive | error.

Definition status_eqb (a b : Status) : bool :=
  match a, b with
  | draft, draft | active, active | inactive, inactive | error, error => true
  | _, _ => false
  end.

Record t := mk {
  id : string;
  company_id : string;
  name : string;
  botpress_bot_id : option string;
  whatsapp_phone_number : option string;
  whatsapp_phone_number_id : option string;
  status : Status;
  auto_response_enabled : bool
}.
End Chatbot.

Module Message.
Inductive Direction : Type := inbound | outbound.

Record t := mk {
  id : string;
  conversation_id : string;
  whatsapp_message_id : option string;
  direction : Direction;
  type : string;
  content : option string;
  media_url : option string;
  media_type : option string;
  sender_phone : option string;
  sender_name : option string;
  timestamp : datetime;
  delivered_at : option datetime;
  read_at : option datetime;
  failed_at : option datetime;
  error_message : option string
}.

(** The [message_data] dictionaries built by the callers of
    [Conversation.add_message].  No caller passes a ['timestamp']. *)
Record data := mk_data {
  d_direction : Direction;
  d_type : option string;
  d_content : option string;
  d_sender_phone : option string;
  d_sender_name : option string;
  d_whatsapp_message_id : option string;
  d_media_url : option string;
  d_media_type : option string;
  d_timestamp : option datetime
}.

(** [Message(conversation_id=..., **message_data)] with the column defaults
    of the insert: [id], [type] and [timestamp]. *)
Definition new (uuid : string) (now : datetime) (conv_id : string) (d : data) : t :=
  {| id := uuid;
     conversation_id := conv_id;
     whatsapp_message_id := d_whatsapp_message_id d;
     direction := d_direction d;
     type := match d_type d with Some ty => ty | None => "text" end;
     content := d_content d;
     media_url := d_media_url d;
     media_type := d_media_type d;
     sender_phone := d_sender_phone d;
     sender_name := d_sender_name d;
     timestamp := match d_timestamp d with Some ts => ts | None => now end;
     delivered_at := None;
     read_at := None;
     failed_at := None;
     error_message := None |}.

(** The values of the Enum of the [type] column. *)
Definition types : list string :=
  ["text"; "image"; "audio"; "video"; "document"; "location"; "contact"; "interactive"].

Definition type_in_enum (self : t) : bool := existsb (String.eqb (type self)) types.

(** Reading a row back: an insert stores any string in [type], but the Enum
    refuses to load a stored string that is not one of its values. *)
Definition load (self : t) : Outcome t :=
  if type_in_enum self then Ok self
  else Raise (LookupError "is not among the defined enum values").

Definition mark_delivered (now : datetime) (self : t) : t :=
  {| id := id self;
     conversation_id := conversation_id self;
     whatsapp_message_id := whatsapp_message_id self;
     direction := direction self;
     type := type self;
     content := content self;
     media_url := media_url self;
     media_type := media_type self;
     sender_phone := sender_phone self;
     sender_name := sender_name self;
     timestamp := timestamp self;
     delivered_at := Some now;
     read_at := read_at self;
     failed_at := failed_at self;
     error_message := error_message self |}.

Definition mark_read (now : datetime) (self : t) : t :=
  {| id := id self;
     conversation_id := conversation_id self;
     whatsapp_message_id := whatsapp_message_id self;
     direction := direction self;
     type := type self;
     content := content self;
     media_url := media_url self;
     media_type := media_type self;
     sender_phone := sender_phone self;
     sender_name := sender_name self;
     timestamp := timestamp self;
     delivered_at := delivered_at self;
     read_at := Some now;
     failed_at := failed_at self;
     error_message := error_message self |}.

Definition mark_failed (now : datetime) (msg : option string) (self : t) : t :=
  {| id := id self;
     conversation_id := conversation_id self;
     whatsapp_message_id := whatsapp_message_id self;
     direction := direction self;
     type := type self;
     content := content self;
     media_url := media_url self;
     media_type := media_type self;
     sender_phone := sender_phone self;
     sender_name := sender_name self;
     timestamp := timestamp self;
     delivered_at := delivered_at self;
     read_at := read_at self;
     failed_at := Some now;
     error_message := msg |}.
End Message.

Module Conversation.
Inductive Status : Type := open | closed | archived.

Definition status_eqb (a b : Status) : bool :=
  match a, b with
  | open, open | closed, closed | archived, archived => true
  | _, _ => false
  end.

Record t := mk {
  id : string;
  chatbot_id : string;
  customer_phone : option string;
  customer_name : option string;
  status : Status;
  started_at : datetime;
  ended_at : option datetime;
  last_message_at : option datetime;
  message_count : Z;
  updated_at : datetime
}.

(** [Conversation(chatbot_id=..., customer_phone=..., customer_name=...,
    status='open', started_at=..., last_message_at=...)] with the column
    defaults [id] and [message_count = 0]. *)
Definition new (uuid : string) (now : datetime) (bot_id : string)
    (phone : option string) : t :=
  {| id := uuid;
     chatbot_id := bot_id;
     customer_phone := phone;
     customer_name := phone;
     status := open;
     started_at := now;
     ended_at := None;
     last_message_at := Some now;
     message_count := 0;
     updated_at := now |}.

(** [add_message]: returns the new message and [self] after its update;
    [message.timestamp] is read before any flush, so it is the value the
    caller gave, if any. *)
Definition add_message (uuid : string) (now : datetime) (self : t)
    (message_data : Message.data) : Message.t * t :=
  let message := Message.new uuid now (id self) message_data in
  (message,
   {| id := id self;
      chatbot_id := chatbot_id self;
      customer_phone := customer_phone self;
      customer_name := customer_name self;
      status := status self;
      started_at := started_at self;
      ended_at := ended_at self;
      last_message_at := Message.d_timestamp message_data;
      message_count := message_count self + 1;
      updated_at := now |}).

Definition close (now : datetime) (self : t) : t :=
  {| id := id self;
     chatbot_id := chatbot_id self;
     customer_phone := customer_phone self;
     customer_name := customer_name self;
     status := closed;
     started_at := started_at self;
     ended_at := Some now;
     last_message_at := last_message_at self;
     message_count := message_count self;
     updated_at := now |}.

Definition reopen (now : datetime) (self : t) : t :=
  {| id := id self;
     chatbot_id := chatbot_id self;
     customer_phone := customer_phone self;
     customer_name := customer_name self;
     status := open;
     started_at := started_at self;
     ended_at := None;
     last_message_at := last_message_at self;
     message_count := message_count self;
     updated_at := now |}.

Definition archive (now : datetime) (self : t) : t :=
  {| id := id self;
     chatbot_id := chatbot_id self;
     customer_phone := customer_phone self;
     customer_name := customer_name self;
     status := archived;
     started_at := started_at self;
     ended_at := ended_at self;
     last_message_at := last_message_at self;
     message_count := message_count self;
     updated_at := now |}.
End Conversation.

Module WebhookEvent.
Record t := mk {
  id : string;
  chatbot_id : option string;
  event_type : option string;
  source : option string;
  payload : option string;
  processed : bool;
  processed_at : option datetime;
  error_message : option string;
  retry_count : Z;
  created_at : datetime
}.

(** Values of the keyword arguments the call sites pass. *)
Inductive KwVal : Type :=
| KStr (s : option string)
| KBool (b : bool)
| KDoc (doc : string).

Definition set_kwarg (self : t) (kw : string * KwVal) : t :=
  match kw with
  | ("processed", KBool b) =>
      mk (id self) (chatbot_id self) (event_type self) (source self) (payload self)
         b (processed_at self) (error_message self) (retry_count self) (created_at self)
  | ("chatbot_id", KStr c) =>
      mk (id self) c (event_type self) (source self) (payload self)
         (processed self) (processed_at self) (error_message self) (retry_count self)
         (created_at self)
  | _ => self
  end.

(** [__init__(self, event_type, source, payload, **kwargs)].  Each of the
    three named parameters is [Some v] when the call passes it and [None]
    when the call leaves it out; they are required, so leaving one out
    raises [TypeError].  A keyword that is no attribute of the model
    ([event_data], [phone_number_id], [bot_id]) is dropped by the [hasattr]
    test.  [id] and [created_at] are unset until the insert fills them, and
    are not read before. *)
Definition init (event_type source payload : option (option string))
    (kwargs : list (string * KwVal)) : Outcome t :=
  match event_type, source, payload with
  | Some et, Some src, Some pl =>
      Ok (fold_left set_kwarg kwargs (mk "" None et src pl false None None 0%Z 0%Z))
  | None, _, _ =>
      Raise (TypeError "__init__() missing 1 required positional argument: 'event_type'")
  | _, None, _ =>
      Raise (TypeError "__init__() missing 1 required positional argument: 'source'")
  | _, _, None =>
      Raise (TypeError "__init__() missing 1 required positional argument: 'payload'")
  end.

Definition mark_processed (now : datetime) (self : t) : t :=
  mk (id self) (chatbot_id self) (event_type self) (source self) (payload self)
     true (Some now) (error_message self) (retry_count self) (created_at self).

Definition mark_failed (msg : string) (self : t) : t :=
  mk (id self) (chatbot_id self) (event_type self) (source self) (payload self)
     (processed self) (processed_at self) (Some msg) (retry_count self + 1)
     (created_at self).

Definition can_retry (max_retries : Z) (self : t) : bool :=
  (retry_count self <? max_retries)%Z && negb (processed self).
End WebhookEvent.

Module AnalyticsEvent.
Record t := mk {
  id : string;
  company_id : string;
  event_name : string;
  chatbot_id : option string;
  user_id : option string;
  event_data : list (string * option string);
  created_at : datetime
}.
End AnalyticsEvent.

(** ** The world outside the process *)

(** The [botpress_message] dictionary handed to the bot backend. *)
Record BotpressMessage := mkBotpressMessage {
  bm_type : string;
  bm_text : option string;
  bm_userId : option string
}.

Record World := mkWorld {
  utcnow : datetime;
  uuid4 : nat -> string;
  json_dumps : Dict -> string;
  (** [hmac.new(key, msg, hashlib.sha256).hexdigest()] *)
  hmac_sha256_hexdigest : string -> string -> string;
  (** [botpress_service.create_conversation(bot_id, user_id, channel)]: the
      ['conversation']['id'] of the reply, or the exception of the call. *)
  botpress_create_conversation : string -> option string -> string -> Outcome (option string);
  (** [botpress_service.send_message(bot_id, conversation_id, message)] *)
  botpress_send_message : string -> option string -> BotpressMessage -> Outcome unit;
  (** [whatsapp_service.mark_message_as_read(phone_number_id, message_id)] *)
  whatsapp_mark_message_as_read : option string -> option string -> Outcome unit;
  (** [whatsapp_service.send_text_message(phone_number_id, to, message)]: the
      ['messages'] list of the reply, each entry reduced to its ['id']. *)
  whatsapp_send_text_message : string -> string -> string -> Outcome (option (list (option string)));
  (** [str.upper] on a string that holds a character outside ASCII *)
  str_upper : string -> string
}.

(** ** Database and session *)

Record Db := mkDb {
  chatbots : list Chatbot.t;
  conversations : list Conversation.t;
  messages : list Message.t;
  webhook_events : list WebhookEvent.t;
  analytics_events : list AnalyticsEvent.t
}.

Definition empty_db : Db := mkDb [] [] [] [] [].

(** A session: the last committed database, the state the session sees
    (committed rows plus pending changes), and how many ids were drawn. *)
Record Session := mkSession {
  committed : Db;
  current : Db;
  drawn : nat
}.

Definition begin (db0 : Db) : Session := mkSession db0 db0 0.

Definition M (A : Type) : Type := Session -> Outcome A * Session.

Definition ret {A} (a : A) : M A := fun s => (Ok a, s).

Definition bind {A B} (m : M A) (k : A -> M B) : M B :=
  fun s =>
    match m s with
    | (Ok a, s') => k a s'
    | (Raise e, s') => (Raise e, s')
    end.

Definition raise {A} (e : PyExn) : M A := fun s => (Raise e, s).

(** [try: m except Exception as e: h e] *)
Definition try_except {A} (m : M A) (h : PyExn -> M A) : M A :=
  fun s =>
    match m s with
    | (Ok a, s') => (Ok a, s')
    | (Raise e, s') => h e s'
    end.

Definition lift {A} (o : Outcome A) : M A := fun s => (o, s).

Declare Scope py_scope.
Delimit Scope py_scope with py.
Notation "x <- m ;; k" := (bind m (fun x => k))
  (at level 61, m at next level, right associativity) : py_scope.
Notation "m ;; k" := (bind m (fun _ => k))
  (at level 61, right associativity) : py_scope.
Local Open Scope py_scope.

Fixpoint for_each {A} (l : list A) (f : A -> M unit) : M unit :=
  match l with
  | [] => ret tt
  | x :: l' => f x ;; for_each l' f
  end.

Definition get_db : M Db := fun s => (Ok (current s), s).

Definition modify_db (f : Db -> Db) : M unit :=
  fun s => (Ok tt, mkSession (committed s) (f (current s)) (drawn s)).

(** The next [uuid.uuid4()]. *)
Definition fresh_uuid (w : World) : M string :=
  fun s => (Ok (uuid4 w (drawn s)), mkSession (committed s) (current s) (S (drawn s))).

Fixpoint distinct (l : list string) : bool :=
  match l with
  | [] => true
  | x :: l' => negb (existsb (String.eqb x) l') && distinct l'
  end.

Definition is_some {A} (o : option A) : bool :=
  match o with Some _ => true | None => false end.

(** What a flush checks: primary keys, and the NOT NULL columns the webhook
    code can leave unset.  [WebhookEvent.payload] is a JSON column: a [None]
    is stored as the JSON value null, which is not NULL. *)
Definition constraints_ok (d : Db) : bool :=
  distinct (map Conversation.id (conversations d))
  && distinct (map Message.id (messages d))
  && distinct (map WebhookEvent.id (webhook_events d))
  && distinct (map AnalyticsEvent.id (analytics_events d))
  && forallb (fun c => is_some (Conversation.customer_phone c)) (conversations d)
  && forallb (fun e => is_some (WebhookEvent.event_type e)
                       && is_some (WebhookEvent.source e)) (webhook_events d).

Definition flush : M unit :=
  fun s =>
    if constraints_ok (current s) then (Ok tt, s)
    else (Raise (IntegrityError "constraint failed"), s).

Definition commit : M unit :=
  fun s =>
    if constraints_ok (current s)
    then (Ok tt, mkSession (current s) (current s) (drawn s))
    else (Raise (IntegrityError "constraint failed"), s).

Definition rollback : M unit :=
  fun s => (Ok tt, mkSession (committed s) (committed s) (drawn s)).

(** A request runs [handler] in a session begun on [db0]; what persists is
    what was committed. *)
Definition serve {A} (handler : M A) (db0 : Db) : Outcome A * Db :=
  let (r, s) := handler (begin db0) in (r, committed s).

(** *** Queries and writes *)

Definition set_conversations (l : list Conversation.t) (d : Db) : Db :=
  mkDb (chatbots d) l (messages d) (webhook_events d) (analytics_events d).
Definition set_messages (l : list Message.t) (d : Db) : Db :=
  mkDb (chatbots d) (conversations d) l (webhook_events d) (analytics_events d).
Definition set_webhook_events (l : list WebhookEvent.t) (d : Db) : Db :=
  mkDb (chatbots d) (conversations d) (messages d) l (analytics_events d).
Definition set_analytics_events (l : list AnalyticsEvent.t) (d : Db) : Db :=
  mkDb (chatbots d) (conversations d) (messages d) (webhook_events d) l.

(** [Chatbot.query.filter_by(whatsapp_phone_number_id=..., status='active').first()] *)
Definition chatbot_by_phone_number_id (d : Db) (phone_number_id : option string)
    : option Chatbot.t :=
  find (fun b => opt_eqb (Chatbot.whatsapp_phone_number_id b) phone_number_id
                 && Chatbot.status_eqb (Chatbot.status b) Chatbot.active)
       (chatbots d).

(** [Chatbot.query.filter_by(botpress_bot_id=..., status='active').first()] *)
Definition chatbot_by_botpress_bot_id (d : Db) (bot_id : option string)
    : option Chatbot.t :=
  find (fun b => opt_eqb (Chatbot.botpress_bot_id b) bot_id
                 && Chatbot.status_eqb (Chatbot.status b) Chatbot.active)
       (chatbots d).

Definition chatbot_by_id (d : Db) (id : string) : option Chatbot.t :=
  find (fun b => String.eqb (Chatbot.id b) id) (chatbots d).

(** [Conversation.query.filter_by(chatbot_id=..., customer_phone=...,
    status='open').first()] *)
Definition open_conversation (d : Db) (bot_id : string) (phone : option string)
    : option Conversation.t :=
  find (fun c => String.eqb (Conversation.chatbot_id c) bot_id
                 && opt_eqb (Conversation.customer_phone c) phone
                 && Conversation.status_eqb (Conversation.status c) Conversation.open)
       (conversations d).

(** [Conversation.query.get(id)] *)
Definition conversation_by_id (d : Db) (id : string) : option Conversation.t :=
  find (fun c => String.eqb (Conversation.id c) id) (conversations d).

(** [.first()] of a query on messages: the first selected row is loaded. *)
Definition first_loaded (selected : option Message.t) : Outcome (option Message.t) :=
  match selected with
  | Some m =>
      match Message.load m with
      | Ok m' => Ok (Some m')
      | Raise e => Raise e
      end
  | None => Ok None
  end.

(** [.all()] of a query on messages: every selected row is loaded. *)
Definition all_loaded (selected : list Message.t) : Outcome (list Message.t) :=
  if forallb Message.type_in_enum selected then Ok selected
  else Raise (LookupError "is not among the defined enum values").

(** [Message.query.filter_by(whatsapp_message_id=...).first()] *)
Definition message_by_whatsapp_id (d : Db) (wid : option string)
    : Outcome (option Message.t) :=
  first_loaded (find (fun m => opt_eqb (Message.whatsapp_message_id m) wid) (messages d)).

(** [WebhookEvent.query.get(id)]; [get(None)] finds nothing. *)
Definition webhook_event_by_id (d : Db) (id : option string) : option WebhookEvent.t :=
  match id with
  | Some i => find (fun e => String.eqb (WebhookEvent.id e) i) (webhook_events d)
  | None => None
  end.

(** A method that writes attributes of a loaded object changes the row of
    that primary key. *)
Definition update_conversation (id : string) (method : Conversation.t -> Conversation.t)
    (d : Db) : Db :=
  set_conversations
    (map (fun c => if String.eqb (Conversation.id c) id then method c else c)
         (conversations d)) d.

Definition update_message (id : string) (method : Message.t -> Message.t) (d : Db) : Db :=
  set_messages
    (map (fun m => if String.eqb (Message.id m) id then method m else m) (messages d)) d.

Definition update_webhook_event (id : string) (method : WebhookEvent.t -> WebhookEvent.t)
    (d : Db) : Db :=
  set_webhook_events
    (map (fun e => if String.eqb (WebhookEvent.id e) id then method e else e)
         (webhook_events d)) d.

Definition insert_conversation (c : Conversation.t) (d : Db) : Db :=
  set_conversations (conversations d ++ [c]) d.
Definition insert_message (m : Message.t) (d : Db) : Db :=
  set_messages (messages d ++ [m]) d.
Definition insert_webhook_event (e : WebhookEvent.t) (d : Db) : Db :=
  set_webhook_events (webhook_events d ++ [e]) d.
Definition insert_analytics_event (e : AnalyticsEvent.t) (d : Db) : Db :=
  set_analytics_events (analytics_events d ++ [e]) d.

(** [conversation.add_message(message_data)] on a loaded conversation. *)
Definition session_add_message (w : World) (self : Conversation.t)
    (message_data : Message.data) : M Message.t :=
  uuid <- fresh_uuid w ;;
  let message := fst (Conversation.add_message uuid (utcnow w) self message_data) in
  modify_db (insert_message message) ;;
  modify_db (update_conversation (Conversation.id self)
               (fun c => snd (Conversation.add_message uuid (utcnow w) c message_data))) ;;
  ret message.

(** [AnalyticsEvent.track_event(company_id, event_name, chatbot_id=...,
    user_id=..., event_data=...)] *)
Definition track_event (w : World) (company_id event_name : string)
    (chatbot_id : string) (user_id : option string)
    (event_data : list (string * option string)) : M unit :=
  uuid <- fresh_uuid w ;;
  modify_db (insert_analytics_event
               (AnalyticsEvent.mk uuid company_id event_name (Some chatbot_id) user_id
                                  event_data (utcnow w))).

(** [db.session.add(webhook_event)]: the insert fills [id] and [created_at]. *)
Definition session_add_webhook_event (w : World) (e : WebhookEvent.t)
    : M WebhookEvent.t :=
  uuid <- fresh_uuid w ;;
  let row := WebhookEvent.mk uuid (WebhookEvent.chatbot_id e) (WebhookEvent.event_type e)
               (WebhookEvent.source e) (WebhookEvent.payload e) (WebhookEvent.processed e)
               (WebhookEvent.processed_at e) (WebhookEvent.error_message e)
               (WebhookEvent.retry_count e) (utcnow w) in
  modify_db (insert_webhook_event row) ;;
  ret row.

(** [webhook_event = WebhookEvent.query.get(id); if webhook_event: ...] *)
Definition mark_webhook_event_processed (w : World) (webhook_event_id : option string)
    : M unit :=
  d <- get_db ;;
  match webhook_event_by_id d webhook_event_id with
  | Some webhook_event =>
      modify_db (update_webhook_event (WebhookEvent.id webhook_event)
                   (WebhookEvent.mark_processed (utcnow w)))
  | None => ret tt
  end.

(** ** The inbound-channel adapter ([WhatsAppService.process_webhook_event]) *)

Record WaMessage := mkWaMessage {
  wm_id : option string;
  wm_from : option string;
  wm_timestamp : option string;
  wm_type : option string;
  (** the nested dictionaries ['text'], ['image'], ['video'], ... *)
  wm_fields : list (string * Dict);
  wm_contacts : option JVal
}.

Record WaStatus := mkWaStatus {
  ws_id : option string;
  ws_recipient_id : option string;
  ws_status : option string;
  ws_timestamp : option string
}.

Record WaValue := mkWaValue {
  wv_phone_number_id : option string;
  wv_display_phone_number : option string;
  wv_messages : list WaMessage;
  wv_statuses : list WaStatus
}.

Record WaChange := mkWaChange {
  wc_field : option string;
  wc_value : WaValue
}.

(** [webhook_data['entry']]: each entry is the list of its ['changes']. *)
Definition WaPayload := list (list WaChange).

Record MessageEvent := mkMessageEvent {
  me_message_id : option string;
  me_from : option string;
  me_timestamp : option string;
  me_message_type : option string;
  me_content : Dict;
  me_phone_number_id : option string;
  me_display_phone_number : option string
}.

Record StatusEvent := mkStatusEvent {
  se_message_id : option string;
  se_recipient_id : option string;
  se_status : option string;
  se_timestamp : option string;
  se_phone_number_id : option string;
  (** the ['error'] entry; the adapter never sets it *)
  se_error : option Dict
}.

Inductive Event : Type :=
| message_received (e : MessageEvent)
| message_status (e : StatusEvent).

(** [event['type']] *)
Definition event_type (ev : Event) : string :=
  match ev with
  | message_received _ => "message_received"
  | message_status _ => "message_status"
  end.

Definition event_phone_number_id (ev : Event) : option string :=
  match ev with
  | message_received e => me_phone_number_id e
  | message_status e => se_phone_number_id e
  end.

Fixpoint sub_dict (l : list (string * Dict)) (k : string) : Dict :=
  match l with
  | [] => []
  | (k', d) :: l' => if String.eqb k k' then d else sub_dict l' k
  end.

(** [d.get(k)] and [d.get(k, default)] as JSON values. *)
Definition get (d : Dict) (k : string) : JVal :=
  match dict_get d k with Some v => v | None => JNull end.
Definition get_default (d : Dict) (k : string) (default : JVal) : JVal :=
  match dict_get d k with Some v => v | None => default end.

Definition media_content (d : Dict) (captioned named : bool) : Dict :=
  [("media_id", get d "id"); ("mime_type", get d "mime_type"); ("sha256", get d "sha256")]
  ++ (if named then [("filename", get_default d "filename" (JString ""))] else [])
  ++ (if captioned then [("caption", get_default d "caption" (JString ""))] else []).

Definition _extract_message_content (message : WaMessage) : Dict :=
  let ty := wm_type message in
  let part := sub_dict (wm_fields message) in
  if opt_eqb ty (Some "text") then
    [("text", get_default (part "text") "body" (JString ""))]
  else if opt_eqb ty (Some "image") then media_content (part "image") true false
  else if opt_eqb ty (Some "video") then media_content (part "video") true false
  else if opt_eqb ty (Some "audio") then media_content (part "audio") false false
  else if opt_eqb ty (Some "document") then media_content (part "document") true true
  else if opt_eqb ty (Some "location") then
    let d := part "location" in
    [("latitude", get d "latitude"); ("longitude", get d "longitude");
     ("name", get_default d "name" (JString ""));
     ("address", get_default d "address" (JString ""))]
  else if opt_eqb ty (Some "contacts") then
    [("contacts", match wm_contacts message with Some v => v | None => JRaw "[]" end)]
  else if opt_eqb ty (Some "interactive") then
    let d := part "interactive" in
    [("type", get d "type"); ("button_reply", get d "button_reply");
     ("list_reply", get d "list_reply")]
  else [].

Definition events_of_change (change : WaChange) : list Event :=
  if opt_eqb (wc_field change) (Some "messages") then
    let value := wc_value change in
    map (fun message =>
           message_received
             (mkMessageEvent (wm_id message) (wm_from message) (wm_timestamp message)
                (wm_type message) (_extract_message_content message)
                (wv_phone_number_id value) (wv_display_phone_number value)))
        (wv_messages value)
    ++ map (fun st =>
              message_status
                (mkStatusEvent (ws_id st) (ws_recipient_id st) (ws_status st)
                   (ws_timestamp st) (wv_phone_number_id value) None))
           (wv_statuses value)
  else [].

Definition process_webhook_event (webhook_data : WaPayload) : list Event :=
  flat_map (fun entry_item => flat_map events_of_change entry_item) webhook_data.

(** ** The relay ([src/routes/webhooks.py]) *)

Definition upper_ascii (c : ascii) : ascii :=
  let n := nat_of_ascii c in
  if (97 <=? n)%nat && (n <=? 122)%nat then ascii_of_nat (n - 32) else c.

Fixpoint ascii_upper (s : string) : string :=
  match s with
  | EmptyString => EmptyString
  | String c s' => String (upper_ascii c) (ascii_upper s')
  end.

(** [s.upper()]: computed on ASCII strings, the library's answer on the
    others. *)
Definition upper (w : World) (s : string) : string :=
  if str_is_ascii s then ascii_upper s else str_upper w s.

(** The [try: ... except Exception: log] around a call to a service. *)
Definition logged {A} (o : Outcome A) : M unit :=
  try_except (lift o ;; ret tt) (fun _ => ret tt).

(** The forwarding block of [await_process_whatsapp_message]: the outcome of
    the two calls to the bot backend. *)
Definition forward_to_botpress (w : World) (bot_id : string)
    (customer_phone message_type : option string) (message_content : Dict)
    : Outcome unit :=
  match botpress_create_conversation w bot_id customer_phone "whatsapp" with
  | Raise e => Raise e
  | Ok botpress_conversation_id =>
      let text :=
        if opt_eqb message_type (Some "text")
        then Ok (get_str_default message_content "text" "")
        else match message_type with
             | Some ty => Ok (Some ("[" ++ upper w ty ++ "] message received")%string)
             | None => Raise (AttributeError "'NoneType' object has no attribute 'upper'")
             end in
      match text with
      | Raise e => Raise e
      | Ok t =>
          botpress_send_message w bot_id botpress_conversation_id
            (mkBotpressMessage "text" t customer_phone)
      end
  end.

(** "Find or create conversation": the query of
    [await_process_whatsapp_message] on the state [d] it read, and the insert,
    flush and analytics event when no conversation is open. *)
Definition find_or_create_conversation (w : World) (d : Db) (chatbot : Chatbot.t)
    (customer_phone : option string) : M Conversation.t :=
  match open_conversation d (Chatbot.id chatbot) customer_phone with
  | Some conversation => ret conversation
  | None =>
      uuid <- fresh_uuid w ;;
      let conversation :=
        Conversation.new uuid (utcnow w) (Chatbot.id chatbot) customer_phone in
      modify_db (insert_conversation conversation) ;;
      flush ;;
      track_event w (Chatbot.company_id chatbot) "conversation_started"
        (Chatbot.id chatbot) None
        [("conversation_id", Some (Conversation.id conversation));
         ("customer_phone", customer_phone); ("channel", Some "whatsapp")] ;;
      ret conversation
  end.

(** The rest of [await_process_whatsapp_message]: "Create message record",
    the analytics event, the forwarding to the bot backend, the read receipt
    and the update of the webhook event. *)
Definition store_and_forward (w : World) (event : MessageEvent)
    (webhook_event_id : option string) (chatbot : Chatbot.t)
    (conversation : Conversation.t) : M unit :=
  let phone_number_id := me_phone_number_id event in
  let customer_phone := me_from event in
  let message_content := me_content event in
  let message_type := me_message_type event in
  let is_text := opt_eqb message_type (Some "text") in
  let message_data :=
    Message.mk_data Message.inbound message_type
      (if is_text then get_str_default message_content "text" ""
       else Some (json_dumps w message_content))
      customer_phone customer_phone (me_message_id event)
      (if is_text then None else get_str message_content "media_id")
      (if is_text then None else get_str message_content "mime_type")
      None in
  message <- session_add_message w conversation message_data ;;
  track_event w (Chatbot.company_id chatbot) "message_received" (Chatbot.id chatbot)
    None
    [("conversation_id", Some (Conversation.id conversation)); ("message_id", None);
     ("message_type", message_type); ("customer_phone", customer_phone)] ;;
  (if truthy (Chatbot.botpress_bot_id chatbot) && Chatbot.auto_response_enabled chatbot
   then logged (forward_to_botpress w
                  (match Chatbot.botpress_bot_id chatbot with Some b => b | None => "" end)
                  customer_phone message_type message_content)
   else ret tt) ;;
  logged (whatsapp_mark_message_as_read w phone_number_id (me_message_id event)) ;;
  mark_webhook_event_processed w webhook_event_id.

Definition await_process_whatsapp_message (w : World) (event : MessageEvent)
    (webhook_event_id : option string) : M unit :=
  d <- get_db ;;
  match chatbot_by_phone_number_id d (me_phone_number_id event) with
  | None => ret tt
  | Some chatbot =>
      conversation <- find_or_create_conversation w d chatbot (me_from event) ;;
      store_and_forward w event webhook_event_id chatbot conversation
  end.

Definition apply_status (w : World) (status : option string) (error : option Dict)
    (message : Message.t) : Message.t :=
  if opt_eqb status (Some "sent") then Message.mark_delivered (utcnow w) message
  else if opt_eqb status (Some "delivered") then Message.mark_delivered (utcnow w) message
  else if opt_eqb status (Some "read") then Message.mark_read (utcnow w) message
  else if opt_eqb status (Some "failed") then
    Message.mark_failed (utcnow w)
      (get_str_default (match error with Some e => e | None => [] end)
                       "message" "Unknown error")
      message
  else message.

Definition await_process_whatsapp_status (w : World) (event : StatusEvent)
    (webhook_event_id : option string) : M unit :=
  let message_id := se_message_id event in
  let status := se_status event in
  d <- get_db ;;
  found <- lift (message_by_whatsapp_id d message_id) ;;
  match found with
  | Some message =>
      modify_db (update_message (Message.id message)
                   (apply_status w status (se_error event)))
  | None => ret tt
  end ;;
  mark_webhook_event_processed w webhook_event_id.

Definition error_response (msg : string) (code : Z) : Response :=
  mkResponse (BJson [("error", FStr msg)]) code.

(** The body of the loop of [handle_whatsapp_webhook]: "Store webhook event"
    and "Process different event types", for a given way [new_event] of
    building the [WebhookEvent]. *)
Definition record_and_process (new_event : Event -> Outcome WebhookEvent.t) (w : World)
    (event : Event) : M unit :=
  webhook_event <- lift (new_event event) ;;
  session_add_webhook_event w webhook_event ;;
  match event with
  | message_received e => await_process_whatsapp_message w e None
  | message_status e => await_process_whatsapp_status w e None
  end.

(** The body of the [try] of [handle_whatsapp_webhook], for a given way
    [new_event] of building the [WebhookEvent] of a sub-event.
    [webhook_event.id] is read before any flush, so it is [None]. *)
Definition handle_whatsapp_webhook_try (new_event : Event -> Outcome WebhookEvent.t)
    (w : World) (json : option WaPayload) : M Response :=
  webhook_data <- match json with
                  | Some j => ret j
                  | None => raise BadRequest
                  end ;;
  let events := process_webhook_event webhook_data in
  for_each events (record_and_process new_event w) ;;
  commit ;;
  ret (mkResponse (BJson [("status", FStr "success");
                          ("processed_events", FNum (Z.of_nat (length events)))]) 200).

Definition handle_whatsapp_webhook_with (new_event : Event -> Outcome WebhookEvent.t)
    (w : World) (json : option WaPayload) : M Response :=
  try_except (handle_whatsapp_webhook_try new_event w json)
    (fun _ => rollback ;; ret (error_response "Webhook processing failed" 500)).

(** The call the handler makes: [WebhookEvent(source='whatsapp',
    event_type=event['type'], event_data=event,
    phone_number_id=event.get('phone_number_id'), processed=False)].  It
    passes no [payload]. *)
Definition whatsapp_webhook_event (event : Event) : Outcome WebhookEvent.t :=
  WebhookEvent.init (Some (Some (event_type event))) (Some (Some "whatsapp")) None
    [("event_data", WebhookEvent.KDoc "event");
     ("phone_number_id", WebhookEvent.KStr (event_phone_number_id event));
     ("processed", WebhookEvent.KBool false)].

Definition handle_whatsapp_webhook (w : World) (json : option WaPayload) : M Response :=
  handle_whatsapp_webhook_with whatsapp_webhook_event w json.

(** ** The bot-backend adapter and its webhook *)

Module BotpressService.
Definition is_ascii (s : string) : bool :=
  forallb (fun c => (nat_of_ascii c <? 128)%nat) (list_ascii_of_string s).

(** [hmac.compare_digest] on two [str]: both must be ASCII. *)
Definition compare_digest (a b : string) : Outcome bool :=
  if is_ascii a && is_ascii b then Ok (String.eqb a b)
  else Raise (TypeError "comparing strings with non-ASCII characters is not supported").

Definition validate_webhook_signature (w : World) (payload signature secret : string)
    : Outcome bool :=
  let expected_signature := hmac_sha256_hexdigest w secret payload in
  compare_digest signature ("sha256=" ++ expected_signature)%string.

(** What a key that the code reads as a dictionary holds: nothing, a JSON
    object, or another JSON value (null, a string, a number, a list). *)
Inductive ObjectField : Type :=
| absent
| not_an_object
| object (d : Dict).

(** The body of a bot-backend callback. *)
Record Payload := mkPayload {
  type : option string;
  botId : option string;
  conversationId : option string;
  payload : ObjectField;
  userId : option string
}.

(** [message_data.get('payload', {}).get('text', '')] *)
Definition payload_text (message_data : Payload) : Outcome (option string) :=
  match payload message_data with
  | absent => Ok (Some "")
  | object p => Ok (get_str_default p "text" "")
  | not_an_object => Raise (AttributeError "object has no attribute 'get'")
  end.

Record ProcessedEvent := mkProcessedEvent {
  event_type : option string;
  bot_id : option string;
  conversation_id : option string;
  data : Payload
}.

Definition process_webhook_event (event_data : Payload) : ProcessedEvent :=
  mkProcessedEvent (type event_data) (botId event_data) (conversationId event_data)
                   event_data.
End BotpressService.

Definition await_process_botpress_message (w : World)
    (event : BotpressService.ProcessedEvent) (webhook_event_id : option string) : M unit :=
  let bot_id := BotpressService.bot_id event in
  let conversation_id := BotpressService.conversation_id event in
  let message_data := BotpressService.data event in
  d <- get_db ;;
  match chatbot_by_botpress_bot_id d bot_id with
  | None => ret tt
  | Some chatbot =>
      message_text <- lift (BotpressService.payload_text message_data) ;;
      let user_id := BotpressService.userId message_data in
      if negb (truthy message_text) || negb (truthy user_id) then ret tt
      else
        match open_conversation d (Chatbot.id chatbot) user_id with
        | None => ret tt
        | Some conversation =>
            (if truthy (Chatbot.whatsapp_phone_number_id chatbot) then
               try_except
                 (whatsapp_response <-
                    lift (whatsapp_send_text_message w
                            (match Chatbot.whatsapp_phone_number_id chatbot with
                             | Some p => p | None => "" end)
                            (match user_id with Some u => u | None => "" end)
                            (match message_text with Some t => t | None => "" end)) ;;
                  wid <- match whatsapp_response with
                         | None => ret None
                         | Some [] => raise (IndexError "list index out of range")
                         | Some (first :: _) => ret first
                         end ;;
                  let message_record_data :=
                    Message.mk_data Message.outbound (Some "text") message_text
                      (Chatbot.whatsapp_phone_number chatbot) (Some (Chatbot.name chatbot))
                      wid None None None in
                  added <- session_add_message w conversation message_record_data ;;
                  track_event w (Chatbot.company_id chatbot) "message_sent"
                    (Chatbot.id chatbot) None
                    [("conversation_id", Some (Conversation.id conversation));
                     ("message_id", None); ("message_type", Some "text");
                     ("customer_phone", user_id); ("bot_response", Some "True")])
                 (fun _ => ret tt)
             else ret tt) ;;
            mark_webhook_event_processed w webhook_event_id
        end
  end.

Definition await_process_botpress_conversation_started (w : World)
    (event : BotpressService.ProcessedEvent) (webhook_event_id : option string) : M unit :=
  mark_webhook_event_processed w webhook_event_id.

Definition await_process_botpress_conversation_ended (w : World)
    (event : BotpressService.ProcessedEvent) (webhook_event_id : option string) : M unit :=
  mark_webhook_event_processed w webhook_event_id.

(** What [request.get_json()] gives. *)
Inductive JsonBody : Type :=
| no_json                                  (** the call raises *)
| json_value                               (** a JSON value that is not an object *)
| json_object (body : BotpressService.Payload).

Record BotpressRequest := mkBotpressRequest {
  br_json : JsonBody;
  (** the [X-Botpress-Signature] header *)
  br_signature : option string;
  (** [request.get_data(as_text=True)] *)
  br_data : string
}.

(** The signature check of [handle_botpress_webhook]: [true] when the request
    is to be rejected.  [webhook_secret] is the configured
    [BOTPRESS_WEBHOOK_SECRET]. *)
Definition signature_rejected (w : World) (webhook_secret : option string)
    (rq : BotpressRequest) : Outcome bool :=
  let signature := br_signature rq in
  if truthy signature then
    if truthy webhook_secret then
      let payload := br_data rq in
      match BotpressService.validate_webhook_signature w payload
              (match signature with Some x => x | None => "" end)
              (match webhook_secret with Some x => x | None => "" end) with
      | Ok valid => Ok (negb valid)
      | Raise e => Raise e
      end
    else Ok false
  else Ok false.

Definition handle_botpress_webhook_try
    (new_event : BotpressService.ProcessedEvent -> Outcome WebhookEvent.t)
    (w : World) (webhook_secret : option string) (rq : BotpressRequest) : M Response :=
  webhook_data <- match br_json rq with
                  | no_json => raise BadRequest
                  | body => ret body
                  end ;;
  rejected <- lift (signature_rejected w webhook_secret rq) ;;
  if rejected then ret (error_response "Invalid signature" 403)
  else
    processed_event <-
      match webhook_data with
      | json_object body => ret (BotpressService.process_webhook_event body)
      | _ => raise (AttributeError "object has no attribute 'get'")
      end ;;
    let ty := BotpressService.event_type processed_event in
    webhook_event <- lift (new_event processed_event) ;;
    row <- session_add_webhook_event w webhook_event ;;
    flush ;;
    (if opt_eqb ty (Some "message_received") then
       await_process_botpress_message w processed_event (Some (WebhookEvent.id row))
     else if opt_eqb ty (Some "conversation_started") then
       await_process_botpress_conversation_started w processed_event
         (Some (WebhookEvent.id row))
     else if opt_eqb ty (Some "conversation_ended") then
       await_process_botpress_conversation_ended w processed_event
         (Some (WebhookEvent.id row))
     else ret tt) ;;
    commit ;;
    ret (mkResponse (BJson [("status", FStr "success")]) 200).

Definition handle_botpress_webhook_with
    (new_event : BotpressService.ProcessedEvent -> Outcome WebhookEvent.t)
    (w : World) (webhook_secret : option string) (rq : BotpressRequest) : M Response :=
  try_except (handle_botpress_webhook_try new_event w webhook_secret rq)
    (fun _ => rollback ;; ret (error_response "Webhook processing failed" 500)).

(** The call the handler makes: [WebhookEvent(source='botpress',
    event_type=processed_event['event_type'], event_data=processed_event,
    bot_id=processed_event.get('bot_id'), processed=False)].  It passes no
    [payload]. *)
Definition botpress_webhook_event (processed_event : BotpressService.ProcessedEvent)
    : Outcome WebhookEvent.t :=
  WebhookEvent.init (Some (BotpressService.event_type processed_event))
    (Some (Some "botpress")) None
    [("event_data", WebhookEvent.KDoc "processed_event");
     ("bot_id", WebhookEvent.KStr (BotpressService.bot_id processed_event));
     ("processed", WebhookEvent.KBool false)].

Definition handle_botpress_webhook (w : World) (webhook_secret : option string)
    (rq : BotpressRequest) : M Response :=
  handle_botpress_webhook_with botpress_webhook_event w webhook_secret rq.

(** ** Users ([src/models/user.py]) *)

Module User.
Record t := mk {
  id : string;
  (** the ids of the companies the user owns or is a member of *)
  companies : list string
}.

(** [get_companies] as written.  It starts by reading
    [self.owned_companies]; the relationship of that name is commented out
    in the model and nothing else defines it, so the read raises. *)
Definition get_companies (self : t) : Outcome (list string) :=
  Raise (AttributeError "'User' object has no attribute 'owned_companies'").
End User.

(** ** Conversation routes ([src/routes/conversations.py])

    [user] is what [User.find_by_id] finds.  The routes are given for any
    [get_companies], which stands for
    [[comp['company'].id for comp in user.get_companies()]]; the routes of
    the code are the instances with [User.get_companies].  A response
    carries the id of the conversation or message in place of its
    [to_dict()], and the analytics event of [close_conversation] leaves out
    the duration. *)

Definition with_access_with (get_companies : User.t -> Outcome (list string))
    (user : option User.t) (conversation_id : string)
    (action : Chatbot.t -> Conversation.t -> M Response) : M Response :=
  match user with
  | None => ret (error_response "User not found" 404)
  | Some u =>
      d <- get_db ;;
      match conversation_by_id d conversation_id with
      | None => ret (error_response "Conversation not found" 404)
      | Some conversation =>
          let chatbot := chatbot_by_id d (Conversation.chatbot_id conversation) in
          user_companies <- lift (get_companies u) ;;
          match chatbot with
          | None => raise (AttributeError "'NoneType' object has no attribute 'company_id'")
          | Some chatbot =>
              if existsb (String.eqb (Chatbot.company_id chatbot)) user_companies
              then action chatbot conversation
              else ret (error_response "Access denied" 403)
          end
      end
  end.

Definition reopen_conversation_with (get_companies : User.t -> Outcome (list string))
    (w : World) (user : option User.t) (conversation_id : string) : M Response :=
  try_except
    (with_access_with get_companies user conversation_id (fun chatbot conversation =>
       modify_db (update_conversation (Conversation.id conversation)
                    (Conversation.reopen (utcnow w))) ;;
       commit ;;
       ret (mkResponse (BJson [("message", FStr "Conversation reopened successfully");
                               ("conversation", FStr conversation_id)]) 200)))
    (fun _ => rollback ;; ret (error_response "Failed to reopen conversation" 500)).

Definition close_conversation_with (get_companies : User.t -> Outcome (list string))
    (w : World) (user : option User.t) (user_id : string) (conversation_id : string)
    : M Response :=
  try_except
    (with_access_with get_companies user conversation_id (fun chatbot conversation =>
       modify_db (update_conversation (Conversation.id conversation)
                    (Conversation.close (utcnow w))) ;;
       commit ;;
       track_event w (Chatbot.company_id chatbot) "conversation_ended" (Chatbot.id chatbot)
         (Some user_id)
         [("conversation_id", Some conversation_id);
          ("customer_phone", Conversation.customer_phone conversation)] ;;
       commit ;;
       ret (mkResponse (BJson [("message", FStr "Conversation closed successfully");
                               ("conversation", FStr conversation_id)]) 200)))
    (fun _ => rollback ;; ret (error_response "Failed to close conversation" 500)).

(** The JSON body of [POST /<conversation_id>/messages]. *)
Record SendMessageData := mkSendMessageData {
  sm_content : option string;
  sm_type : option string;
  sm_media_url : option string;
  sm_media_type : option string
}.

Definition send_message_with (get_companies : User.t -> Outcome (list string))
    (w : World) (user : option User.t) (user_id : string) (conversation_id : string)
    (data : SendMessageData) : M Response :=
  try_except
    (with_access_with get_companies user conversation_id (fun chatbot conversation =>
       if negb (truthy (sm_content data))
       then ret (error_response "Message content is required" 400)
       else
         let message_data :=
           Message.mk_data Message.outbound
             (Some (match sm_type data with Some ty => ty | None => "text" end))
             (sm_content data) (Chatbot.whatsapp_phone_number chatbot)
             (Some (Chatbot.name chatbot)) None (sm_media_url data) (sm_media_type data)
             None in
         added <- session_add_message w conversation message_data ;;
         commit ;;
         track_event w (Chatbot.company_id chatbot) "message_sent" (Chatbot.id chatbot)
           (Some user_id)
           [("conversation_id", Some conversation_id);
            ("message_type", Some (Message.type added));
            ("customer_phone", Conversation.customer_phone conversation)] ;;
         commit ;;
         ret (mkResponse (BJson [("message", FStr "Message sent successfully");
                                 ("message_data", FStr (Message.id added))]) 201)))
    (fun _ => rollback ;; ret (error_response "Failed to send message" 500)).

(** The routes of the code. *)
Definition reopen_conversation := reopen_conversation_with User.get_companies.
Definition close_conversation := close_conversation_with User.get_companies.
Definition send_message := send_message_with User.get_companies.

(** ** The requests that change the stored state

    The two webhooks and the conversation routes that write a message or a
    status.  The remaining conversation routes (assignment, tags, metadata)
    write columns that are not part of the model. *)

Inductive Request : Type :=
| WhatsAppWebhook (json : option WaPayload)
| BotpressWebhook (webhook_secret : option string) (rq : BotpressRequest)
| SendMessage (user : option User.t) (user_id conversation_id : string)
              (data : SendMessageData)
| CloseConversation (user : option User.t) (user_id conversation_id : string)
| ReopenConversation (user : option User.t) (conversation_id : string).

(** Three calls of the handlers raise on every input as the code is
    written: the two [WebhookEvent(...)] calls, which leave out the required
    [payload], and [user.get_companies()].  [Calls] gives the handlers for
    any three such calls, [as_written] is the code's. *)
Record Calls := mkCalls {
  whatsapp_event : Event -> Outcome WebhookEvent.t;
  botpress_event : BotpressService.ProcessedEvent -> Outcome WebhookEvent.t;
  get_companies : User.t -> Outcome (list string)
}.

Definition as_written : Calls :=
  mkCalls whatsapp_webhook_event botpress_webhook_event User.get_companies.

Definition handle_with (c : Calls) (w : World) (r : Request) : M Response :=
  match r with
  | WhatsAppWebhook json => handle_whatsapp_webhook_with (whatsapp_event c) w json
  | BotpressWebhook webhook_secret rq =>
      handle_botpress_webhook_with (botpress_event c) w webhook_secret rq
  | SendMessage user user_id conversation_id data =>
      send_message_with (get_companies c) w user user_id conversation_id data
  | CloseConversation user user_id conversation_id =>
      close_conversation_with (get_companies c) w user user_id conversation_id
  | ReopenConversation user conversation_id =>
      reopen_conversation_with (get_companies c) w user conversation_id
  end.

Definition handle : World -> Request -> M Response := handle_with as_written.

(** The database after one request, and after a sequence of requests served
    one after the other, each in its own world. *)
Definition step_with (c : Calls) (d : Db) (wr : World * Request) : Db :=
  snd (serve (handle_with c (fst wr) (snd wr)) d).

Definition run_with (c : Calls) (trace : list (World * Request)) (d : Db) : Db :=
  fold_left (step_with c) trace d.

Definition step : Db -> World * Request -> Db := step_with as_written.
Definition run : list (World * Request) -> Db -> Db := run_with as_written.

(** ** Consistency of the message counters *)

(** The number of message rows that reference a conversation. *)
Definition count_messages (d : Db) (conversation_id : string) : Z :=
  Z.of_nat (length (filter (fun m => String.eqb (Message.conversation_id m) conversation_id)
                           (messages d))).

Definition counts_ok (d : Db) : bool :=
  forallb (fun c => (Conversation.message_count c =? count_messages d (Conversation.id c))%Z)
          (conversations d).

(** Every message references a conversation of the table. *)
Definition references_ok (d : Db) : bool :=
  forallb (fun m => existsb (fun c => String.eqb (Conversation.id c)
                                                  (Message.conversation_id m))
                            (conversations d))
          (messages d).

Definition consistent (d : Db) : bool := counts_ok d && references_ok d.

(** What the commit of a session that loaded the conversation [self] and
    called [self.add_message(message_data)] writes to the database [d] that
    is committed by then: the INSERT of the message, and the UPDATE of the
    conversation's row by its primary key with the three values computed
    from the loaded object, whatever the row holds at that time. *)
Definition commit_add_message (uuid : string) (now : datetime) (self : Conversation.t)
    (message_data : Message.data) (d : Db) : Db :=
  let written := Conversation.add_message uuid now self message_data in
  insert_message (fst written)
    (update_conversation (Conversation.id self)
       (fun row =>
          Conversation.mk (Conversation.id row) (Conversation.chatbot_id row)
            (Conversation.customer_phone row) (Conversation.customer_name row)
            (Conversation.status row) (Conversation.started_at row)
            (Conversation.ended_at row)
            (Conversation.last_message_at (snd written))
            (Conversation.message_count (snd written))
            (Conversation.updated_at (snd written)))
       d).

(** Both the committed state and the state the session sees are consistent. *)
Definition session_consistent (s : Session) : Prop :=
  consistent (committed s) = true /\ consistent (current s) = true.

(** A Hoare triple for the session monad: from a state in [P], [m] returns
    into [Q] or raises into [E]. *)
Definition hoare {A} (P : Session -> Prop) (m : M A) (Q : A -> Session -> Prop)
    (E : Session -> Prop) : Prop :=
  forall s, P s ->
    match m s with
    | (Ok a, s') => Q a s'
    | (Raise _, s') => E s'
    end.

Definition committed_consistent (s : Session) : Prop :=
  consistent (committed s) = true.

(** [m] returns, and keeps the session consistent. *)
Definition keeps {A} (m : M A) : Prop :=
  forall E, hoare session_consistent m (fun _ => session_consistent) E.

(** [m] keeps the session consistent when it returns, and the committed
    state when it raises. *)
Definition preserves {A} (m : M A) : Prop :=
  hoare session_consistent m (fun _ => session_consistent) committed_consistent.

(** [m] does not commit: the committed database is the same after it. *)
Definition uncommitted {A} (m : M A) : Prop :=
  forall s, committed (snd (m s)) = committed s.

(** ** Further methods of the models

    [order_by] sorts by insertion and keeps rows with equal keys in table
    order. *)

Fixpoint insert_by {A} (before : A -> A -> bool) (x : A) (l : list A) : list A :=
  match l with
  | [] => [x]
  | y :: l' => if before x y then x :: l else y :: insert_by before x l'
  end.

Definition order_by {A} (before : A -> A -> bool) (l : list A) : list A :=
  fold_right (insert_by before) [] l.

(** Datetimes count microseconds from [datetime.min], the first instant of
    year 1; [datetime.max] is the last microsecond of year 9999, 3652059 days
    later. *)
Definition datetime_min : datetime := 0%Z.
Definition datetime_max : datetime := (3652059 * 86400 * 1000000 - 1)%Z.

(** [timedelta(days=days)], in microseconds. *)
Definition timedelta_days (days : Z) : Outcome Z :=
  if (Z.abs days <=? 999999999)%Z then Ok (days * 86400 * 1000000)%Z
  else Raise (OverflowError "days; must have magnitude <= 999999999").

(** [t - delta] on a datetime and a timedelta. *)
Definition datetime_sub (t : datetime) (delta : Z) : Outcome datetime :=
  if (datetime_min <=? t - delta)%Z && (t - delta <=? datetime_max)%Z
  then Ok (t - delta)%Z
  else Raise (OverflowError "date value out of range").

Module MessageMethods.
Definition is_from_customer (self : Message.t) : bool :=
  match Message.direction self with
  | Message.inbound => true
  | Message.outbound => false
  end.

Definition is_from_bot (self : Message.t) : bool :=
  match Message.direction self with
  | Message.inbound => false
  | Message.outbound => true
  end.

(** The truth value of [self.type in ['image', 'audio', 'video', 'document']
    and self.media_url]. *)
Definition has_media (self : Message.t) : bool :=
  existsb (String.eqb (Message.type self)) ["image"; "audio"; "video"; "document"]
  && truthy (Message.media_url self).

(** [x or default] on an optional string. *)
Definition or_else (x : option string) (default : string) : string :=
  match x with
  | Some s => if String.eqb s "" then default else s
  | None => default
  end.

Definition get_display_content (w : World) (self : Message.t) : option string :=
  let type := Message.type self in
  if String.eqb type "text" then Message.content self
  else if has_media self then
    Some ("[" ++ upper w type ++ "] " ++ or_else (Message.content self) "Media file")%string
  else if String.eqb type "location" then Some "[LOCATION] Location shared"
  else if String.eqb type "contact" then Some "[CONTACT] Contact shared"
  else if String.eqb type "interactive" then
    Some ("[INTERACTIVE] " ++ or_else (Message.content self) "Interactive message")%string
  else Some (or_else (Message.content self) ("[" ++ upper w type ++ "] Message")%string).

(** [Message.query.filter_by(conversation_id=...).order_by(
    Message.timestamp.desc()).offset(offset).limit(limit).all()] *)
Definition get_conversation_messages (d : Db) (conversation_id : string)
    (limit offset : nat) : Outcome (list Message.t) :=
  all_loaded
    (firstn limit
       (skipn offset
          (order_by (fun a b => (Message.timestamp b <=? Message.timestamp a)%Z)
             (filter (fun m => String.eqb (Message.conversation_id m) conversation_id)
                     (messages d))))).
End MessageMethods.

Module WebhookEvents.
(** A [WebhookEvent] object as its attributes read before any flush: what
    the constructor set, and [None] for [processed] and [retry_count], which
    only the insert fills with their defaults. *)
Record Unflushed := mkUnflushed {
  u_chatbot_id : option string;
  u_event_type : option string;
  u_source : option string;
  u_payload : option string;
  u_processed : option bool;
  u_retry_count : option Z
}.

(** [can_retry] on such an object: [self.retry_count < max_retries] with
    [None] on the left. *)
Definition can_retry_unflushed (max_retries : Z) (self : Unflushed) : Outcome bool :=
  match u_retry_count self with
  | None =>
      Raise (TypeError "'<' not supported between instances of 'NoneType' and 'int'")
  | Some n =>
      if (n <? max_retries)%Z
      then Ok (negb (match u_processed self with Some b => b | None => false end))
      else Ok false
  end.

(** [WebhookEvent.create_event(event_type, source, payload, chatbot_id)]:
    the row is added to the session, and the object is returned as it reads
    then. *)
Definition create_event (w : World) (event_type source payload : option string)
    (chatbot_id : option string) : M Unflushed :=
  event <- lift (WebhookEvent.init (Some event_type) (Some source) (Some payload)
                   [("chatbot_id", WebhookEvent.KStr chatbot_id)]) ;;
  session_add_webhook_event w event ;;
  ret (mkUnflushed chatbot_id event_type source payload None None).

Definition by_created_at (a b : WebhookEvent.t) : bool :=
  (WebhookEvent.created_at a <=? WebhookEvent.created_at b)%Z.

(** [WebhookEvent.query.filter_by(processed=False).order_by(
    WebhookEvent.created_at).limit(limit).all()] *)
Definition get_unprocessed_events (d : Db) (limit : nat) : list WebhookEvent.t :=
  firstn limit
    (order_by by_created_at
       (filter (fun e => negb (WebhookEvent.processed e)) (webhook_events d))).

(** [WebhookEvent.query.filter(processed == False, retry_count < max_retries,
    error_message.isnot(None)).order_by(WebhookEvent.created_at).all()] *)
Definition get_failed_events (d : Db) (max_retries : Z) : list WebhookEvent.t :=
  order_by by_created_at
    (filter (fun e => negb (WebhookEvent.processed e)
                      && (WebhookEvent.retry_count e <? max_retries)%Z
                      && is_some (WebhookEvent.error_message e))
            (webhook_events d)).

(** The rows [cleanup_old_events] selects. *)
Definition is_old (cutoff_date : datetime) (e : WebhookEvent.t) : bool :=
  WebhookEvent.processed e && (WebhookEvent.created_at e <? cutoff_date)%Z.

(** [cleanup_old_events(days)]: deletes the selected rows from the session
    and returns how many there were. *)
Definition cleanup_old_events (w : World) (days : Z) : M nat :=
  delta <- lift (timedelta_days days) ;;
  cutoff_date <- lift (datetime_sub (utcnow w) delta) ;;
  d <- get_db ;;
  let old_events := filter (is_old cutoff_date) (webhook_events d) in
  modify_db (fun d' =>
    set_webhook_events
      (filter (fun e => negb (existsb (fun o => String.eqb (WebhookEvent.id o)
                                                           (WebhookEvent.id e))
                                      old_events))
              (webhook_events d')) d') ;;
  ret (length old_events).
End WebhookEvents.

(** The tags of a conversation object and the [updated_at] the tag methods
    write. *)
Module ConversationTags.
Record t := mk {
  tags : option (list string);
  updated_at : datetime
}.

(** [list.remove(x)]: the first occurrence goes. *)
Fixpoint list_remove (x : string) (l : list string) : list string :=
  match l with
  | [] => []
  | y :: l' => if String.eqb y x then l' else y :: list_remove x l'
  end.

Definition add_tag (now : datetime) (tag : string) (self : t) : t :=
  let current_tags :=
    match tags self with
    | Some (x :: l) => x :: l
    | _ => []
    end in
  if existsb (String.eqb tag) current_tags
  then mk (Some current_tags) (updated_at self)
  else mk (Some (current_tags ++ [tag])) now.

Definition remove_tag (now : datetime) (tag : string) (self : t) : t :=
  match tags self with
  | Some (x :: l) =>
      if existsb (String.eqb tag) (x :: l)
      then mk (Some (list_remove tag (x :: l))) now
      else self
  | _ => self
  end.

(** The tags as [to_dict] shows them: [self.tags or []]. *)
Definition shown (self : t) : list string :=
  match tags self with
  | Some l => l
  | None => []
  end.
End ConversationTags.

(** ** One open conversation per chatbot and customer *)

Definition same_customer (a b : Conversation.t) : bool :=
  String.eqb (Conversation.chatbot_id a) (Conversation.chatbot_id b)
  && opt_eqb (Conversation.customer_phone a) (Conversation.customer_phone b).

Definition is_open (c : Conversation.t) : bool :=
  Conversation.status_eqb (Conversation.status c) Conversation.open.

(** No two open conversations of the list share chatbot and customer. *)
Fixpoint one_open_each (l : list Conversation.t) : bool :=
  match l with
  | [] => true
  | c :: l' =>
      (negb (is_open c) || negb (existsb (fun c' => is_open c' && same_customer c c') l'))
      && one_open_each l'
  end.

Definition one_open_conversation (d : Db) : bool := one_open_each (conversations d).

(** The invariant on both states of a session, and the handlers that keep
    it whatever their outcome. *)
Definition one_open_session (s : Session) : Prop :=
  one_open_conversation (committed s) = true /\ one_open_conversation (current s) = true.

Definition stable {A} (m : M A) : Prop :=
  forall s, one_open_session s -> one_open_session (snd (m s)).

Definition is_reopen (r : Request) : bool :=
  match r with
  | ReopenConversation _ _ => true
  | _ => false
  end.

(** ** From the provider's message to the stored row *)

(** The event [process_webhook_event] builds for one message of a change. *)
Definition event_of_message (value : WaValue) (message : WaMessage) : MessageEvent :=
  mkMessageEvent (wm_id message) (wm_from message) (wm_timestamp message)
    (wm_type message) (_extract_message_content message)
    (wv_phone_number_id value) (wv_display_phone_number value).

(** The [message_data] dictionary of [await_process_whatsapp_message]. *)
Definition inbound_message_data (w : World) (event : MessageEvent) : Message.data :=
  let message_content := me_content event in
  let message_type := me_message_type event in
  let is_text := opt_eqb message_type (Some "text") in
  Message.mk_data Message.inbound message_type
    (if is_text then get_str_default message_content "text" ""
     else Some (json_dumps w message_content))
    (me_from event) (me_from event) (me_message_id event)
    (if is_text then None else get_str message_content "media_id")
    (if is_text then None else get_str message_content "mime_type")
    None.

(** The events a change contributes. *)
Definition events_in_change (change : WaChange) : nat :=
  if opt_eqb (wc_field change) (Some "messages")
  then length (wv_messages (wc_value change)) + length (wv_statuses (wc_value change))
  else 0.

Definition is_media_type (ty : option string) : bool :=
  existsb (fun t => opt_eqb ty (Some t)) ["image"; "video"; "audio"; "document"].

(** ** Requests that are turned away *)

(** [route] answers with status [code] and leaves the session as it was. *)
Definition refused (route : M Response) (code : Z) (s : Session) : Prop :=
  exists resp, route s = (Ok resp, s) /\ status_code resp = code.

(** [route] answers with status [code] after a rollback: the session is back
    at the committed state. *)
Definition failed_with (route : M Response) (code : Z) (s : Session) : Prop :=
  exists resp, fst (route s) = Ok resp /\ status_code resp = code
               /\ committed (snd (route s)) = committed s
               /\ current (snd (route s)) = committed s.

(** The status strings [await_process_whatsapp_status] acts on. *)
Definition known_status (status : option string) : bool :=
  existsb (fun st => opt_eqb status (Some st)) ["sent"; "delivered"; "read"; "failed"].

(** The message row [await_process_botpress_message] stores for a reply
    [text] sent under the provider id [wid]. *)
Definition outbound_reply (w : World) (uuid : string) (chatbot : Chatbot.t)
    (conversation : Conversation.t) (text : string) (wid : option string) : Message.t :=
  Message.new uuid (utcnow w) (Conversation.id conversation)
    (Message.mk_data Message.outbound (Some "text") (Some text)
       (Chatbot.whatsapp_phone_number chatbot) (Some (Chatbot.name chatbot))
       wid None None None).

(** ** The last message of each side *)

Definition newest_first (a b : Message.t) : bool :=
  (Message.timestamp b <=? Message.timestamp a)%Z.

(** [Message.query.filter_by(conversation_id=self.id, direction='inbound')
    .order_by(Message.timestamp.desc()).first()] *)
Definition get_last_customer_message (d : Db) (self : Conversation.t)
    : Outcome (option Message.t) :=
  first_loaded
    (hd_error
       (order_by newest_first
          (filter (fun m => String.eqb (Message.conversation_id m) (Conversation.id self)
                            && MessageMethods.is_from_customer m)
                  (messages d)))).

(** The same with [direction='outbound']. *)
Definition get_last_bot_message (d : Db) (self : Conversation.t)
    : Outcome (option Message.t) :=
  first_loaded
    (hd_error
       (order_by newest_first
          (filter (fun m => String.eqb (Message.conversation_id m) (Conversation.id self)
                            && MessageMethods.is_from_bot m)
                  (messages d)))).

(** ** Sample data for the concrete runs *)

(** The code points of a string literal. *)
Definition codes (s : string) : pystr :=
  map N_of_ascii (list_ascii_of_string s).

(** No digit outside ASCII. *)
Definition ascii_digits_only (c : N) : bool := false.

Fixpoint sample_uuid (n : nat) : string :=
  match n with
  | O => "u"
  | S k => String "u" (sample_uuid k)
  end.

(** A world where every service answers; its ids start with [prefix]. *)
Definition world_with_ids (prefix : string) : World :=
  mkWorld 100%Z (fun n => (prefix ++ sample_uuid n)%string) (fun _ => "{}")
    (fun _ _ => "0f")
    (fun _ _ _ => Ok (Some "bpc-1")) (fun _ _ _ => Ok tt) (fun _ _ => Ok tt)
    (fun _ _ _ => Ok (Some [Some "wamid.out"])) (fun s => s).

Definition sample_world : World := world_with_ids "".

(** The same world with the bot backend timing out. *)
Definition offline_world : World :=
  mkWorld 100%Z sample_uuid (fun _ => "{}") (fun _ _ => "0f")
    (fun _ _ _ => Raise (ServiceError "Botpress API error: timed out"))
    (fun _ _ _ => Raise (ServiceError "Botpress API error: timed out"))
    (fun _ _ => Ok tt)
    (fun _ _ _ => Ok (Some [Some "wamid.out"])) (fun s => s).

Definition sample_chatbot : Chatbot.t :=
  Chatbot.mk "bot-1" "co-1" "Shop" (Some "bp-1") (Some "77010000000") (Some "pn-1")
             Chatbot.active true.

Definition sample_event : MessageEvent :=
  mkMessageEvent (Some "wamid.1") (Some "77010000001") (Some "1700000000") (Some "text")
                 [("text", JString "Hello")] (Some "pn-1") (Some "77010000000").

Definition sample_webhook_event : WebhookEvent.t :=
  WebhookEvent.mk "evt-1" None (Some "message_received") (Some "whatsapp") (Some "{}")
                  false None None 0%Z 90%Z.

Definition sample_db : Db :=
  mkDb [sample_chatbot] [] [] [sample_webhook_event] [].

Definition sample_conversation (st : Conversation.Status) : Conversation.t :=
  Conversation.mk "conv-1" "bot-1" (Some "77010000001") (Some "77010000001") st
                  10%Z (Some 20%Z) (Some 15%Z) 0%Z 20%Z.

Definition sample_message : Message.t :=
  Message.mk "msg-1" "conv-1" (Some "wamid.9") Message.outbound "text" (Some "Hi")
             None None None None 10%Z (Some 11%Z) (Some 12%Z) None None.

Definition with_status (st : option string) (e : StatusEvent) : StatusEvent :=
  mkStatusEvent (se_message_id e) (se_recipient_id e) st (se_timestamp e)
                (se_phone_number_id e) (se_error e).

Definition failed_message : Message.t :=
  Message.mk "msg-2" "conv-1" (Some "wamid.7") Message.outbound "text" (Some "Hi")
             None None None None 10%Z None None (Some 12%Z) (Some "Unknown error").

Definition delivered_callback (wid : string) : StatusEvent :=
  mkStatusEvent (Some wid) (Some "77010000001") (Some "delivered") (Some "1700000001")
                (Some "pn-1") None.

Definition sample_send : SendMessageData :=
  mkSendMessageData (Some "How can I help?") None None None.

Definition sample_open_db : Db :=
  mkDb [sample_chatbot] [sample_conversation Conversation.open] [] [] [].

Definition sample_user : User.t := User.mk "user-1" ["co-1"].

Definition sample_trace : list (World * Request) :=
  [(world_with_ids "a", SendMessage (Some sample_user) "user-1" "conv-1" sample_send);
   (world_with_ids "b", CloseConversation (Some sample_user) "user-1" "conv-1");
   (world_with_ids "c", ReopenConversation (Some sample_user) "conv-1");
   (world_with_ids "d", SendMessage (Some sample_user) "user-1" "conv-1" sample_send)].

Definition sample_payload : WaPayload :=
  [[mkWaChange (Some "messages")
      (mkWaValue (Some "pn-1") (Some "77010000000")
         [mkWaMessage (Some "wamid.1") (Some "77010000001") (Some "1700000000")
                      (Some "text") [("text", [("body", JString "Hello")])] None]
         [])]].

(** A [WebhookEvent] call that does pass a [payload]. *)
Definition webhook_event_with_payload (event : Event) : Outcome WebhookEvent.t :=
  WebhookEvent.init (Some (Some (event_type event))) (Some (Some "whatsapp"))
    (Some (Some "event"))
    [("phone_number_id", WebhookEvent.KStr (event_phone_number_id event));
     ("processed", WebhookEvent.KBool false)].

(** A batch of two messages, the second without a sender. *)
Definition mixed_payload : WaPayload :=
  [[mkWaChange (Some "messages")
      (mkWaValue (Some "pn-1") (Some "77010000000")
         [mkWaMessage (Some "wamid.1") (Some "77010000001") (Some "1700000000")
                      (Some "text") [("text", [("body", JString "Hello")])] None;
          mkWaMessage (Some "wamid.2") None (Some "1700000001")
                      (Some "text") [("text", [("body", JString "Again")])] None]
         [])]].

Definition failure_response : Response :=
  error_response "Webhook processing failed" 500.

Definition sample_bot_payload : BotpressService.Payload :=
  BotpressService.mkPayload (Some "conversation_started") (Some "bp-1") (Some "bpc-1")
                            BotpressService.absent (Some "77010000001").

(** A callback without signature header, and one with a wrong signature. *)
Definition unsigned_request : BotpressRequest :=
  mkBotpressRequest (json_object sample_bot_payload) None "{}".

Definition forged_request : BotpressRequest :=
  mkBotpressRequest (json_object sample_bot_payload) (Some "sha256=bad") "{}".

(** A [WebhookEvent] call that does pass a [payload]. *)
Definition bot_event_with_payload (processed_event : BotpressService.ProcessedEvent)
    : Outcome WebhookEvent.t :=
  WebhookEvent.init (Some (BotpressService.event_type processed_event))
    (Some (Some "botpress")) (Some (Some "processed_event"))
    [("bot_id", WebhookEvent.KStr (BotpressService.bot_id processed_event));
     ("processed", WebhookEvent.KBool false)].

(** The three calls as they were meant: the [WebhookEvent]s are built with
    a payload, and [get_companies] returns the user's companies. *)
Definition as_intended : Calls :=
  mkCalls webhook_event_with_payload bot_event_with_payload
          (fun u => Ok (User.companies u)).

Definition fmap_status_code (o : Outcome Response) : option Z :=
  match o with
  | Ok resp => Some (status_code resp)
  | Raise _ => None
  end.

Definition archived_db : Db :=
  mkDb [sample_chatbot] [sample_conversation Conversation.archived] [] [] [].

(** A clock late enough for a cutoff thirty days back. *)
Definition purge_world : World :=
  mkWorld 3000000000000%Z (uuid4 sample_world) (json_dumps sample_world)
    (hmac_sha256_hexdigest sample_world) (botpress_create_conversation sample_world)
    (botpress_send_message sample_world) (whatsapp_mark_message_as_read sample_world)
    (whatsapp_send_text_message sample_world) (str_upper sample_world).

(** Two events older than any cutoff, one processed and one not. *)
Definition purge_db : Db :=
  mkDb [] [] []
    [WebhookEvent.mk "old-done" None (Some "message_received") (Some "whatsapp") (Some "{}")
                     true (Some 5%Z) None 0%Z 1%Z;
     WebhookEvent.mk "old-open" None (Some "message_received") (Some "whatsapp") (Some "{}")
                     false None (Some "boom") 1%Z 2%Z]
    [].

(** A reply of the bot to the customer of [sample_conversation]. *)
Definition sample_reply : BotpressService.ProcessedEvent :=
  BotpressService.mkProcessedEvent (Some "message_received") (Some "bp-1") (Some "bpc-1")
    (BotpressService.mkPayload (Some "message_received") (Some "bp-1") (Some "bpc-1")
       (BotpressService.object [("text", JString "Welcome")]) (Some "77010000001")).

(** A customer with a closed conversation and a later open one. *)
Definition returning_customer_db : Db :=
  mkDb [sample_chatbot]
       [sample_conversation Conversation.closed;
        Conversation.mk "conv-2" "bot-1" (Some "77010000001") (Some "77010000001")
                        Conversation.open 30%Z None (Some 30%Z) 0%Z 30%Z]
       [] [] [].

(** An inbound message of a new customer, an answer sent to the conversation
    it opens, the closing of that conversation, and another inbound message
    of the customer. *)
Definition returning_customer_trace : list (World * Request) :=
  [(world_with_ids "a", WhatsAppWebhook (Some sample_payload));
   (world_with_ids "b", SendMessage (Some sample_user) "user-1" "auu" sample_send);
   (world_with_ids "c", CloseConversation (Some sample_user) "user-1" "auu");
   (world_with_ids "d", WhatsAppWebhook (Some sample_payload))].

(** ** Concrete runs of the model *)

Example format_phone_number_local :
  format_phone_number ascii_digits_only (codes "+7 (701) 000-00-00") = codes "77010000000".
Proof. reflexivity. Qed.

Example format_phone_number_trunk_prefix :
  format_phone_number ascii_digits_only (codes "8 701 000 00 00") = codes "77010000000".
Proof. reflexivity. Qed.

Example format_phone_number_ten_digits :
  format_phone_number ascii_digits_only (codes "9010000000") = codes "79010000000"
  /\ format_phone_number ascii_digits_only (codes "7010000000") = codes "7010000000".
Proof. split; reflexivity. Qed.

Example format_phone_number_other_length :
  format_phone_number ascii_digits_only (codes "tel: 12345") = codes "12345".
Proof. reflexivity. Qed.

Example handshake_accepts :
  verify_whatsapp_webhook (Some "tok") (Some "subscribe") (Some "tok") (Some "1158201444")
  = mkResponse (BText "1158201444") 200.
Proof. reflexivity. Qed.

Example handshake_rejects_wrong_token :
  verify_whatsapp_webhook (Some "tok") (Some "subscribe") (Some "guess") (Some "1158201444")
  = mkResponse (BText "Verification failed") 403.
Proof. reflexivity. Qed.

(** The first text message of a customer, processed and committed: one open
    conversation with counter 1 and one inbound text message. *)
Example first_message_opens_conversation :
  let d := snd (serve (await_process_whatsapp_message sample_world sample_event
                         (Some "evt-1") ;; commit) sample_db) in
  map (fun c => (Conversation.status c, Conversation.message_count c,
                 Conversation.customer_phone c)) (conversations d)
  = [(Conversation.open, 1%Z, Some "77010000001")]
  /\ map (fun m => (Message.direction m, Message.type m, Message.content m,
                    Message.whatsapp_message_id m)) (messages d)
     = [(Message.inbound, "text", Some "Hello", Some "wamid.1")]
  /\ map WebhookEvent.processed (webhook_events d) = [true]
  /\ map AnalyticsEvent.event_name (analytics_events d)
     = ["conversation_started"; "message_received"].
Proof. cbv zeta. repeat split; vm_compute; reflexivity. Qed.

(** A status callback for an unknown external id changes no message. *)
Example unknown_status_changes_nothing :
  let r := await_process_whatsapp_status sample_world (delivered_callback "wamid.0")
             (Some "evt-1") (begin (mkDb [] [] [sample_message] [sample_webhook_event] [])) in
  fst r = Ok tt
  /\ messages (current (snd r)) = [sample_message]
  /\ map WebhookEvent.processed (webhook_events (current (snd r))) = [true].
Proof. cbv zeta. repeat split; vm_compute; reflexivity. Qed.

(** ** Phone-number normalization *)

Lemma filter_all_true {A} (p : A -> bool) (l : list A) :
  forallb p l = true -> filter p l = l.
Proof.
  induction l as [|x l IH]; simpl; intros H; [reflexivity|].
  apply andb_true_iff in H as [Hx Hl]. rewrite Hx, IH by assumption. reflexivity.
Qed.

Lemma forallb_filter {A} (p : A -> bool) (l : list A) :
  forallb p (filter p l) = true.
Proof.
  induction l as [|x l IH]; simpl; [reflexivity|].
  destruct (p x) eqn:Hx; simpl; [rewrite Hx, IH|]; auto.
Qed.

Lemma forallb_tl {A} (p : A -> bool) (l : list A) :
  forallb p l = true -> forallb p (tl l) = true.
Proof.
  destruct l as [|x l]; simpl; auto.
  intros H. apply andb_true_iff in H. tauto.
Qed.

Lemma isdigit_chr_7 (unicode_isdigit : N -> bool) :
  isdigit unicode_isdigit chr_7 = true.
Proof. reflexivity. Qed.

(** The four outcomes of [format_phone_number], by the cleaned string. *)
Lemma format_phone_number_cases (unicode_isdigit : N -> bool) (x : pystr) :
  let cleaned := filter (isdigit unicode_isdigit) x in
  (format_phone_number unicode_isdigit x = cleaned
   /\ ((length cleaned = 10%nat /\ startswith cleaned chr_7 = true)
       \/ (length cleaned <> 10%nat
           /\ (length cleaned =? 11)%nat && startswith cleaned chr_8 = false)))
  \/ (format_phone_number unicode_isdigit x = chr_7 :: cleaned
      /\ length cleaned = 10%nat)
  \/ (format_phone_number unicode_isdigit x = chr_7 :: tl cleaned
      /\ length cleaned = 11%nat).
Proof.
  unfold format_phone_number. cbv zeta.
  destruct (length (filter (isdigit unicode_isdigit) x) =? 10)%nat eqn:H10.
  - apply Nat.eqb_eq in H10.
    destruct (startswith (filter (isdigit unicode_isdigit) x) chr_7) eqn:H7; simpl.
    + left. auto.
    + right. left. auto.
  - apply Nat.eqb_neq in H10. simpl.
    destruct (length (filter (isdigit unicode_isdigit) x) =? 11)%nat eqn:H11; simpl.
    + apply Nat.eqb_eq in H11.
      destruct (startswith (filter (isdigit unicode_isdigit) x) chr_8) eqn:H8.
      * right. right. auto.
      * left. split; [reflexivity|]. right. rewrite H11. simpl. auto.
    + left. split; [reflexivity|]. right. auto.
Qed.

Lemma format_phone_number_digits (unicode_isdigit : N -> bool) (x : pystr) :
  forallb (isdigit unicode_isdigit) (format_phone_number unicode_isdigit x) = true.
Proof.
  pose proof (forallb_filter (isdigit unicode_isdigit) x) as Hd.
  destruct (format_phone_number_cases unicode_isdigit x) as [[-> _]|[[-> _]|[-> _]]].
  - exact Hd.
  - cbn [forallb]. rewrite isdigit_chr_7. exact Hd.
  - cbn [forallb]. rewrite isdigit_chr_7. apply forallb_tl. exact Hd.
Qed.

(** Formatting a string of digits that the rules leave alone. *)
Lemma format_phone_number_fixed (unicode_isdigit : N -> bool) (y : pystr) :
  forallb (isdigit unicode_isdigit) y = true ->
  ((length y = 10%nat /\ startswith y chr_7 = true)
   \/ (length y <> 10%nat /\ (length y =? 11)%nat && startswith y chr_8 = false)) ->
  format_phone_number unicode_isdigit y = y.
Proof.
  intros Hd Hy. unfold format_phone_number.
  rewrite (filter_all_true (isdigit unicode_isdigit) y Hd). cbv zeta.
  destruct Hy as [[H10 H7]|[H10 H11]].
  - rewrite H10, H7. reflexivity.
  - apply Nat.eqb_neq in H10. rewrite H10, H11. reflexivity.
Qed.

(** C9. [format_phone_number] is a total function on strings that is
    idempotent, [format_phone_number (format_phone_number x) =
    format_phone_number x], and whose output consists of digit characters
    only.  Its value is fixed by the digits of the input, [cleaned], the
    input with every non-digit removed, and the country-code rule: ten
    digits that start with 7 are returned as they are; any other ten digits
    get a 7 in front; eleven digits that start with 8 have the 8 replaced by
    7; every other string of digits is returned as it is. *)
Theorem format_phone_number_idempotent (unicode_isdigit : N -> bool) (x : pystr) :
  format_phone_number unicode_isdigit (format_phone_number unicode_isdigit x)
  = format_phone_number unicode_isdigit x
  /\ Forall (fun c => isdigit unicode_isdigit c = true)
            (format_phone_number unicode_isdigit x)
  /\ (let cleaned := filter (isdigit unicode_isdigit) x in
      (length cleaned = 10%nat -> startswith cleaned chr_7 = true ->
       format_phone_number unicode_isdigit x = cleaned)
      /\ (length cleaned = 10%nat -> startswith cleaned chr_7 = false ->
          format_phone_number unicode_isdigit x = chr_7 :: cleaned)
      /\ (length cleaned = 11%nat -> startswith cleaned chr_8 = true ->
          format_phone_number unicode_isdigit x = chr_7 :: tl cleaned)
      /\ (length cleaned = 11%nat -> startswith cleaned chr_8 = false ->
          format_phone_number unicode_isdigit x = cleaned)
      /\ (length cleaned <> 10%nat -> length cleaned <> 11%nat ->
          format_phone_number unicode_isdigit x = cleaned)).
Proof.
  split; [|split].
  - pose proof (format_phone_number_digits unicode_isdigit x) as Hd.
    pose proof (forallb_filter (isdigit unicode_isdigit) x) as Hc.
    destruct (format_phone_number_cases unicode_isdigit x) as [[E Hy]|[[E H10]|[E H11]]];
      rewrite E in *.
    + apply format_phone_number_fixed; assumption.
    + apply format_phone_number_fixed; [exact Hd|].
      right. simpl. rewrite H10. split; [discriminate|reflexivity].
    + apply format_phone_number_fixed; [exact Hd|].
      right. simpl.
      destruct (filter (isdigit unicode_isdigit) x) as [|c l]; simpl in *; [discriminate|].
      injection H11 as H11. rewrite H11. split; [discriminate|reflexivity].
  - apply Forall_forall. intros c Hc.
    pose proof (format_phone_number_digits unicode_isdigit x) as Hd.
    rewrite forallb_forall in Hd. apply Hd. exact Hc.
  - cbv zeta. unfold format_phone_number. cbv zeta.
    repeat split.
    + intros H10 H7. rewrite H10, H7. reflexivity.
    + intros H10 H7. rewrite H10, H7. reflexivity.
    + intros H11 H8. rewrite H11, H8. reflexivity.
    + intros H11 H8. rewrite H11, H8. reflexivity.
    + intros H10 H11. apply Nat.eqb_neq in H10, H11. rewrite H10, H11. reflexivity.
Qed.

(** ** Basic facts *)

Lemma opt_eqb_eq (a b : option string) : opt_eqb a b = true <-> a = b.
Proof.
  destruct a as [x|], b as [y|]; simpl; split; intros H;
    try discriminate; try reflexivity.
  - apply String.eqb_eq in H. congruence.
  - injection H as ->. apply String.eqb_refl.
Qed.

Lemma opt_eqb_refl (a : option string) : opt_eqb a a = true.
Proof. apply opt_eqb_eq. reflexivity. Qed.

Lemma truthy_some (o : option string) :
  truthy o = true <-> exists s, o = Some s /\ s <> "".
Proof.
  destruct o as [s|]; simpl.
  - rewrite negb_true_iff. split.
    + intros H. exists s. split; [reflexivity|]. apply String.eqb_neq. exact H.
    + intros [s' [E H]]. injection E as <-. apply String.eqb_neq. exact H.
  - split; [discriminate|]. intros [s [E _]]. discriminate.
Qed.

(** ** Subscription handshake *)

(** C7, counterexample.  With the subscribe verb and the configured token
    but an empty challenge, the handshake answers 403: the route tests the
    truth value of the echoed challenge. *)
Lemma handshake_empty_challenge_rejected :
  let r := verify_whatsapp_webhook (Some "tok") (Some "subscribe") (Some "tok") (Some "") in
  status_code r = 403%Z /\ body r = BText "Verification failed".
Proof. split; reflexivity. Qed.

(** C7, amended.  The handshake answers 200 with the literal challenge
    exactly when the mode is ['subscribe'], the token equals the configured
    verify token and the challenge is present and not empty; in every other
    case it answers 403 with ['Verification failed']. *)
Theorem verify_whatsapp_webhook_spec
    (verify_token mode token challenge : option string) :
  let r := verify_whatsapp_webhook verify_token mode token challenge in
  (status_code r = 200%Z
   <-> (mode = Some "subscribe" /\ token = verify_token
        /\ exists c, challenge = Some c /\ c <> ""))
  /\ (status_code r = 200%Z -> exists c, challenge = Some c /\ body r = BText c)
  /\ (status_code r <> 200%Z -> r = mkResponse (BText "Verification failed") 403).
Proof.
  cbv zeta. unfold verify_whatsapp_webhook, verify_webhook.
  destruct (opt_eqb mode (Some "subscribe")) eqn:Hm;
    destruct (opt_eqb token verify_token) eqn:Ht; simpl.
  1: destruct (truthy challenge) eqn:Hc; simpl.
  - apply opt_eqb_eq in Hm, Ht. apply truthy_some in Hc as Hc'.
    destruct Hc' as [c [-> Hne]].
    repeat split; try assumption; eauto. intros H. exfalso. apply H. reflexivity.
  - split; [|split]; try discriminate; [|reflexivity].
    split; [discriminate|]. intros [_ [_ Hex]].
    apply truthy_some in Hex. congruence.
  - split; [|split]; try discriminate; [|reflexivity].
    split; [discriminate|]. intros [_ [E _]].
    apply opt_eqb_eq in E. congruence.
  - split; [|split]; try discriminate; [|reflexivity].
    split; [discriminate|]. intros [E _].
    apply opt_eqb_eq in E. congruence.
  - split; [|split]; try discriminate; [|reflexivity].
    split; [discriminate|]. intros [E _].
    apply opt_eqb_eq in E. congruence.
Qed.

(** ** Delivery status *)

(** The run of [await_process_whatsapp_status]: the query raises, or the
    first message with the callback's id, if any, is rewritten by its primary
    key and the webhook event is marked. *)
Lemma await_process_whatsapp_status_run w e id s :
  await_process_whatsapp_status w e id s
  = match message_by_whatsapp_id (current s) (se_message_id e) with
    | Raise x => (Raise x, s)
    | Ok found =>
        mark_webhook_event_processed w id
          (mkSession (committed s)
             match found with
             | Some m =>
                 update_message (Message.id m)
                   (apply_status w (se_status e) (se_error e)) (current s)
             | None => current s
             end
             (drawn s))
    end.
Proof.
  unfold await_process_whatsapp_status. cbv zeta.
  unfold bind at 1. unfold get_db at 1. cbv beta iota.
  unfold bind at 1. unfold lift at 1.
  destruct (message_by_whatsapp_id (current s) (se_message_id e)) as [[m|]|x];
    [| |reflexivity].
  - unfold bind at 1. unfold modify_db at 1. reflexivity.
  - unfold bind at 1. unfold ret at 1. destruct s; reflexivity.
Qed.

(** What [await_process_whatsapp_status] does to the messages table. *)
Lemma await_process_whatsapp_status_messages w e id s :
  match message_by_whatsapp_id (current s) (se_message_id e) with
  | Ok found =>
      fst (await_process_whatsapp_status w e id s) = Ok tt
      /\ messages (current (snd (await_process_whatsapp_status w e id s)))
         = match found with
           | Some m =>
               messages (update_message (Message.id m)
                           (apply_status w (se_status e) (se_error e)) (current s))
           | None => messages (current s)
           end
      /\ conversations (current (snd (await_process_whatsapp_status w e id s)))
         = conversations (current s)
      /\ committed (snd (await_process_whatsapp_status w e id s)) = committed s
  | Raise x => await_process_whatsapp_status w e id s = (Raise x, s)
  end.
Proof.
  rewrite await_process_whatsapp_status_run.
  destruct (message_by_whatsapp_id (current s) (se_message_id e)) as [found|x];
    [|reflexivity].
  unfold mark_webhook_event_processed, bind, get_db, modify_db, ret. cbn [current].
  match goal with
  | |- context [webhook_event_by_id ?d ?i] => destruct (webhook_event_by_id d i)
  end; destruct found; simpl; auto.
Qed.

(** The message a status query finds is a row of the table. *)
Lemma message_by_whatsapp_id_found (d : Db) (wid : option string) (found : Message.t) :
  message_by_whatsapp_id d wid = Ok (Some found) ->
  In found (messages d) /\ Message.whatsapp_message_id found = wid
  /\ Message.type_in_enum found = true.
Proof.
  unfold message_by_whatsapp_id, first_loaded, Message.load.
  destruct (find _ (messages d)) as [m|] eqn:Hfind; [|discriminate].
  destruct (Message.type_in_enum m) eqn:Hty; [|discriminate].
  intros H. injection H as <-. apply find_some in Hfind as [Hin Heq].
  apply opt_eqb_eq in Heq. auto.
Qed.

Lemma nth_error_map_some {A B} (f : A -> B) (l : list A) (i : nat) (x : A) :
  nth_error l i = Some x -> nth_error (map f l) i = Some (f x).
Proof.
  revert i. induction l as [|y l IH]; intros [|i]; simpl; try discriminate.
  - intros H. injection H as ->. reflexivity.
  - apply IH.
Qed.






(** ** Consistency of the tables under the writes *)

Lemma distinct_snoc (l : list string) (x : string) :
  distinct (l ++ [x]) = true -> existsb (String.eqb x) l = false.
Proof.
  induction l as [|a l IH]; simpl; intros H; [reflexivity|].
  apply andb_true_iff in H as [Ha Hl].
  rewrite negb_true_iff, existsb_app in Ha. apply orb_false_iff in Ha as [_ Ha].
  simpl in Ha. rewrite orb_false_r in Ha.
  rewrite String.eqb_sym, Ha. simpl. auto.
Qed.

Lemma counts_ok_spec (d : Db) :
  counts_ok d = true <->
  forall c, In c (conversations d) ->
            Conversation.message_count c = count_messages d (Conversation.id c).
Proof.
  unfold counts_ok. rewrite forallb_forall.
  split; intros H c Hc; specialize (H c Hc); apply Z.eqb_eq; exact H.
Qed.

Lemma references_ok_spec (d : Db) :
  references_ok d = true <->
  forall m, In m (messages d) ->
            existsb (fun c => String.eqb (Conversation.id c) (Message.conversation_id m))
                    (conversations d) = true.
Proof. unfold references_ok. apply forallb_forall. Qed.

Lemma consistent_spec (d : Db) :
  consistent d = true <-> counts_ok d = true /\ references_ok d = true.
Proof. unfold consistent. apply andb_true_iff. Qed.

(** Consistency only reads the conversations and the messages. *)
Lemma consistent_ext (d d' : Db) :
  conversations d' = conversations d -> messages d' = messages d ->
  consistent d' = consistent d.
Proof.
  intros Hc Hm. unfold consistent, counts_ok, references_ok, count_messages.
  rewrite Hc, Hm. reflexivity.
Qed.

Lemma existsb_id_map (f : Conversation.t -> Conversation.t) (l : list Conversation.t)
    (x : string) :
  (forall c, Conversation.id (f c) = Conversation.id c) ->
  existsb (fun c => String.eqb (Conversation.id c) x) (map f l)
  = existsb (fun c => String.eqb (Conversation.id c) x) l.
Proof.
  intros Hf. induction l as [|c l IH]; simpl; [reflexivity|].
  rewrite Hf, IH. reflexivity.
Qed.

(** A method that keeps [id] and [message_count] keeps the tables consistent. *)
Lemma consistent_update_conversation (id : string)
    (method : Conversation.t -> Conversation.t) (d : Db) :
  (forall c, Conversation.id (method c) = Conversation.id c) ->
  (forall c, Conversation.message_count (method c) = Conversation.message_count c) ->
  consistent d = true -> consistent (update_conversation id method d) = true.
Proof.
  intros Hid Hcount H. apply consistent_spec in H as [Hc Hr].
  set (g := fun c => if String.eqb (Conversation.id c) id then method c else c).
  assert (Hg : forall c, Conversation.id (g c) = Conversation.id c).
  { intros c. unfold g. destruct (String.eqb _ _); auto. }
  apply consistent_spec. split.
  - apply counts_ok_spec. intros c' Hc'. simpl in Hc'.
    apply in_map_iff in Hc' as [c [Hc' Hin]]. subst c'.
    rewrite counts_ok_spec in Hc. specialize (Hc c Hin).
    unfold count_messages in *. simpl.
    destruct (String.eqb (Conversation.id c) id); [rewrite Hid, Hcount|]; exact Hc.
  - apply references_ok_spec. intros m Hm. simpl in *.
    fold g. rewrite existsb_id_map by exact Hg.
    rewrite references_ok_spec in Hr. apply Hr. exact Hm.
Qed.

(** A method that keeps [conversation_id] keeps the tables consistent. *)
Lemma consistent_update_message (id : string) (method : Message.t -> Message.t) (d : Db) :
  (forall m, Message.conversation_id (method m) = Message.conversation_id m) ->
  consistent d = true -> consistent (update_message id method d) = true.
Proof.
  intros Hcid H.
  set (g := fun m => if String.eqb (Message.id m) id then method m else m).
  assert (Hg : forall m, Message.conversation_id (g m) = Message.conversation_id m).
  { intros m. unfold g. destruct (String.eqb _ _); auto. }
  assert (Hfilter : forall (x : string) l,
             length (filter (fun m => String.eqb (Message.conversation_id m) x) (map g l))
             = length (filter (fun m => String.eqb (Message.conversation_id m) x) l)).
  { intros x l. induction l as [|m l IH]; simpl; [reflexivity|].
    rewrite Hg. destruct (String.eqb _ x); simpl; rewrite IH; reflexivity. }
  apply consistent_spec in H as [Hc Hr]. apply consistent_spec. split.
  - apply counts_ok_spec. intros c Hin. simpl in Hin.
    rewrite counts_ok_spec in Hc. rewrite (Hc c Hin).
    unfold count_messages. simpl. fold g. rewrite Hfilter. reflexivity.
  - apply references_ok_spec. intros m' Hm'. simpl in *. fold g in Hm'.
    apply in_map_iff in Hm' as [m [Hm' Hin]]. subst m'. rewrite Hg.
    rewrite references_ok_spec in Hr. apply Hr. exact Hin.
Qed.

Lemma apply_status_conversation_id w st err m :
  Message.conversation_id (apply_status w st err m) = Message.conversation_id m.
Proof.
  unfold apply_status.
  repeat match goal with |- context [if ?b then _ else _] => destruct b end; reflexivity.
Qed.

Lemma count_messages_insert (m : Message.t) (d : Db) (x : string) :
  count_messages (insert_message m d) x
  = (count_messages d x
     + if String.eqb (Message.conversation_id m) x then 1 else 0)%Z.
Proof.
  unfold count_messages. simpl. rewrite filter_app, length_app. simpl.
  destruct (String.eqb _ x); simpl; lia.
Qed.

(** [add_message] on a conversation of the table: the new row and the
    incremented counter together keep the tables consistent. *)
Lemma consistent_add_message (uuid : string) (now : datetime) (self : Conversation.t)
    (data : Message.data) (d : Db) :
  existsb (fun c => String.eqb (Conversation.id c) (Conversation.id self))
          (conversations d) = true ->
  consistent d = true ->
  consistent
    (update_conversation (Conversation.id self)
       (fun c => snd (Conversation.add_message uuid now c data))
       (insert_message (fst (Conversation.add_message uuid now self data)) d)) = true.
Proof.
  intros Hself H. apply consistent_spec in H as [Hc Hr].
  set (cid := Conversation.id self) in *.
  set (f := fun c => snd (Conversation.add_message uuid now c data)).
  set (g := fun c => if String.eqb (Conversation.id c) cid then f c else c).
  assert (Hg : forall c, Conversation.id (g c) = Conversation.id c).
  { intros c. unfold g. destruct (String.eqb _ _); reflexivity. }
  apply consistent_spec. split.
  - apply counts_ok_spec. intros c' Hc'. simpl in Hc'. fold g in Hc'.
    apply in_map_iff in Hc' as [c [Hc' Hin]]. subst c'.
    rewrite counts_ok_spec in Hc. specialize (Hc c Hin).
    rewrite Hg.
    change (count_messages (update_conversation cid f (insert_message
              (fst (Conversation.add_message uuid now self data)) d)) (Conversation.id c))
      with (count_messages (insert_message
              (fst (Conversation.add_message uuid now self data)) d) (Conversation.id c)).
    rewrite count_messages_insert. simpl. fold cid.
    unfold g. rewrite (String.eqb_sym cid).
    destruct (String.eqb (Conversation.id c) cid); simpl; lia.
  - apply references_ok_spec. intros m Hm. simpl in *. fold g.
    rewrite existsb_id_map by exact Hg.
    apply in_app_or in Hm as [Hm|[<-|[]]].
    + rewrite references_ok_spec in Hr. apply Hr. exact Hm.
    + simpl. exact Hself.
Qed.

(** A conversation inserted with a fresh primary key and a zero counter. *)
Lemma consistent_insert_conversation (c : Conversation.t) (d : Db) :
  Conversation.message_count c = 0%Z ->
  distinct (map Conversation.id (conversations d ++ [c])) = true ->
  consistent d = true -> consistent (insert_conversation c d) = true.
Proof.
  intros Hzero Hdistinct H. apply consistent_spec in H as [Hc Hr].
  rewrite map_app in Hdistinct. simpl in Hdistinct.
  apply distinct_snoc in Hdistinct.
  apply consistent_spec. split.
  - apply counts_ok_spec. intros c' Hc'. simpl in Hc'.
    apply in_app_or in Hc' as [Hin|[<-|[]]].
    + rewrite counts_ok_spec in Hc. apply Hc. exact Hin.
    + rewrite Hzero. unfold count_messages. simpl.
      rewrite references_ok_spec in Hr.
      assert (Hnone : forall l, (forall m, In m l -> In m (messages d)) ->
                filter (fun m => String.eqb (Message.conversation_id m) (Conversation.id c)) l
                = []).
      { induction l as [|m l IH]; intros Hl; simpl; [reflexivity|].
        destruct (String.eqb (Message.conversation_id m) (Conversation.id c)) eqn:E.
        - exfalso. apply String.eqb_eq in E.
          specialize (Hr m (Hl m (or_introl eq_refl))).
          apply existsb_exists in Hr as [c0 [Hin0 E0]].
          apply String.eqb_eq in E0.
          assert (Hex : existsb (String.eqb (Conversation.id c))
                                (map Conversation.id (conversations d)) = true).
          { apply existsb_exists. exists (Conversation.id c0). split.
            - apply in_map. exact Hin0.
            - apply String.eqb_eq. congruence. }
          congruence.
        - apply IH. intros m' Hm'. apply Hl. right. exact Hm'. }
      rewrite Hnone by auto. reflexivity.
  - apply references_ok_spec. intros m Hm. simpl in *.
    rewrite existsb_app. rewrite references_ok_spec in Hr. rewrite (Hr m Hm). reflexivity.
Qed.

(** ** Rules of the session logic *)

Lemma hoare_ret {A} (P : Session -> Prop) (Q : A -> Session -> Prop) E (a : A) :
  (forall s, P s -> Q a s) -> hoare P (ret a) Q E.
Proof. intros H s Hs. simpl. auto. Qed.

Lemma hoare_raise {A} (P : Session -> Prop) (Q : A -> Session -> Prop)
    (E : Session -> Prop) e :
  (forall s, P s -> E s) -> hoare P (raise e) Q E.
Proof. intros H s Hs. simpl. auto. Qed.

Lemma hoare_lift {A} (P : Session -> Prop) (Q : A -> Session -> Prop)
    (E : Session -> Prop) (o : Outcome A) :
  (forall s, P s -> match o with Ok a => Q a s | Raise _ => E s end) ->
  hoare P (lift o) Q E.
Proof. intros H s Hs. unfold lift. specialize (H s Hs). destruct o; auto. Qed.

Lemma hoare_bind {A B} (P : Session -> Prop) (Q : A -> Session -> Prop)
    (R : B -> Session -> Prop) E (m : M A) (k : A -> M B) :
  hoare P m Q E -> (forall a, hoare (Q a) (k a) R E) -> hoare P (bind m k) R E.
Proof.
  intros Hm Hk s Hs. unfold bind. specialize (Hm s Hs).
  destruct (m s) as [[a|e] s']; [apply Hk; exact Hm | exact Hm].
Qed.

Lemma hoare_consequence {A} (P P' : Session -> Prop) (Q Q' : A -> Session -> Prop)
    (E E' : Session -> Prop) (m : M A) :
  hoare P m Q E ->
  (forall s, P' s -> P s) -> (forall a s, Q a s -> Q' a s) -> (forall s, E s -> E' s) ->
  hoare P' m Q' E'.
Proof.
  intros H HP HQ HE s Hs. specialize (H s (HP s Hs)).
  destruct (m s) as [[a|e] s']; auto.
Qed.

Lemma hoare_get_db (P : Session -> Prop) E :
  hoare P get_db (fun d s => P s /\ d = current s) E.
Proof. intros s Hs. simpl. auto. Qed.

Lemma hoare_try_except {A} (P : Session -> Prop) (Q : A -> Session -> Prop)
    (E' E : Session -> Prop) (m : M A) (h : PyExn -> M A) :
  hoare P m Q E' -> (forall e, hoare E' (h e) Q E) -> hoare P (try_except m h) Q E.
Proof.
  intros Hm Hh s Hs. unfold try_except. specialize (Hm s Hs).
  destruct (m s) as [[a|e] s']; [exact Hm | apply Hh; exact Hm].
Qed.

Lemma hoare_for_each {A} (P : Session -> Prop) E (l : list A) (f : A -> M unit) :
  (forall x, hoare P (f x) (fun _ => P) E) -> hoare P (for_each l f) (fun _ => P) E.
Proof.
  intros Hf. induction l as [|x l IH]; simpl.
  - apply hoare_ret. auto.
  - eapply hoare_bind; [apply Hf | intros ?; exact IH].
Qed.

Lemma keeps_preserves {A} (m : M A) : keeps m -> preserves m.
Proof. intros H. apply H. Qed.

Lemma keeps_ret {A} (a : A) : keeps (ret a).
Proof. intros E. apply hoare_ret. auto. Qed.

Lemma keeps_bind {A B} (m : M A) (k : A -> M B) :
  keeps m -> (forall a, keeps (k a)) -> keeps (bind m k).
Proof. intros Hm Hk E. eapply hoare_bind; [apply Hm | intros a; apply Hk]. Qed.

Lemma preserves_bind {A B} (m : M A) (k : A -> M B) :
  preserves m -> (forall a, preserves (k a)) -> preserves (bind m k).
Proof. intros Hm Hk. eapply hoare_bind; [apply Hm | intros a; apply Hk]. Qed.

Lemma keeps_modify_db (f : Db -> Db) :
  (forall d, consistent d = true -> consistent (f d) = true) -> keeps (modify_db f).
Proof. intros Hf E s [Hc Hd]. simpl. split; simpl; auto. Qed.

Lemma keeps_fresh_uuid w : keeps (fresh_uuid w).
Proof. intros E s Hs. exact Hs. Qed.

Lemma keeps_get_db : keeps get_db.
Proof. intros E s Hs. exact Hs. Qed.

(** A call to a service whose exception is only logged. *)
Lemma keeps_logged {A} (o : Outcome A) : keeps (logged o).
Proof. intros E s Hs. unfold logged, try_except, bind, lift, ret. destruct o; exact Hs. Qed.

Lemma keeps_track_event w company_id event_name chatbot_id user_id event_data :
  keeps (track_event w company_id event_name chatbot_id user_id event_data).
Proof.
  apply keeps_bind; [apply keeps_fresh_uuid|]. intros uuid.
  apply keeps_modify_db. intros d Hd. erewrite consistent_ext; [exact Hd| |]; reflexivity.
Qed.

Lemma keeps_session_add_webhook_event w e : keeps (session_add_webhook_event w e).
Proof.
  apply keeps_bind; [apply keeps_fresh_uuid|]. intros uuid.
  apply keeps_bind; [|intros ?; apply keeps_ret].
  apply keeps_modify_db. intros d Hd. erewrite consistent_ext; [exact Hd| |]; reflexivity.
Qed.

Lemma keeps_mark_webhook_event_processed w id :
  keeps (mark_webhook_event_processed w id).
Proof.
  apply keeps_bind; [apply keeps_get_db|]. intros d.
  destruct (webhook_event_by_id d id); [|apply keeps_ret].
  apply keeps_modify_db. intros d' Hd. erewrite consistent_ext; [exact Hd| |]; reflexivity.
Qed.

Lemma preserves_flush : preserves flush.
Proof.
  intros s Hs. unfold flush. destruct (constraints_ok (current s)); [exact Hs | apply Hs].
Qed.

Lemma preserves_commit : preserves commit.
Proof.
  intros s [Hc Hd]. unfold commit.
  destruct (constraints_ok (current s)); simpl; [split; exact Hd | exact Hc].
Qed.

(** [conversation.add_message] on a conversation loaded in this session. *)
Lemma hoare_session_add_message w self data E :
  hoare (fun s => session_consistent s
                  /\ existsb (fun c => String.eqb (Conversation.id c) (Conversation.id self))
                             (conversations (current s)) = true)
        (session_add_message w self data)
        (fun _ => session_consistent) E.
Proof.
  intros s [[Hc Hd] Hself]. simpl. split; simpl; [exact Hc|].
  apply consistent_add_message; assumption.
Qed.

Lemma constraints_ok_distinct_conversations (d : Db) :
  constraints_ok d = true -> distinct (map Conversation.id (conversations d)) = true.
Proof.
  unfold constraints_ok. intros H.
  repeat (apply andb_true_iff in H as [H _]). exact H.
Qed.

Lemma hoare_find_or_create_conversation w d chatbot customer_phone :
  hoare (fun s => session_consistent s /\ d = current s)
        (find_or_create_conversation w d chatbot customer_phone)
        (fun conversation s =>
           session_consistent s
           /\ existsb (fun c => String.eqb (Conversation.id c) (Conversation.id conversation))
                      (conversations (current s)) = true)
        committed_consistent.
Proof.
  unfold find_or_create_conversation.
  destruct (open_conversation d (Chatbot.id chatbot) customer_phone)
    as [conversation|] eqn:Hfind.
  - apply hoare_ret. intros s [Hs Hd]. split; [exact Hs|]. rewrite <- Hd.
    apply find_some in Hfind as [Hin _].
    apply existsb_exists. exists conversation. split; [exact Hin|apply String.eqb_refl].
  - intros s [[Hc Hd] Hcur].
    unfold bind, fresh_uuid, modify_db, flush, track_event, ret. simpl.
    destruct (constraints_ok _) eqn:Hck; simpl; [|exact Hc].
    apply constraints_ok_distinct_conversations in Hck. simpl in Hck.
    split; [split; [exact Hc|]|]; simpl.
    + erewrite consistent_ext
        with (d := insert_conversation
                     (Conversation.new (uuid4 w (drawn s)) (utcnow w)
                                       (Chatbot.id chatbot) customer_phone) (current s));
        [|reflexivity|reflexivity].
      apply consistent_insert_conversation; [reflexivity|exact Hck|exact Hd].
    + rewrite existsb_app. simpl. rewrite String.eqb_refl. apply orb_true_r.
Qed.

Lemma keeps_store_and_forward w e id chatbot conversation E :
  hoare (fun s => session_consistent s
                  /\ existsb (fun c => String.eqb (Conversation.id c)
                                                  (Conversation.id conversation))
                             (conversations (current s)) = true)
        (store_and_forward w e id chatbot conversation)
        (fun _ => session_consistent) E.
Proof.
  unfold store_and_forward. cbv zeta.
  eapply hoare_bind; [apply hoare_session_add_message|]. intros message.
  eapply hoare_bind; [apply keeps_track_event|]. intros ?.
  eapply hoare_bind.
  { destruct (truthy _ && _); [apply keeps_logged | apply keeps_ret]. }
  intros ?.
  eapply hoare_bind; [apply keeps_logged|]. intros ?.
  apply keeps_mark_webhook_event_processed.
Qed.

Lemma preserves_await_process_whatsapp_message w e id :
  preserves (await_process_whatsapp_message w e id).
Proof.
  unfold preserves, await_process_whatsapp_message.
  eapply hoare_bind; [apply hoare_get_db|]. intros d. cbv beta.
  destruct (chatbot_by_phone_number_id d (me_phone_number_id e)) as [chatbot|];
    [|apply hoare_ret; tauto].
  eapply hoare_bind; [apply hoare_find_or_create_conversation|].
  intros conversation. apply keeps_store_and_forward.
Qed.

Lemma preserves_await_process_whatsapp_status w e id :
  preserves (await_process_whatsapp_status w e id).
Proof.
  unfold await_process_whatsapp_status. cbv zeta.
  apply preserves_bind; [apply keeps_preserves, keeps_get_db|]. intros d.
  apply preserves_bind.
  { apply hoare_lift. intros s Hs.
    destruct (message_by_whatsapp_id d (se_message_id e)); [exact Hs | apply Hs]. }
  intros found. apply keeps_preserves.
  apply keeps_bind; [|intros ?; apply keeps_mark_webhook_event_processed].
  destruct found; [|apply keeps_ret].
  apply keeps_modify_db. intros d' Hd.
  apply consistent_update_message; [|exact Hd].
  intros m. apply apply_status_conversation_id.
Qed.

Lemma preserves_await_process_botpress_message w e id :
  preserves (await_process_botpress_message w e id).
Proof.
  unfold await_process_botpress_message, preserves.
  eapply hoare_bind; [apply hoare_get_db|]. intros d. cbv beta zeta.
  destruct (chatbot_by_botpress_bot_id d (BotpressService.bot_id e)) as [chatbot|];
    [|apply hoare_ret; tauto].
  eapply hoare_bind with (Q := fun _ s => session_consistent s /\ d = current s).
  { apply hoare_lift. intros s Hs.
    destruct (BotpressService.payload_text (BotpressService.data e));
      [exact Hs | apply Hs]. }
  intros message_text.
  destruct (negb _ || negb _); [apply hoare_ret; tauto|].
  destruct (open_conversation d (Chatbot.id chatbot) _) as [conversation|] eqn:Hfind;
    [|apply hoare_ret; tauto].
  assert (Hself : forall s, session_consistent s /\ d = current s ->
            session_consistent s
            /\ existsb (fun c => String.eqb (Conversation.id c) (Conversation.id conversation))
                       (conversations (current s)) = true).
  { intros s [Hs Hd]. split; [exact Hs|]. rewrite <- Hd.
    apply find_some in Hfind as [Hin _].
    apply existsb_exists. exists conversation. split; [exact Hin|apply String.eqb_refl]. }
  eapply hoare_bind with (Q := fun _ => session_consistent);
    [|intros ?; apply keeps_mark_webhook_event_processed].
  destruct (truthy (Chatbot.whatsapp_phone_number_id chatbot));
    [|apply hoare_ret; tauto].
  eapply hoare_try_except with (E' := session_consistent);
    [|intros ?; apply keeps_ret].
  eapply hoare_bind
    with (Q := fun _ s =>
                 session_consistent s
                 /\ existsb (fun c => String.eqb (Conversation.id c)
                                                 (Conversation.id conversation))
                            (conversations (current s)) = true).
  { apply hoare_lift. intros s Hs. destruct (whatsapp_send_text_message _ _ _ _);
      [apply Hself; exact Hs | apply Hs]. }
  intros whatsapp_response.
  eapply hoare_bind
    with (Q := fun _ s =>
                 session_consistent s
                 /\ existsb (fun c => String.eqb (Conversation.id c)
                                                 (Conversation.id conversation))
                            (conversations (current s)) = true).
  { destruct whatsapp_response as [[|first rest]|];
      [apply hoare_raise; tauto | apply hoare_ret; tauto | apply hoare_ret; tauto]. }
  intros wid.
  eapply hoare_bind; [apply hoare_session_add_message|]. intros message.
  apply keeps_track_event.
Qed.

(** ** The handlers keep the tables consistent *)

(** [try: m except Exception: db.session.rollback(); return r] *)
Lemma keeps_rollback_handler {A} (m : M A) (r : A) :
  preserves m -> keeps (try_except m (fun _ => rollback ;; ret r)).
Proof.
  intros Hm E. eapply hoare_try_except; [exact Hm|].
  intros e s Hs. simpl. split; exact Hs.
Qed.

Lemma preserves_handle_whatsapp_webhook_try new_event w json :
  preserves (handle_whatsapp_webhook_try new_event w json).
Proof.
  unfold handle_whatsapp_webhook_try.
  apply preserves_bind.
  { destruct json; [apply keeps_preserves, keeps_ret | apply hoare_raise; intros s Hs; apply Hs]. }
  intros webhook_data. cbv zeta.
  apply preserves_bind; [|intros ?; apply preserves_bind;
                           [apply preserves_commit | intros ?; apply keeps_preserves, keeps_ret]].
  apply hoare_for_each. intros event. unfold record_and_process.
  apply preserves_bind.
  { apply hoare_lift. intros s Hs. destruct (new_event event); [exact Hs | apply Hs]. }
  intros webhook_event.
  apply preserves_bind; [apply keeps_preserves, keeps_session_add_webhook_event|].
  intros ?. destruct event.
  - apply preserves_await_process_whatsapp_message.
  - apply preserves_await_process_whatsapp_status.
Qed.

Lemma preserves_handle_botpress_webhook_try new_event w secret rq :
  preserves (handle_botpress_webhook_try new_event w secret rq).
Proof.
  unfold handle_botpress_webhook_try.
  apply preserves_bind.
  { destruct (br_json rq);
      [apply hoare_raise; intros s Hs; apply Hs
      |apply keeps_preserves, keeps_ret | apply keeps_preserves, keeps_ret]. }
  intros webhook_data.
  apply preserves_bind.
  { apply hoare_lift. intros s Hs.
    destruct (signature_rejected w secret rq); [exact Hs | apply Hs]. }
  intros [|]; [apply keeps_preserves, keeps_ret|].
  apply preserves_bind.
  { destruct webhook_data;
      [apply hoare_raise; intros s Hs; apply Hs
      |apply hoare_raise; intros s Hs; apply Hs
      |apply keeps_preserves, keeps_ret]. }
  intros processed_event. cbv zeta.
  apply preserves_bind.
  { apply hoare_lift. intros s Hs. destruct (new_event _); [exact Hs | apply Hs]. }
  intros webhook_event.
  apply preserves_bind; [apply keeps_preserves, keeps_session_add_webhook_event|].
  intros row.
  apply preserves_bind; [apply preserves_flush|]. intros ?.
  apply preserves_bind.
  { repeat match goal with |- context [if ?b then _ else _] => destruct b end.
    - apply preserves_await_process_botpress_message.
    - apply keeps_preserves, keeps_mark_webhook_event_processed.
    - apply keeps_preserves, keeps_mark_webhook_event_processed.
    - apply keeps_preserves, keeps_ret. }
  intros ?. apply preserves_bind; [apply preserves_commit|].
  intros ?. apply keeps_preserves, keeps_ret.
Qed.

Lemma preserves_with_access get_companies user conversation_id action :
  (forall chatbot conversation,
     hoare (fun s => session_consistent s
                     /\ existsb (fun c => String.eqb (Conversation.id c)
                                                     (Conversation.id conversation))
                                (conversations (current s)) = true)
           (action chatbot conversation)
           (fun _ => session_consistent) committed_consistent) ->
  preserves (with_access_with get_companies user conversation_id action).
Proof.
  intros Haction. unfold with_access_with.
  destruct user as [u|]; [|apply keeps_preserves, keeps_ret].
  eapply hoare_bind; [apply hoare_get_db|]. intros d. cbv beta.
  destruct (conversation_by_id d conversation_id) as [conversation|] eqn:Hfind;
    [|apply hoare_ret; tauto].
  cbv zeta.
  eapply hoare_bind with (Q := fun _ s => session_consistent s /\ d = current s).
  { apply hoare_lift. intros s Hs. destruct (get_companies u); [exact Hs | apply Hs]. }
  intros user_companies.
  destruct (chatbot_by_id d _) as [chatbot|];
    [|apply hoare_raise; intros s Hs; apply Hs].
  destruct (existsb _ user_companies); [|apply hoare_ret; tauto].
  eapply hoare_consequence; [apply Haction| |auto|auto].
  intros s [Hs Hd]. split; [exact Hs|]. rewrite <- Hd.
  apply find_some in Hfind as [Hin _].
  apply existsb_exists. exists conversation. split; [exact Hin|apply String.eqb_refl].
Qed.

Lemma preserves_status_change (method : Conversation.t -> Conversation.t) id (k : M Response) :
  (forall c, Conversation.id (method c) = Conversation.id c) ->
  (forall c, Conversation.message_count (method c) = Conversation.message_count c) ->
  preserves k ->
  preserves (modify_db (update_conversation id method) ;; commit ;; k).
Proof.
  intros Hid Hcount Hk.
  apply preserves_bind.
  { apply keeps_preserves, keeps_modify_db. intros d.
    apply consistent_update_conversation; assumption. }
  intros ?. apply preserves_bind; [apply preserves_commit|]. intros ?. exact Hk.
Qed.

Lemma keeps_handle (c : Calls) w (r : Request) : keeps (handle_with c w r).
Proof.
  destruct r; simpl.
  - apply keeps_rollback_handler, preserves_handle_whatsapp_webhook_try.
  - apply keeps_rollback_handler, preserves_handle_botpress_webhook_try.
  - apply keeps_rollback_handler, preserves_with_access.
    intros chatbot conversation.
    destruct (negb (truthy (sm_content data))).
    { apply hoare_ret. tauto. }
    cbv zeta.
    eapply hoare_bind; [apply hoare_session_add_message|]. intros message.
    apply preserves_bind; [apply preserves_commit|]. intros ?.
    apply preserves_bind; [apply keeps_preserves, keeps_track_event|]. intros ?.
    apply preserves_bind; [apply preserves_commit|]. intros ?.
    apply keeps_preserves, keeps_ret.
  - apply keeps_rollback_handler, preserves_with_access.
    intros chatbot conversation.
    apply hoare_consequence
      with (P := session_consistent) (Q := fun _ => session_consistent)
           (E := committed_consistent); [|tauto|auto|auto].
    apply preserves_status_change; try reflexivity.
    apply preserves_bind; [apply keeps_preserves, keeps_track_event|]. intros ?.
    apply preserves_bind; [apply preserves_commit|]. intros ?.
    apply keeps_preserves, keeps_ret.
  - apply keeps_rollback_handler, preserves_with_access.
    intros chatbot conversation.
    apply hoare_consequence
      with (P := session_consistent) (Q := fun _ => session_consistent)
           (E := committed_consistent); [|tauto|auto|auto].
    apply preserves_status_change; try reflexivity.
    apply keeps_preserves, keeps_ret.
Qed.

Lemma conversation_by_id_update (id : string) (method : Conversation.t -> Conversation.t)
    (d : Db) :
  (forall c, Conversation.id (method c) = Conversation.id c) ->
  conversation_by_id (update_conversation id method d) id
  = option_map method (conversation_by_id d id).
Proof.
  intros Hid. unfold conversation_by_id, update_conversation. simpl.
  induction (conversations d) as [|c l IH]; simpl; [reflexivity|].
  destruct (String.eqb (Conversation.id c) id) eqn:E.
  - rewrite Hid, E. reflexivity.
  - rewrite E. exact IH.
Qed.

(** A request served on a consistent database leaves a consistent one. *)
Lemma consistent_serve {A} (m : M A) (d : Db) :
  keeps m -> consistent d = true -> consistent (snd (serve m d)) = true.
Proof.
  intros Hm Hd. unfold serve.
  specialize (Hm (fun _ => False) (begin d) (conj Hd Hd)).
  destruct (m (begin d)) as [[a|e] s']; simpl; [apply Hm | destruct Hm].
Qed.

Lemma consistent_run (c : Calls) (trace : list (World * Request)) (d : Db) :
  consistent d = true -> consistent (run_with c trace d) = true.
Proof.
  revert d. induction trace as [|[w r] trace IH]; intros d Hd; simpl; [exact Hd|].
  apply IH. unfold step_with. simpl.
  apply consistent_serve; [apply keeps_handle | exact Hd].
Qed.

(** From a store without conversations and messages, every sequence of
    requests leads to consistent counters. *)
Lemma consistent_from_start (c : Calls) (trace : list (World * Request))
    (bots : list Chatbot.t) (events : list WebhookEvent.t)
    (tracked : list AnalyticsEvent.t) :
  consistent (run_with c trace (mkDb bots [] [] events tracked)) = true.
Proof. apply consistent_run. reflexivity. Qed.

(** A transaction that loaded the conversation from the database it commits
    to writes what the session of the sequential model holds. *)
Lemma commit_add_message_serial (w : World) (self : Conversation.t)
    (message_data : Message.data) (d : Db) :
  distinct (map Conversation.id (conversations d)) = true ->
  conversation_by_id d (Conversation.id self) = Some self ->
  commit_add_message (uuid4 w 0) (utcnow w) self message_data d
  = current (snd (session_add_message w self message_data (begin d))).
Proof.
  intros Hdistinct Hfind.
  unfold commit_add_message, session_add_message, bind, fresh_uuid, modify_db, ret,
    begin, insert_message, update_conversation, set_messages, set_conversations.
  cbn. f_equal.
  unfold conversation_by_id in Hfind.
  induction (conversations d) as [|row l IH]; [reflexivity|].
  cbn in *. apply andb_true_iff in Hdistinct as [Hfresh Hl].
  destruct (String.eqb (Conversation.id row) (Conversation.id self)) eqn:E.
  - injection Hfind as ->. f_equal.
    apply map_ext_in. intros other Hother.
    destruct (String.eqb (Conversation.id other) (Conversation.id self)) eqn:E';
      [|reflexivity].
    exfalso. apply negb_true_iff in Hfresh.
    assert (Hin : existsb (String.eqb (Conversation.id self)) (map Conversation.id l)
                  = true).
    { apply existsb_exists. exists (Conversation.id other).
      split; [apply in_map; exact Hother|]. rewrite String.eqb_sym. exact E'. }
    congruence.
  - f_equal. apply IH; assumption.
Qed.

(** C5, counterexample.  Two transactions load the same conversation, with
    no message yet, before either commits; each calls [add_message] and
    commits.  After the first commit the counter is right; after the second
    there are two message rows and [message_count] is 1, because each
    transaction wrote the count it had computed from the value it had
    loaded. *)
Lemma concurrent_add_message_loses_count :
  let loaded := sample_conversation Conversation.open in
  let after_first :=
    commit_add_message "m-1" 100%Z loaded (inbound_message_data sample_world sample_event)
      sample_open_db in
  let after_second :=
    commit_add_message "m-2" 101%Z loaded (inbound_message_data sample_world sample_event)
      after_first in
  conversation_by_id sample_open_db "conv-1" = Some loaded
  /\ consistent sample_open_db = true
  /\ consistent after_first = true
  /\ map Message.id (messages after_second) = ["m-1"; "m-2"]
  /\ map Conversation.message_count (conversations after_second) = [1%Z]
  /\ consistent after_second = false.
Proof. cbv zeta. repeat split; vm_compute; reflexivity. Qed.

(** C5, amended.  When requests are served one after the other, every
    conversation's [message_count] is the number of message rows that
    reference it after every request, whether the request committed or was
    rolled back, for the handlers as written and however the three calls
    that raise in them are written.  [add_message] writes the message row
    and the conversation's [message_count], [last_message_at] (the
    timestamp the caller passed, [None] when it passed none) and
    [updated_at] in the session only: the committed state is untouched until
    the commit, which publishes all of them together, and a rollback
    discards all of them. *)
Theorem message_count_matches_messages
    (c : Calls) (trace : list (World * Request)) (d : Db) :
  consistent d = true ->
  (forall conversation, In conversation (conversations (run_with c trace d)) ->
     Conversation.message_count conversation
     = count_messages (run_with c trace d) (Conversation.id conversation))
  /\ consistent (run_with c trace d) = true
  /\ (forall w self row message_data s,
        conversation_by_id (current s) (Conversation.id self) = Some row ->
        let added := session_add_message w self message_data s in
        let message :=
          Message.new (uuid4 w (drawn s)) (utcnow w) (Conversation.id self) message_data in
        fst added = Ok message
        /\ committed (snd added) = committed s
        /\ messages (current (snd added)) = messages (current s) ++ [message]
        /\ (exists row',
              conversation_by_id (current (snd added)) (Conversation.id self) = Some row'
              /\ Conversation.message_count row' = (Conversation.message_count row + 1)%Z
              /\ Conversation.last_message_at row' = Message.d_timestamp message_data
              /\ Conversation.updated_at row' = utcnow w)
        /\ (constraints_ok (current (snd added)) = true ->
            committed (snd (commit (snd added))) = current (snd added))
        /\ (constraints_ok (current (snd added)) = false ->
            committed (snd (commit (snd added))) = committed s)
        /\ current (snd (rollback (snd added))) = committed s).
Proof.
  intros Hd. pose proof (consistent_run c trace d Hd) as Hrun.
  split; [|split; [exact Hrun|]].
  - apply counts_ok_spec. apply consistent_spec in Hrun. apply Hrun.
  - intros w self row message_data s Hfind added message.
    split; [reflexivity|]. split; [reflexivity|]. split; [reflexivity|].
    split.
    { exists (snd (Conversation.add_message (uuid4 w (drawn s)) (utcnow w) row
                     message_data)).
      split; [|repeat split].
      unfold added, session_add_message, bind, fresh_uuid, modify_db, ret.
      cbn [snd current].
      rewrite conversation_by_id_update by reflexivity.
      change (conversation_by_id (insert_message _ (current s)) (Conversation.id self))
        with (conversation_by_id (current s) (Conversation.id self)).
      rewrite Hfind. reflexivity. }
    split.
    { intros Hck. unfold commit. rewrite Hck. reflexivity. }
    split.
    { intros Hck. unfold commit. rewrite Hck. reflexivity. }
    reflexivity.
Qed.

Lemma message_count_matches_messages_witness :
  consistent sample_open_db = true
  /\ map Conversation.message_count
         (conversations (run_with as_intended sample_trace sample_open_db)) = [2%Z]
  /\ length (messages (run_with as_intended sample_trace sample_open_db)) = 2%nat
  /\ consistent (run_with as_intended sample_trace sample_open_db) = true
  /\ run sample_trace sample_open_db = sample_open_db.
Proof.
  split; [reflexivity|]. split; [vm_compute; reflexivity|]. split; [vm_compute; reflexivity|].
  split; [|vm_compute; reflexivity].
  exact (proj1 (proj2 (message_count_matches_messages as_intended sample_trace
                         sample_open_db (eq_refl true)))).
Defined.

(** ** Inbound messages: persistence and forwarding *)

(** The steps after the message is stored leave the messages alone and
    return. *)
Lemma track_event_run w company_id event_name chatbot_id user_id event_data s :
  exists s', track_event w company_id event_name chatbot_id user_id event_data s = (Ok tt, s')
             /\ messages (current s') = messages (current s)
             /\ conversations (current s') = conversations (current s)
             /\ webhook_events (current s') = webhook_events (current s)
             /\ chatbots (current s') = chatbots (current s).
Proof. eexists. repeat split. Qed.

Lemma logged_run {A} (o : Outcome A) s : logged o s = (Ok tt, s).
Proof. unfold logged, try_except, bind, lift, ret. destruct o; reflexivity. Qed.

Lemma mark_webhook_event_processed_run w id s :
  exists s', mark_webhook_event_processed w id s = (Ok tt, s')
             /\ messages (current s') = messages (current s)
             /\ conversations (current s') = conversations (current s)
             /\ webhook_events (current s')
                = match webhook_event_by_id (current s) id with
                  | Some ev =>
                      webhook_events
                        (update_webhook_event (WebhookEvent.id ev)
                           (WebhookEvent.mark_processed (utcnow w)) (current s))
                  | None => webhook_events (current s)
                  end.
Proof.
  unfold mark_webhook_event_processed, bind, get_db, modify_db, ret.
  destruct (webhook_event_by_id (current s) id); eexists; repeat split.
Qed.

(** The run of [store_and_forward]: one message is appended, the outcome of
    the forwarding is dropped, and the webhook event, if found, is marked
    processed. *)
Lemma store_and_forward_run w e id chatbot conversation (s1 : Session) :
  exists s' m,
    store_and_forward w e id chatbot conversation s1 = (Ok tt, s')
    /\ messages (current s') = messages (current s1) ++ [m]
    /\ Message.whatsapp_message_id m = me_message_id e
    /\ Message.direction m = Message.inbound
    /\ Message.conversation_id m = Conversation.id conversation
    /\ webhook_events (current s')
       = match webhook_event_by_id (current s1) id with
         | Some ev =>
             webhook_events
               (update_webhook_event (WebhookEvent.id ev)
                  (WebhookEvent.mark_processed (utcnow w)) (current s1))
         | None => webhook_events (current s1)
         end.
Proof.
  unfold store_and_forward. cbv zeta.
  unfold bind at 1. unfold session_add_message at 1.
  unfold bind at 1. unfold fresh_uuid at 1. cbv beta iota.
  unfold bind at 1. unfold modify_db at 1. cbv beta iota.
  unfold bind at 1. unfold modify_db at 1. cbv beta iota.
  unfold ret at 1. cbv beta iota.
  match goal with
  | |- context [bind (track_event ?a ?b ?c ?d ?f ?g) ?k ?s] =>
      destruct (track_event_run a b c d f g s) as [s2 [E2 [M2 [C2 [W2 B2]]]]];
      unfold bind at 1; rewrite E2
  end.
  unfold bind at 1.
  assert (Hfwd : forall (m : M unit), (m = ret tt \/ exists o : Outcome unit, m = logged o) ->
                                      m s2 = (Ok tt, s2)).
  { intros m [-> | [o ->]]; [reflexivity | apply logged_run]. }
  rewrite Hfwd by (destruct (truthy _ && _); [right; eexists; reflexivity | left; reflexivity]).
  unfold bind at 1. rewrite logged_run.
  destruct (mark_webhook_event_processed_run w id s2) as [s3 [E3 [M3 [C3 W3]]]].
  rewrite E3. eexists. eexists. split; [reflexivity|].
  rewrite M3, M2. simpl. split; [reflexivity|]. repeat split.
  rewrite W3. simpl in W2.
  assert (Hw : webhook_events (current s2) = webhook_events (current s1)) by exact W2.
  unfold webhook_event_by_id, update_webhook_event. simpl. rewrite Hw.
  destruct id; reflexivity.
Qed.

Lemma find_or_create_conversation_run w chatbot customer_phone s :
  (exists conversation s',
     find_or_create_conversation w (current s) chatbot customer_phone s
     = (Ok conversation, s')
     /\ messages (current s') = messages (current s)
     /\ webhook_events (current s') = webhook_events (current s))
  \/ (exists msg s',
        find_or_create_conversation w (current s) chatbot customer_phone s
        = (Raise (IntegrityError msg), s')
        /\ messages (current s') = messages (current s)
        /\ open_conversation (current s) (Chatbot.id chatbot) customer_phone = None).
Proof.
  unfold find_or_create_conversation.
  destruct (open_conversation (current s) (Chatbot.id chatbot) customer_phone)
    as [conversation|].
  - left. exists conversation, s. repeat split.
  - unfold bind, fresh_uuid, modify_db, flush, track_event, ret. simpl.
    destruct (constraints_ok _).
    + left. eexists. eexists. repeat split.
    + right. eexists. eexists. repeat split.
Qed.

Lemma await_process_whatsapp_message_run w e id s :
  await_process_whatsapp_message w e id s
  = match chatbot_by_phone_number_id (current s) (me_phone_number_id e) with
    | None => (Ok tt, s)
    | Some chatbot =>
        match find_or_create_conversation w (current s) chatbot (me_from e) s with
        | (Ok conversation, s1) => store_and_forward w e id chatbot conversation s1
        | (Raise x, s1) => (Raise x, s1)
        end
    end.
Proof.
  unfold await_process_whatsapp_message, bind, get_db.
  destruct (chatbot_by_phone_number_id (current s) (me_phone_number_id e)); reflexivity.
Qed.



(** C4, counterexample.  The bot backend times out; the call still returns,
    the inbound message is stored, and the webhook event is marked processed
    with its [retry_count] left at 0. *)
Lemma forwarding_failure_marks_event_processed :
  let r := await_process_whatsapp_message offline_world sample_event (Some "evt-1")
             (begin sample_db) in
  forward_to_botpress offline_world "bp-1" (me_from sample_event)
    (me_message_type sample_event) (me_content sample_event)
  = Raise (ServiceError "Botpress API error: timed out")
  /\ fst r = Ok tt
  /\ map WebhookEvent.processed (webhook_events (current (snd r))) = [true]
  /\ map WebhookEvent.retry_count (webhook_events (current (snd r))) = [0%Z]
  /\ map Message.whatsapp_message_id (messages (current (snd r))) = [Some "wamid.1"].
Proof. cbv zeta. repeat split; vm_compute; reflexivity. Qed.

(** C4, amended.  When the forwarding call to the bot backend raises, the
    exception is logged and processing goes on: a call that returns has stored
    the inbound message and has marked the webhook event of the given id, if
    there is one, processed with [processed_at] set, its [retry_count] and
    [error_message] unchanged.  Nothing is left for a retry. *)
Theorem forwarding_failure_is_only_logged
    (w : World) (e : MessageEvent) (id : option string) (s : Session)
    (chatbot : Chatbot.t) (bot_id : string) (err : PyExn) :
  chatbot_by_phone_number_id (current s) (me_phone_number_id e) = Some chatbot ->
  Chatbot.botpress_bot_id chatbot = Some bot_id ->
  truthy (Some bot_id) && Chatbot.auto_response_enabled chatbot = true ->
  forward_to_botpress w bot_id (me_from e) (me_message_type e) (me_content e) = Raise err ->
  fst (await_process_whatsapp_message w e id s) = Ok tt ->
  let s' := snd (await_process_whatsapp_message w e id s) in
  (exists m, messages (current s') = messages (current s) ++ [m]
             /\ Message.whatsapp_message_id m = me_message_id e)
  /\ webhook_events (current s')
     = match webhook_event_by_id (current s) id with
       | Some ev =>
           map (fun ev' => if String.eqb (WebhookEvent.id ev') (WebhookEvent.id ev)
                           then WebhookEvent.mark_processed (utcnow w) ev' else ev')
               (webhook_events (current s))
       | None => webhook_events (current s)
       end
  /\ (forall ev, WebhookEvent.processed (WebhookEvent.mark_processed (utcnow w) ev) = true
                 /\ WebhookEvent.retry_count (WebhookEvent.mark_processed (utcnow w) ev)
                    = WebhookEvent.retry_count ev
                 /\ WebhookEvent.error_message (WebhookEvent.mark_processed (utcnow w) ev)
                    = WebhookEvent.error_message ev).
Proof.
  intros Hbot Hbp Hauto Hfwd. cbv zeta.
  rewrite await_process_whatsapp_message_run, Hbot.
  destruct (find_or_create_conversation_run w chatbot (me_from e) s)
    as [[conversation [s1 [E1 [M1 W1]]]] | [msg [s1 [E1 _]]]]; rewrite E1;
    [|discriminate].
  destruct (store_and_forward_run w e id chatbot conversation s1)
    as [s2 [m [E2 [M2 [Hid [_ [_ W2]]]]]]].
  rewrite E2. intros _. simpl. split; [|split].
  - exists m. rewrite M2, M1. auto.
  - rewrite W2. unfold webhook_event_by_id, update_webhook_event. simpl. rewrite W1.
    destruct id; reflexivity.
  - intros ev. repeat split.
Qed.

Lemma forwarding_failure_is_only_logged_witness :
  let s' := snd (await_process_whatsapp_message offline_world sample_event (Some "evt-1")
                   (begin sample_db)) in
  exists m, messages (current s') = messages (current (begin sample_db)) ++ [m]
            /\ Message.whatsapp_message_id m = me_message_id sample_event.
Proof.
  exact (proj1 (forwarding_failure_is_only_logged offline_world sample_event (Some "evt-1")
                  (begin sample_db) sample_chatbot "bp-1"
                  (ServiceError "Botpress API error: timed out")
                  eq_refl eq_refl eq_refl eq_refl eq_refl)).
Defined.

(** ** What a handler leaves uncommitted *)

Create HintDb uncommitted.

Lemma uncommitted_ret {A} (a : A) : uncommitted (ret a).
Proof. intros s. reflexivity. Qed.

Lemma uncommitted_raise {A} e : uncommitted (@raise A e).
Proof. intros s. reflexivity. Qed.

Lemma uncommitted_lift {A} (o : Outcome A) : uncommitted (lift o).
Proof. intros s. reflexivity. Qed.

Lemma uncommitted_get_db : uncommitted get_db.
Proof. intros s. reflexivity. Qed.

Lemma uncommitted_modify_db f : uncommitted (modify_db f).
Proof. intros s. reflexivity. Qed.

Lemma uncommitted_fresh_uuid w : uncommitted (fresh_uuid w).
Proof. intros s. reflexivity. Qed.

Lemma uncommitted_flush : uncommitted flush.
Proof. intros s. unfold flush. destruct (constraints_ok _); reflexivity. Qed.

Lemma uncommitted_bind {A B} (m : M A) (k : A -> M B) :
  uncommitted m -> (forall a, uncommitted (k a)) -> uncommitted (bind m k).
Proof.
  intros Hm Hk s. unfold bind. specialize (Hm s).
  destruct (m s) as [[a|e] s']; simpl in *; [rewrite Hk|]; exact Hm.
Qed.

Lemma uncommitted_try_except {A} (m : M A) (h : PyExn -> M A) :
  uncommitted m -> (forall e, uncommitted (h e)) -> uncommitted (try_except m h).
Proof.
  intros Hm Hh s. unfold try_except. specialize (Hm s).
  destruct (m s) as [[a|e] s']; simpl in *; [|rewrite Hh]; exact Hm.
Qed.

Lemma uncommitted_for_each {A} (l : list A) (f : A -> M unit) :
  (forall x, uncommitted (f x)) -> uncommitted (for_each l f).
Proof.
  intros Hf. induction l as [|x l IH]; simpl.
  - apply uncommitted_ret.
  - apply uncommitted_bind; [apply Hf | intros ?; exact IH].
Qed.

#[local] Hint Resolve uncommitted_ret uncommitted_raise uncommitted_lift uncommitted_get_db
  uncommitted_modify_db uncommitted_fresh_uuid uncommitted_flush : uncommitted.

Ltac uncommitted_steps :=
  repeat first
    [ solve [auto with uncommitted]
    | apply uncommitted_bind; [|intros ?]
    | apply uncommitted_try_except; [|intros ?]
    | match goal with
      | |- uncommitted (match ?x with _ => _ end) => destruct x
      | |- uncommitted (if ?b then _ else _) => destruct b
      end ].

Lemma uncommitted_track_event w company_id event_name chatbot_id user_id event_data :
  uncommitted (track_event w company_id event_name chatbot_id user_id event_data).
Proof. unfold track_event. uncommitted_steps. Qed.

Lemma uncommitted_logged {A} (o : Outcome A) : uncommitted (logged o).
Proof. unfold logged. uncommitted_steps. Qed.

Lemma uncommitted_session_add_message w self data :
  uncommitted (session_add_message w self data).
Proof. unfold session_add_message. uncommitted_steps. Qed.

Lemma uncommitted_session_add_webhook_event w e :
  uncommitted (session_add_webhook_event w e).
Proof. unfold session_add_webhook_event. uncommitted_steps. Qed.

Lemma uncommitted_mark_webhook_event_processed w id :
  uncommitted (mark_webhook_event_processed w id).
Proof. unfold mark_webhook_event_processed. uncommitted_steps. Qed.

#[local] Hint Resolve uncommitted_track_event uncommitted_logged
  uncommitted_session_add_message uncommitted_session_add_webhook_event
  uncommitted_mark_webhook_event_processed : uncommitted.

Lemma uncommitted_await_process_whatsapp_message w e id :
  uncommitted (await_process_whatsapp_message w e id).
Proof.
  unfold await_process_whatsapp_message, find_or_create_conversation, store_and_forward.
  uncommitted_steps.
Qed.

Lemma uncommitted_await_process_whatsapp_status w e id :
  uncommitted (await_process_whatsapp_status w e id).
Proof. unfold await_process_whatsapp_status. uncommitted_steps. Qed.

#[local] Hint Resolve uncommitted_await_process_whatsapp_message
  uncommitted_await_process_whatsapp_status : uncommitted.

Lemma uncommitted_record_and_process new_event w event :
  uncommitted (record_and_process new_event w event).
Proof. unfold record_and_process. uncommitted_steps. Qed.

Lemma for_each_app {A} (l1 l2 : list A) (f : A -> M unit) (s : Session) :
  for_each (l1 ++ l2) f s
  = match for_each l1 f s with
    | (Ok _, s1) => for_each l2 f s1
    | (Raise e, s1) => (Raise e, s1)
    end.
Proof.
  revert s. induction l1 as [|x l1 IH]; intros s; simpl; [reflexivity|].
  unfold bind. destruct (f x s) as [[[]|e] s']; [apply IH | reflexivity].
Qed.

(** The two ways out of the [try] of the inbound webhook. *)
Lemma handle_whatsapp_webhook_try_run new_event w json s :
  match handle_whatsapp_webhook_try new_event w json s with
  | (Ok resp, s') =>
      exists payload s1,
        json = Some payload
        /\ for_each (process_webhook_event payload) (record_and_process new_event w) s
           = (Ok tt, s1)
        /\ constraints_ok (current s1) = true
        /\ committed s' = current s1 /\ current s' = current s1
        /\ resp = mkResponse
                    (BJson [("status", FStr "success");
                            ("processed_events",
                             FNum (Z.of_nat (length (process_webhook_event payload))))])
                    200
  | (Raise _, s') => committed s' = committed s
  end.
Proof.
  unfold handle_whatsapp_webhook_try.
  destruct json as [payload|]; [|reflexivity].
  unfold bind at 1. unfold ret at 1. cbv beta iota zeta.
  unfold bind at 1.
  pose proof (uncommitted_for_each (process_webhook_event payload)
                (record_and_process new_event w)
                (uncommitted_record_and_process new_event w) s) as Hloop.
  destruct (for_each (process_webhook_event payload) (record_and_process new_event w) s)
    as [[[]|e] s1] eqn:Hrun; simpl in Hloop; [|exact Hloop].
  unfold bind, commit, ret.
  destruct (constraints_ok (current s1)) eqn:Hck; simpl; [|exact Hloop].
  exists payload, s1. repeat split; auto.
Qed.

(** ** The inbound webhook endpoint *)

Lemma handle_whatsapp_webhook_served new_event w json d :
  match handle_whatsapp_webhook_try new_event w json (begin d) with
  | (Ok resp, s') =>
      serve (handle_whatsapp_webhook_with new_event w json) d = (Ok resp, committed s')
  | (Raise _, _) =>
      serve (handle_whatsapp_webhook_with new_event w json) d = (Ok failure_response, d)
  end.
Proof.
  unfold serve, handle_whatsapp_webhook_with, try_except.
  pose proof (handle_whatsapp_webhook_try_run new_event w json (begin d)) as Hrun.
  destruct (handle_whatsapp_webhook_try new_event w json (begin d)) as [[resp|e] s'].
  - reflexivity.
  - unfold bind, rollback, ret. simpl. rewrite Hrun. reflexivity.
Qed.

(** A sub-event whose recording or processing raises fails the delivery,
    whatever the sub-events before it did. *)
Lemma failing_sub_event_fails_delivery new_event w d payload before event after s1 e s2 :
  process_webhook_event payload = before ++ event :: after ->
  for_each before (record_and_process new_event w) (begin d) = (Ok tt, s1) ->
  record_and_process new_event w event s1 = (Raise e, s2) ->
  serve (handle_whatsapp_webhook_with new_event w (Some payload)) d
  = (Ok failure_response, d).
Proof.
  intros Hevents Hbefore Hraise.
  pose proof (handle_whatsapp_webhook_served new_event w (Some payload) d) as Hserved.
  assert (Htry : exists s', handle_whatsapp_webhook_try new_event w (Some payload) (begin d)
                            = (Raise e, s')).
  { unfold handle_whatsapp_webhook_try.
    unfold bind at 1. unfold ret at 1. cbv beta iota zeta.
    unfold bind at 1. rewrite Hevents, for_each_app, Hbefore. simpl.
    unfold bind at 1. rewrite Hraise. eexists. reflexivity. }
  destruct Htry as [s' Htry]. rewrite Htry in Hserved. exact Hserved.
Qed.

(** C3, counterexample.  A delivery with one text message is answered 500
    and leaves the database as it was: building the [WebhookEvent] raises.
    And were the [WebhookEvent] built with a payload, a batch whose second
    sub-event fails (its conversation cannot be flushed without a sender) is
    still answered 500, and neither the raw events nor the first message
    are committed. *)
Lemma failed_batch_answers_500 :
  serve (handle_whatsapp_webhook sample_world (Some sample_payload)) sample_db
  = (Ok failure_response, sample_db)
  /\ length (process_webhook_event mixed_payload) = 2%nat
  /\ is_ok (fst (record_and_process webhook_event_with_payload sample_world
                   (message_received sample_event) (begin sample_db))) = true
  /\ serve (handle_whatsapp_webhook_with webhook_event_with_payload sample_world
              (Some mixed_payload)) sample_db
     = (Ok failure_response, sample_db).
Proof. repeat split; vm_compute; reflexivity. Qed.

(** C3, amended.  The endpoint answers 200, with the number of sub-events,
    only when every sub-event was recorded and processed without an exception
    and the commit succeeded; the committed database is then the state the
    session reached.  In every other case it rolls back and answers 500, and
    the database is as before the delivery: in particular when recording or
    processing one sub-event raises, whatever the earlier sub-events did. *)
Theorem whatsapp_webhook_all_or_nothing
    (new_event : Event -> Outcome WebhookEvent.t) (w : World) (json : option WaPayload)
    (d : Db) :
  let served := serve (handle_whatsapp_webhook_with new_event w json) d in
  (served = (Ok failure_response, d)
   \/ exists payload s1,
        json = Some payload
        /\ for_each (process_webhook_event payload) (record_and_process new_event w)
                    (begin d) = (Ok tt, s1)
        /\ constraints_ok (current s1) = true
        /\ served
           = (Ok (mkResponse
                    (BJson [("status", FStr "success");
                            ("processed_events",
                             FNum (Z.of_nat (length (process_webhook_event payload))))])
                    200),
              current s1))
  /\ (forall payload before event after s1 e s2,
        json = Some payload ->
        process_webhook_event payload = before ++ event :: after ->
        for_each before (record_and_process new_event w) (begin d) = (Ok tt, s1) ->
        record_and_process new_event w event s1 = (Raise e, s2) ->
        served = (Ok failure_response, d)).
Proof.
  cbv zeta.
  pose proof (handle_whatsapp_webhook_served new_event w json d) as Hserved.
  pose proof (handle_whatsapp_webhook_try_run new_event w json (begin d)) as Hrun.
  split.
  - destruct (handle_whatsapp_webhook_try new_event w json (begin d)) as [[resp|e] s'].
    + right. destruct Hrun as [payload [s1 [Hjson [Hloop [Hck [Hcommitted [_ Hresp]]]]]]].
      exists payload, s1. rewrite Hserved, Hcommitted, Hresp. auto.
    + left. exact Hserved.
  - intros payload before event after s1 e s2 Hjson Hevents Hbefore Hraise.
    rewrite Hjson. eapply failing_sub_event_fails_delivery; eassumption.
Qed.

Lemma whatsapp_webhook_all_or_nothing_witness :
  serve (handle_whatsapp_webhook_with webhook_event_with_payload sample_world
           (Some mixed_payload)) sample_db
  = (Ok failure_response, sample_db).
Proof.
  refine (proj2 (whatsapp_webhook_all_or_nothing webhook_event_with_payload sample_world
                   (Some mixed_payload) sample_db)
                mixed_payload [message_received sample_event] _ []
                _ _ _ eq_refl eq_refl _ _).
  - vm_compute. reflexivity.
  - vm_compute. reflexivity.
Defined.

(** ** The bot-backend webhook endpoint *)

(** C6, counterexample.  With a secret configured, a callback that carries
    no signature header passes the signature check.  It is then answered 500
    (building the [WebhookEvent] raises), not 403; and were the
    [WebhookEvent] built with a payload, it is answered 200 and its event is
    recorded and marked processed. *)
Lemma unsigned_callback_not_rejected :
  signature_rejected sample_world (Some "s3cret") unsigned_request = Ok false
  /\ serve (handle_botpress_webhook sample_world (Some "s3cret") unsigned_request) empty_db
     = (Ok failure_response, empty_db)
  /\ fst (serve (handle_botpress_webhook_with bot_event_with_payload sample_world
                   (Some "s3cret") unsigned_request) empty_db)
     = Ok (mkResponse (BJson [("status", FStr "success")]) 200)
  /\ map WebhookEvent.processed
         (webhook_events
            (snd (serve (handle_botpress_webhook_with bot_event_with_payload sample_world
                           (Some "s3cret") unsigned_request) empty_db)))
     = [true].
Proof. repeat split; vm_compute; reflexivity. Qed.

Lemma truthy_true (x : string) : x <> "" -> truthy (Some x) = true.
Proof. intros H. apply truthy_some. exists x. auto. Qed.

(** C6, amended.  With a secret configured, a callback that carries a
    non-empty signature header which does not validate against the payload is
    never recorded or processed: the database is as before.  It is answered
    403 when the body is JSON and the check returns [False].  It is answered
    500 when the check cannot be made: [get_json] raises on the body, before
    the check, or the signature holds a non-ASCII character, on which the
    comparison raises.  A callback without signature header (or with an
    empty one) is not checked: it is handled as when no secret is
    configured. *)
Theorem invalid_signature_rejected
    (new_event : BotpressService.ProcessedEvent -> Outcome WebhookEvent.t)
    (w : World) (rq : BotpressRequest) (d : Db) (signature secret : string) :
  (br_signature rq = Some signature -> signature <> "" -> secret <> "" ->
   BotpressService.validate_webhook_signature w (br_data rq) signature secret <> Ok true ->
   let r := serve (handle_botpress_webhook_with new_event w (Some secret) rq) d in
   snd r = d
   /\ (br_json rq <> no_json ->
       BotpressService.validate_webhook_signature w (br_data rq) signature secret
       = Ok false ->
       fst r = Ok (error_response "Invalid signature" 403))
   /\ (br_json rq = no_json
       \/ (exists e, BotpressService.validate_webhook_signature w (br_data rq) signature
                       secret = Raise e) ->
       fst r = Ok failure_response))
  /\ (truthy (br_signature rq) = false ->
      handle_botpress_webhook_with new_event w (Some secret) rq
      = handle_botpress_webhook_with new_event w None rq).
Proof.
  split.
  - intros Hsig Hne Hsecret Hinvalid r. unfold r.
    unfold serve, handle_botpress_webhook_with, try_except, handle_botpress_webhook_try.
    unfold bind at 1.
    assert (Hcheck : signature_rejected w (Some secret) rq
                     = match BotpressService.validate_webhook_signature w (br_data rq)
                               signature secret with
                       | Ok valid => Ok (negb valid)
                       | Raise e => Raise e
                       end).
    { unfold signature_rejected.
      rewrite Hsig, (truthy_true signature Hne), (truthy_true secret Hsecret).
      reflexivity. }
    destruct (br_json rq) as [| |body] eqn:Hjson.
    + cbn. split; [reflexivity|]. split; [intros H; contradiction | reflexivity].
    + unfold raise, ret. cbv beta iota. unfold bind at 1. unfold lift. rewrite Hcheck.
      destruct (BotpressService.validate_webhook_signature w (br_data rq) signature secret)
        as [[|]|e].
      * contradiction.
      * cbn. split; [reflexivity|]. split; [reflexivity|].
        intros [H|[e H]]; discriminate.
      * cbn. split; [reflexivity|]. split; [discriminate | reflexivity].
    + unfold raise, ret. cbv beta iota. unfold bind at 1. unfold lift. rewrite Hcheck.
      destruct (BotpressService.validate_webhook_signature w (br_data rq) signature secret)
        as [[|]|e].
      * contradiction.
      * cbn. split; [reflexivity|]. split; [reflexivity|].
        intros [H|[e H]]; discriminate.
      * cbn. split; [reflexivity|]. split; [discriminate | reflexivity].
  - intros Hsig.
    unfold handle_botpress_webhook_with, handle_botpress_webhook_try, signature_rejected.
    cbv zeta. rewrite Hsig. reflexivity.
Qed.

Lemma invalid_signature_rejected_witness :
  serve (handle_botpress_webhook_with botpress_webhook_event sample_world (Some "s3cret")
           forged_request) sample_db
  = (Ok (error_response "Invalid signature" 403), sample_db).
Proof.
  assert (Hbad : BotpressService.validate_webhook_signature sample_world
                   (br_data forged_request) "sha256=bad" "s3cret" <> Ok true)
    by discriminate.
  assert (Hs : "sha256=bad"%string <> ""%string) by discriminate.
  assert (Hk : "s3cret"%string <> ""%string) by discriminate.
  destruct (proj1 (invalid_signature_rejected botpress_webhook_event sample_world
                     forged_request sample_db "sha256=bad" "s3cret")
                  eq_refl Hs Hk Hbad)
    as [Hdb [H403 _]].
  apply injective_projections; [apply H403; [discriminate | reflexivity] | exact Hdb].
Defined.

(** ** Reopening a conversation *)

(** The run of the access check shared by the conversation routes. *)
Lemma with_access_with_run get_companies user conversation_id action (s : Session) :
  with_access_with get_companies user conversation_id action s
  = match user with
    | None => (Ok (error_response "User not found" 404), s)
    | Some u =>
        match conversation_by_id (current s) conversation_id with
        | None => (Ok (error_response "Conversation not found" 404), s)
        | Some conversation =>
            match get_companies u with
            | Raise e => (Raise e, s)
            | Ok user_companies =>
                match chatbot_by_id (current s) (Conversation.chatbot_id conversation)
                with
                | None =>
                    (Raise (AttributeError
                              "'NoneType' object has no attribute 'company_id'"), s)
                | Some chatbot =>
                    if existsb (String.eqb (Chatbot.company_id chatbot)) user_companies
                    then action chatbot conversation s
                    else (Ok (error_response "Access denied" 403), s)
                end
            end
        end
    end.
Proof.
  unfold with_access_with. destruct user as [u|]; [|reflexivity].
  unfold bind at 1. unfold get_db at 1. cbv beta iota.
  destruct (conversation_by_id (current s) conversation_id); [|reflexivity].
  cbv zeta. unfold bind at 1. unfold lift at 1.
  destruct (get_companies u) as [user_companies|]; [|reflexivity].
  destruct (chatbot_by_id (current s) _) as [chatbot|]; [|reflexivity].
  destruct (existsb _ user_companies); reflexivity.
Qed.

(** A route whose access check raises is answered by its [except] branch,
    after a rollback. *)
Lemma route_fails_when_get_companies_raises get_companies u conversation_id action
    (failure : Response) (d : Db) (conversation : Conversation.t) (e : PyExn) :
  conversation_by_id d conversation_id = Some conversation ->
  get_companies u = Raise e ->
  serve (try_except (with_access_with get_companies (Some u) conversation_id action)
                    (fun _ => rollback ;; ret failure)) d
  = (Ok failure, d).
Proof.
  intros Hconv Hraise. unfold serve, try_except.
  rewrite with_access_with_run. change (current (begin d)) with d.
  rewrite Hconv, Hraise. reflexivity.
Qed.

(** C8, counterexample.  [Conversation.reopen] called on an archived
    conversation gives it the status [open].  The reopen route as written
    answers 500 for it and leaves it archived; with a [get_companies] that
    returns the user's companies the route answers 200 and commits it as
    [open]. *)
Lemma archived_conversation_reopened :
  let archived := sample_conversation Conversation.archived in
  let as_meant :=
    serve (reopen_conversation_with (get_companies as_intended) sample_world
             (Some sample_user) "conv-1") archived_db in
  Conversation.status archived = Conversation.archived
  /\ Conversation.status (Conversation.reopen 100%Z archived) = Conversation.open
  /\ serve (reopen_conversation sample_world (Some sample_user) "conv-1") archived_db
     = (Ok (error_response "Failed to reopen conversation" 500), archived_db)
  /\ fmap_status_code (fst as_meant) = Some 200%Z
  /\ map Conversation.status (conversations (snd as_meant)) = [Conversation.open].
Proof. cbv zeta. repeat split; vm_compute; reflexivity. Qed.

(** C8, amended.  Reopening has no guard on the current status.  The method
    [Conversation.reopen] sets the status [open] and clears [ended_at]
    whatever the status was, [archived] included, and touches no other
    column but [updated_at].  The route checks no status either: when
    [get_companies] returns companies that include the chatbot's, it answers
    200 and commits the reopened conversation (provided the commit passes
    the constraints).  As written, however, [get_companies] raises, so for a
    user and a conversation that exist the route answers 500 and the
    database is as before: through the route no conversation is reopened,
    a closed one no more than an archived one. *)
Theorem reopen_sets_open_from_any_status
    (get_companies : User.t -> Outcome (list string)) (w : World) (u : User.t)
    (conversation_id : string) (d : Db) (conversation : Conversation.t)
    (chatbot : Chatbot.t) :
  conversation_by_id d conversation_id = Some conversation ->
  chatbot_by_id d (Conversation.chatbot_id conversation) = Some chatbot ->
  let reopened := Conversation.reopen (utcnow w) conversation in
  let served :=
    serve (reopen_conversation_with get_companies w (Some u) conversation_id) d in
  reopened
  = Conversation.mk (Conversation.id conversation) (Conversation.chatbot_id conversation)
      (Conversation.customer_phone conversation) (Conversation.customer_name conversation)
      Conversation.open (Conversation.started_at conversation) None
      (Conversation.last_message_at conversation)
      (Conversation.message_count conversation) (utcnow w)
  /\ (forall companies,
        get_companies u = Ok companies ->
        existsb (String.eqb (Chatbot.company_id chatbot)) companies = true ->
        constraints_ok (update_conversation conversation_id
                          (Conversation.reopen (utcnow w)) d) = true ->
        fmap_status_code (fst served) = Some 200%Z
        /\ snd served
           = update_conversation conversation_id (Conversation.reopen (utcnow w)) d
        /\ conversation_by_id (snd served) conversation_id = Some reopened)
  /\ (forall e, get_companies u = Raise e ->
        served = (Ok (error_response "Failed to reopen conversation" 500), d))
  /\ serve (reopen_conversation w (Some u) conversation_id) d
     = (Ok (error_response "Failed to reopen conversation" 500), d).
Proof.
  intros Hconv Hbot reopened served.
  assert (Hid : Conversation.id conversation = conversation_id).
  { unfold conversation_by_id in Hconv. apply find_some in Hconv as [_ E].
    apply String.eqb_eq. exact E. }
  split; [reflexivity|]. split; [|split].
  - intros companies Hgc Haccess Hck.
    assert (Hserved : served
                      = (Ok (mkResponse
                               (BJson [("message",
                                        FStr "Conversation reopened successfully");
                                       ("conversation", FStr conversation_id)]) 200),
                         update_conversation conversation_id
                           (Conversation.reopen (utcnow w)) d)).
    { unfold served, serve, reopen_conversation_with, try_except.
      rewrite with_access_with_run. change (current (begin d)) with d.
      rewrite Hconv, Hgc, Hbot, Haccess.
      unfold bind, modify_db, commit, ret. simpl. rewrite Hid, Hck. reflexivity. }
    rewrite Hserved. simpl. repeat split.
    rewrite conversation_by_id_update by reflexivity. rewrite Hconv. reflexivity.
  - intros e Hraise. unfold served, reopen_conversation_with.
    apply (route_fails_when_get_companies_raises get_companies u conversation_id _ _ d
             conversation e Hconv Hraise).
  - unfold reopen_conversation, reopen_conversation_with.
    apply (route_fails_when_get_companies_raises User.get_companies u conversation_id _ _
             d conversation _ Hconv (eq_refl _)).
Qed.

Lemma reopen_sets_open_from_any_status_witness :
  Conversation.status
    (Conversation.reopen (utcnow sample_world) (sample_conversation Conversation.archived))
  = Conversation.open
  /\ serve (reopen_conversation sample_world (Some sample_user) "conv-1") archived_db
     = (Ok (error_response "Failed to reopen conversation" 500), archived_db).
Proof.
  destruct (reopen_sets_open_from_any_status User.get_companies sample_world sample_user
              "conv-1" archived_db (sample_conversation Conversation.archived) sample_chatbot
              eq_refl eq_refl)
    as [Hmethod [_ [_ Hroute]]].
  split; [rewrite Hmethod; reflexivity | exact Hroute].
Defined.

(** ** The [WebhookEvent] calls of the two endpoints *)

Lemma whatsapp_webhook_event_raises (event : Event) :
  whatsapp_webhook_event event
  = Raise (TypeError "__init__() missing 1 required positional argument: 'payload'").
Proof. reflexivity. Qed.

Lemma botpress_webhook_event_raises (processed_event : BotpressService.ProcessedEvent) :
  botpress_webhook_event processed_event
  = Raise (TypeError "__init__() missing 1 required positional argument: 'payload'").
Proof. reflexivity. Qed.

(** The inbound endpoint as written answers 500 and stores nothing for every
    delivery that holds at least one sub-event. *)
Theorem whatsapp_delivery_with_events_fails (w : World) (payload : WaPayload) (d : Db) :
  process_webhook_event payload <> [] ->
  serve (handle_whatsapp_webhook w (Some payload)) d = (Ok failure_response, d).
Proof.
  intros Hevents.
  destruct (process_webhook_event payload) as [|event after] eqn:E; [congruence|].
  apply (failing_sub_event_fails_delivery whatsapp_webhook_event w d payload
           [] event after (begin d)
           (TypeError "__init__() missing 1 required positional argument: 'payload'")
           (begin d)); [exact E | reflexivity | reflexivity].
Qed.

Lemma whatsapp_delivery_with_events_fails_witness :
  serve (handle_whatsapp_webhook sample_world (Some sample_payload)) sample_db
  = (Ok failure_response, sample_db).
Proof.
  refine (whatsapp_delivery_with_events_fails sample_world sample_payload sample_db _).
  discriminate.
Defined.

(** The bot-backend endpoint as written never stores anything: it answers
    403 on a rejected signature and 500 otherwise. *)
Theorem botpress_callback_never_recorded
    (w : World) (webhook_secret : option string) (rq : BotpressRequest) (d : Db) :
  snd (serve (handle_botpress_webhook w webhook_secret rq) d) = d
  /\ (fst (serve (handle_botpress_webhook w webhook_secret rq) d)
      = Ok (error_response "Invalid signature" 403)
      \/ fst (serve (handle_botpress_webhook w webhook_secret rq) d)
         = Ok failure_response).
Proof.
  unfold serve, handle_botpress_webhook, handle_botpress_webhook_with, try_except,
    handle_botpress_webhook_try.
  destruct (br_json rq) as [| |body]; [split; [reflexivity|right; reflexivity]| |].
  - unfold bind at 1. unfold ret at 1. cbv beta iota.
    unfold bind at 1. unfold lift at 1.
    destruct (signature_rejected w webhook_secret rq) as [[|]|e];
      [split; [reflexivity|left; reflexivity]| |split; [reflexivity|right; reflexivity]].
    split; [reflexivity|right; reflexivity].
  - unfold bind at 1. unfold ret at 1. cbv beta iota.
    unfold bind at 1. unfold lift at 1.
    destruct (signature_rejected w webhook_secret rq) as [[|]|e];
      [split; [reflexivity|left; reflexivity]| |split; [reflexivity|right; reflexivity]].
    unfold bind at 1. unfold ret at 1. cbv beta iota zeta.
    unfold bind at 1. rewrite botpress_webhook_event_raises.
    split; [reflexivity|right; reflexivity].
Qed.

(** ** Phone numbers: validation and the trunk prefix *)

Lemma format_phone_number_length (unicode_isdigit : N -> bool) (x : pystr) :
  (10 <=? length (format_phone_number unicode_isdigit x))%nat
  = (10 <=? length (filter (isdigit unicode_isdigit) x))%nat.
Proof.
  destruct (format_phone_number_cases unicode_isdigit x) as [[E _]|[[E H]|[E H]]];
    rewrite E; [reflexivity| |].
  - simpl length. rewrite H. reflexivity.
  - destruct (filter (isdigit unicode_isdigit) x) as [|c l]; [discriminate|].
    simpl in *. injection H as H. rewrite H. reflexivity.
Qed.

Lemma format_phone_number_twice (unicode_isdigit : N -> bool) (x : pystr) :
  format_phone_number unicode_isdigit (format_phone_number unicode_isdigit x)
  = format_phone_number unicode_isdigit x.
Proof.
  pose proof (format_phone_number_digits unicode_isdigit x) as Hd.
  destruct (format_phone_number_cases unicode_isdigit x) as [[E Hy]|[[E H10]|[E H11]]];
    rewrite E in *.
  - apply format_phone_number_fixed; assumption.
  - apply format_phone_number_fixed; [exact Hd|].
    right. simpl. rewrite H10. split; [discriminate|reflexivity].
  - apply format_phone_number_fixed; [exact Hd|].
    right. simpl.
    destruct (filter (isdigit unicode_isdigit) x) as [|c l]; simpl in *; [discriminate|].
    injection H11 as H11. rewrite H11. split; [discriminate|reflexivity].
Qed.

(** A phone number is accepted exactly when it holds at least ten digit
    characters, and formatting it first, as the send route does, changes
    nothing of that. *)
Theorem validate_phone_number_ten_digits (unicode_isdigit : N -> bool) (x : pystr) :
  validate_phone_number unicode_isdigit x
  = (10 <=? length (filter (isdigit unicode_isdigit) x))%nat
  /\ validate_phone_number unicode_isdigit (format_phone_number unicode_isdigit x)
     = validate_phone_number unicode_isdigit x.
Proof.
  split.
  - unfold validate_phone_number. cbv zeta.
    rewrite format_phone_number_digits, andb_true_r, <- format_phone_number_length.
    destruct (length (format_phone_number unicode_isdigit x)); [reflexivity|].
    simpl negb. apply andb_true_r.
  - unfold validate_phone_number. cbv zeta.
    rewrite format_phone_number_twice. reflexivity.
Qed.

(** The trunk prefix.  For a national number [d] of ten digits, ['8' + d]
    always becomes ['7' + d]; [d] alone becomes ['7' + d] too unless it starts
    with ['7'], in which case it is left as it is, ten digits long. *)
Theorem format_phone_number_trunk (unicode_isdigit : N -> bool) (d : pystr) :
  forallb (isdigit unicode_isdigit) d = true ->
  length d = 10%nat ->
  format_phone_number unicode_isdigit (chr_8 :: d) = chr_7 :: d
  /\ format_phone_number unicode_isdigit d
     = (if startswith d chr_7 then d else chr_7 :: d).
Proof.
  intros Hd Hlen. unfold format_phone_number. cbv zeta.
  assert (H8 : isdigit unicode_isdigit chr_8 = true) by reflexivity.
  cbn [filter]. rewrite H8, (filter_all_true _ d Hd). cbn [length]. rewrite Hlen.
  split; [reflexivity|].
  destruct (startswith d chr_7); reflexivity.
Qed.

Lemma format_phone_number_trunk_witness :
  format_phone_number ascii_digits_only (codes "87010000000") = codes "77010000000"
  /\ format_phone_number ascii_digits_only (codes "7010000000") = codes "7010000000".
Proof.
  exact (format_phone_number_trunk ascii_digits_only (codes "7010000000")
           (eq_refl true) (eq_refl 10%nat)).
Defined.

(** ** The inbound adapter *)

Lemma events_of_change_length (change : WaChange) :
  length (events_of_change change) = events_in_change change.
Proof.
  unfold events_of_change, events_in_change.
  destruct (opt_eqb (wc_field change) (Some "messages")); [|reflexivity].
  cbv zeta. rewrite length_app, !length_map. reflexivity.
Qed.

Lemma events_of_entry_length (entry : list WaChange) :
  length (flat_map events_of_change entry) = list_sum (map events_in_change entry).
Proof.
  induction entry as [|change entry IH]; [reflexivity|].
  cbn [flat_map map list_sum]. rewrite length_app, IH, events_of_change_length.
  reflexivity.
Qed.

(** Every message and every status under a change of field ['messages']
    gives exactly one event, the messages of a change before its statuses
    and the changes in payload order; a change of any other field gives
    none.  An event carries the phone number id of its own change. *)
Theorem process_webhook_event_one_event_each (payload : WaPayload) :
  length (process_webhook_event payload)
  = list_sum (map (fun entry => list_sum (map events_in_change entry)) payload)
  /\ (forall payload', process_webhook_event (payload ++ payload')
                       = process_webhook_event payload ++ process_webhook_event payload')
  /\ (forall change,
        events_of_change change
        = if opt_eqb (wc_field change) (Some "messages")
          then map (fun m => message_received (event_of_message (wc_value change) m))
                   (wv_messages (wc_value change))
               ++ map (fun st => message_status
                                   (mkStatusEvent (ws_id st) (ws_recipient_id st)
                                      (ws_status st) (ws_timestamp st)
                                      (wv_phone_number_id (wc_value change)) None))
                      (wv_statuses (wc_value change))
          else [])
  /\ (forall event, In event (process_webhook_event payload) ->
        exists entry change,
          In entry payload /\ In change entry
          /\ wc_field change = Some "messages"
          /\ event_phone_number_id event = wv_phone_number_id (wc_value change)).
Proof.
  split; [|split; [|split]].
  - unfold process_webhook_event.
    induction payload as [|entry payload IH]; [reflexivity|].
    cbn [flat_map map list_sum]. rewrite length_app, IH, events_of_entry_length.
    reflexivity.
  - intros payload'. unfold process_webhook_event. apply flat_map_app.
  - intros change. reflexivity.
  - intros event Hin. unfold process_webhook_event in Hin.
    apply in_flat_map in Hin as [entry [Hentry Hin]].
    apply in_flat_map in Hin as [change [Hchange Hin]].
    exists entry, change. split; [exact Hentry|]. split; [exact Hchange|].
    unfold events_of_change in Hin.
    destruct (opt_eqb (wc_field change) (Some "messages")) eqn:Hfield; [|destruct Hin].
    apply opt_eqb_eq in Hfield. split; [exact Hfield|].
    cbv zeta in Hin. apply in_app_or in Hin as [Hin|Hin];
      apply in_map_iff in Hin as [x [<- _]]; reflexivity.
Qed.

(** ** From the provider's message to the stored row *)

Lemma store_and_forward_stores w e id chatbot conversation (s1 : Session) :
  exists s',
    store_and_forward w e id chatbot conversation s1 = (Ok tt, s')
    /\ messages (current s')
       = messages (current s1)
         ++ [Message.new (uuid4 w (drawn s1)) (utcnow w) (Conversation.id conversation)
                         (inbound_message_data w e)]
    /\ conversations (current s')
       = map (fun c => if String.eqb (Conversation.id c) (Conversation.id conversation)
                       then snd (Conversation.add_message (uuid4 w (drawn s1)) (utcnow w) c
                                   (inbound_message_data w e))
                       else c)
             (conversations (current s1)).
Proof.
  unfold store_and_forward. cbv zeta.
  unfold bind at 1. unfold session_add_message at 1.
  unfold bind at 1. unfold fresh_uuid at 1. cbv beta iota.
  unfold bind at 1. unfold modify_db at 1. cbv beta iota.
  unfold bind at 1. unfold modify_db at 1. cbv beta iota.
  unfold ret at 1. cbv beta iota.
  match goal with
  | |- context [bind (track_event ?a ?b ?c ?d ?f ?g) ?k ?s] =>
      destruct (track_event_run a b c d f g s) as [s2 [E2 [M2 [C2 [W2 B2]]]]];
      unfold bind at 1; rewrite E2
  end.
  unfold bind at 1.
  assert (Hfwd : forall (m : M unit), (m = ret tt \/ exists o : Outcome unit, m = logged o) ->
                                      m s2 = (Ok tt, s2)).
  { intros m [-> | [o ->]]; [reflexivity | apply logged_run]. }
  rewrite Hfwd by (destruct (truthy _ && _); [right; eexists; reflexivity | left; reflexivity]).
  unfold bind at 1. rewrite logged_run.
  destruct (mark_webhook_event_processed_run w id s2) as [s3 [E3 [M3 [C3 W3]]]].
  rewrite E3. eexists. split; [reflexivity|].
  rewrite M3, M2, C3, C2. split; reflexivity.
Qed.

Lemma jstr_get (d : Dict) (k : string) : jstr (get d k) = get_str d k.
Proof. unfold get, get_str. destruct (dict_get d k); reflexivity. Qed.


(** ** Signatures of bot-backend callbacks *)

Lemma is_ascii_nonempty (x : string) :
  BotpressService.is_ascii x = false -> x <> "".
Proof. intros H ->. discriminate H. Qed.

(** The signature check accepts exactly the string ['sha256=' + HMAC hex
    digest] of the payload under the secret.  Any other ASCII signature is
    refused, and a signature with a non-ASCII character makes the comparison
    raise [TypeError], so that the endpoint answers 500, not 403, and stores
    nothing. *)
Theorem validate_webhook_signature_exact
    (w : World) (payload secret signature : string) :
  let expected := ("sha256=" ++ hmac_sha256_hexdigest w secret payload)%string in
  BotpressService.is_ascii expected = true ->
  BotpressService.validate_webhook_signature w payload expected secret = Ok true
  /\ (BotpressService.is_ascii signature = true -> signature <> expected ->
      BotpressService.validate_webhook_signature w payload signature secret = Ok false)
  /\ (BotpressService.is_ascii signature = false ->
      BotpressService.validate_webhook_signature w payload signature secret
      = Raise (TypeError "comparing strings with non-ASCII characters is not supported")
      /\ forall new_event rq d json,
           br_json rq = json_object json -> br_signature rq = Some signature ->
           br_data rq = payload -> secret <> "" ->
           serve (handle_botpress_webhook_with new_event w (Some secret) rq) d
           = (Ok failure_response, d))
  /\ (forall rq, br_signature rq = Some expected -> br_data rq = payload ->
        signature_rejected w (Some secret) rq = Ok false).
Proof.
  cbv zeta. intros Hexpected.
  unfold BotpressService.validate_webhook_signature, BotpressService.compare_digest.
  cbv zeta. rewrite Hexpected.
  split; [|split; [|split]].
  - cbn [andb]. rewrite String.eqb_refl. reflexivity.
  - intros Hascii Hne. rewrite Hascii. cbn [andb].
    apply String.eqb_neq in Hne. rewrite Hne. reflexivity.
  - intros Hascii. rewrite Hascii. cbn [andb]. split; [reflexivity|].
    intros new_event rq d json Hjson Hsig Hdata Hsecret.
    unfold serve, handle_botpress_webhook_with, try_except, handle_botpress_webhook_try.
    rewrite Hjson. unfold bind at 1. unfold ret at 1. cbv beta iota.
    unfold bind at 1. unfold lift at 1. unfold signature_rejected.
    cbv zeta. rewrite Hsig, (truthy_true signature (is_ascii_nonempty signature Hascii)),
      (truthy_true secret Hsecret), Hdata.
    unfold BotpressService.validate_webhook_signature, BotpressService.compare_digest.
    cbv zeta. rewrite Hascii. reflexivity.
  - intros rq Hsig Hdata. unfold signature_rejected. cbv zeta. rewrite Hsig, Hdata.
    destruct (truthy (Some _)); [|reflexivity].
    destruct (truthy (Some secret)); [|reflexivity].
    unfold BotpressService.validate_webhook_signature, BotpressService.compare_digest.
    cbv zeta. rewrite Hexpected. cbn [andb]. rewrite String.eqb_refl. reflexivity.
Qed.

Lemma validate_webhook_signature_exact_witness :
  BotpressService.validate_webhook_signature sample_world "{}" "sha256=0f" "s3cret"
  = Ok true.
Proof.
  exact (proj1 (validate_webhook_signature_exact sample_world "{}" "s3cret" "sha256=bad"
                  (eq_refl true))).
Defined.

(** ** Ordering of query results *)

Lemma insert_by_perm {A} (before : A -> A -> bool) (x : A) (l : list A) :
  Permutation (insert_by before x l) (x :: l).
Proof.
  induction l as [|y l IH]; simpl; [apply Permutation_refl|].
  destruct (before x y); [apply Permutation_refl|].
  eapply Permutation_trans; [apply perm_skip, IH | apply perm_swap].
Qed.

Lemma order_by_perm {A} (before : A -> A -> bool) (l : list A) :
  Permutation (order_by before l) l.
Proof.
  induction l as [|x l IH]; simpl; [apply Permutation_refl|].
  eapply Permutation_trans; [apply insert_by_perm | apply perm_skip, IH].
Qed.

Lemma order_by_length {A} (before : A -> A -> bool) (l : list A) :
  length (order_by before l) = length l.
Proof. apply Permutation_length, order_by_perm. Qed.

Lemma order_by_in {A} (before : A -> A -> bool) (l : list A) (x : A) :
  In x (order_by before l) <-> In x l.
Proof.
  split; apply Permutation_in; [|apply Permutation_sym]; apply order_by_perm.
Qed.

Lemma insert_by_sorted {A} (before : A -> A -> bool) (x : A) (l : list A) :
  (forall a b, before a b = false -> before b a = true) ->
  Sorted (fun a b => before a b = true) l ->
  Sorted (fun a b => before a b = true) (insert_by before x l).
Proof.
  intros Htotal Hl. induction Hl as [|y l Hl IH Hhd]; simpl.
  - constructor; constructor.
  - destruct (before x y) eqn:E.
    + constructor; [constructor; assumption | constructor; exact E].
    + constructor; [exact IH|].
      destruct l as [|z l]; simpl.
      * constructor. apply Htotal. exact E.
      * destruct (before x z); constructor.
        -- apply Htotal. exact E.
        -- inversion Hhd; assumption.
Qed.

Lemma order_by_sorted {A} (before : A -> A -> bool) (l : list A) :
  (forall a b, before a b = false -> before b a = true) ->
  Sorted (fun a b => before a b = true) (order_by before l).
Proof.
  intros Htotal. induction l as [|x l IH]; simpl; [constructor|].
  apply insert_by_sorted; assumption.
Qed.

Lemma by_created_at_total (a b : WebhookEvent.t) :
  WebhookEvents.by_created_at a b = false -> WebhookEvents.by_created_at b a = true.
Proof.
  unfold WebhookEvents.by_created_at. intros H.
  apply Z.leb_gt in H. apply Z.leb_le. lia.
Qed.

Lemma sorted_firstn {A} (R : A -> A -> Prop) (n : nat) (l : list A) :
  Sorted R l -> Sorted R (firstn n l).
Proof.
  intros Hl. revert n. induction Hl as [|x l Hl IH Hhd]; intros [|n]; simpl;
    try constructor.
  - apply IH.
  - destruct Hhd; destruct n; simpl; constructor; assumption.
Qed.

(** ** The retry budget of a webhook event *)

(** [mark_failed] called [k] times adds [k] to [retry_count] and leaves
    [processed] alone, so an event can be retried exactly while
    [retry_count + k < max_retries] and it is unprocessed; [mark_processed]
    ends that for good, and marking twice only moves [processed_at]. *)
Theorem webhook_event_retry_budget
    (max_retries : Z) (k : nat) (msg : string) (now now' : datetime) (e : WebhookEvent.t) :
  let failed := Nat.iter k (WebhookEvent.mark_failed msg) in
  WebhookEvent.retry_count (failed e) = (WebhookEvent.retry_count e + Z.of_nat k)%Z
  /\ WebhookEvent.processed (failed e) = WebhookEvent.processed e
  /\ WebhookEvent.can_retry max_retries (failed e)
     = (WebhookEvent.retry_count e + Z.of_nat k <? max_retries)%Z
       && negb (WebhookEvent.processed e)
  /\ WebhookEvent.can_retry max_retries (failed (WebhookEvent.mark_processed now e)) = false
  /\ WebhookEvent.mark_processed now' (WebhookEvent.mark_processed now e)
     = WebhookEvent.mark_processed now' e.
Proof.
  cbv zeta.
  assert (H : forall e0,
             WebhookEvent.retry_count (Nat.iter k (WebhookEvent.mark_failed msg) e0)
             = (WebhookEvent.retry_count e0 + Z.of_nat k)%Z
             /\ WebhookEvent.processed (Nat.iter k (WebhookEvent.mark_failed msg) e0)
                = WebhookEvent.processed e0).
  { intros e0. induction k as [|k [IHr IHp]].
    - simpl. split; [lia|reflexivity].
    - rewrite Nat.iter_succ. cbn [WebhookEvent.mark_failed WebhookEvent.retry_count
                                    WebhookEvent.processed].
      rewrite IHr, IHp. split; [lia|reflexivity]. }
  destruct (H e) as [Hr Hp].
  split; [exact Hr|]. split; [exact Hp|].
  split; [unfold WebhookEvent.can_retry; rewrite Hr, Hp; reflexivity|].
  split; [|reflexivity].
  destruct (H (WebhookEvent.mark_processed now e)) as [_ Hp'].
  unfold WebhookEvent.can_retry. rewrite Hp'. simpl. apply andb_false_r.
Qed.

(** ** Purging old webhook events *)

Lemma same_id_same_row (l : list WebhookEvent.t) (a b : WebhookEvent.t) :
  distinct (map WebhookEvent.id l) = true ->
  In a l -> In b l -> WebhookEvent.id a = WebhookEvent.id b -> a = b.
Proof.
  induction l as [|x l IH]; simpl; intros Hd Ha Hb Hid; [destruct Ha|].
  apply andb_true_iff in Hd as [Hx Hd]. apply negb_true_iff in Hx.
  assert (Hfresh : forall c, In c l -> WebhookEvent.id x <> WebhookEvent.id c).
  { intros c Hc E.
    assert (Hex : existsb (String.eqb (WebhookEvent.id x)) (map WebhookEvent.id l) = true).
    { apply existsb_exists. exists (WebhookEvent.id c). split.
      - apply in_map. exact Hc.
      - apply String.eqb_eq. exact E. }
    congruence. }
  destruct Ha as [<-|Ha], Hb as [<-|Hb].
  - reflexivity.
  - exfalso. apply (Hfresh b Hb). exact Hid.
  - exfalso. apply (Hfresh a Ha). symmetry. exact Hid.
  - apply IH; assumption.
Qed.

Lemma selected_by_id (P : WebhookEvent.t -> bool) (l : list WebhookEvent.t)
    (e : WebhookEvent.t) :
  distinct (map WebhookEvent.id l) = true -> In e l ->
  existsb (fun o => String.eqb (WebhookEvent.id o) (WebhookEvent.id e)) (filter P l) = P e.
Proof.
  intros Hd He. destruct (P e) eqn:HP.
  - apply existsb_exists. exists e. split.
    + apply filter_In. auto.
    + apply String.eqb_refl.
  - destruct (existsb _ (filter P l)) eqn:Hex; [|reflexivity].
    apply existsb_exists in Hex as [o [Ho Hid]].
    apply filter_In in Ho as [Ho HPo]. apply String.eqb_eq in Hid.
    rewrite (same_id_same_row l o e Hd Ho He Hid) in HPo. congruence.
Qed.

Lemma filter_length_split {A} (P : A -> bool) (l : list A) :
  length l = (length (filter (fun x => negb (P x)) l) + length (filter P l))%nat.
Proof.
  induction l as [|x l IH]; simpl; [reflexivity|].
  destruct (P x); simpl; lia.
Qed.

(** The run of [cleanup_old_events]: the cutoff is computed first, and
    either step of that raises [OverflowError] outside the ranges of
    [timedelta] and [datetime]. *)
Lemma cleanup_old_events_run (w : World) (days : Z) (s : Session) :
  let cutoff_date := (utcnow w - days * 86400 * 1000000)%Z in
  WebhookEvents.cleanup_old_events w days s
  = if (Z.abs days <=? 999999999)%Z
    then if (datetime_min <=? cutoff_date)%Z && (cutoff_date <=? datetime_max)%Z
         then
           let old_events :=
             filter (WebhookEvents.is_old cutoff_date) (webhook_events (current s)) in
           (Ok (length old_events),
            mkSession (committed s)
              (set_webhook_events
                 (filter (fun e => negb (existsb (fun o => String.eqb (WebhookEvent.id o)
                                                                       (WebhookEvent.id e))
                                                  old_events))
                         (webhook_events (current s))) (current s))
              (drawn s))
         else (Raise (OverflowError "date value out of range"), s)
    else (Raise (OverflowError "days; must have magnitude <= 999999999"), s).
Proof.
  cbv zeta. unfold WebhookEvents.cleanup_old_events.
  unfold bind at 1. unfold lift at 1. unfold timedelta_days.
  destruct (Z.abs days <=? 999999999)%Z; [|reflexivity].
  unfold bind at 1. unfold lift at 1. unfold datetime_sub.
  destruct ((datetime_min <=? utcnow w - days * 86400 * 1000000)%Z
            && (utcnow w - days * 86400 * 1000000 <=? datetime_max)%Z); reflexivity.
Qed.



(** ** Listing the events to retry *)

Lemma firstn_in {A} (n : nat) (l : list A) (x : A) : In x (firstn n l) -> In x l.
Proof.
  revert n. induction l as [|y l IH]; intros [|n]; simpl; try tauto.
  intros [->|H]; [left; reflexivity | right; apply (IH n); exact H].
Qed.


(** ** Recording an event with [create_event] *)

Lemma distinct_snoc_fresh (l : list string) (x : string) :
  distinct l = true -> existsb (String.eqb x) l = false -> distinct (l ++ [x]) = true.
Proof.
  induction l as [|a l IH]; simpl; intros Hd Hx; [reflexivity|].
  apply andb_true_iff in Hd as [Ha Hl]. apply orb_false_iff in Hx as [Hxa Hxl].
  rewrite existsb_app. simpl. rewrite orb_false_r.
  apply negb_true_iff in Ha. rewrite Ha, String.eqb_sym, Hxa. simpl.
  apply IH; assumption.
Qed.

Lemma find_snoc_fresh (l : list WebhookEvent.t) (row : WebhookEvent.t) :
  existsb (String.eqb (WebhookEvent.id row)) (map WebhookEvent.id l) = false ->
  find (fun e => String.eqb (WebhookEvent.id e) (WebhookEvent.id row)) (l ++ [row])
  = Some row.
Proof.
  induction l as [|a l IH]; simpl; intros H.
  - rewrite String.eqb_refl. reflexivity.
  - apply orb_false_iff in H as [Ha Hl]. rewrite String.eqb_sym, Ha. apply IH, Hl.
Qed.

(** [WebhookEvent.create_event] passes all three required arguments, so it
    returns whatever their values are.  On a session whose rows satisfy the
    constraints and with an unused id, it adds one row with the given
    columns, which the insert completes with [processed = False] and
    [retry_count = 0]; looking the row up by its id finds it, and it can be
    retried under any positive budget; nothing is committed.  The object
    that is returned has not been flushed: its [retry_count] reads [None],
    so [can_retry] raises [TypeError] on it.  The next flush succeeds exactly
    when neither [event_type] nor [source] is [None]; a [payload] of [None]
    is stored as JSON null. *)
Theorem create_event_adds_pending_row (w : World)
    (event_type source payload chatbot_id : option string) (s : Session) :
  constraints_ok (current s) = true ->
  existsb (String.eqb (uuid4 w (drawn s)))
          (map WebhookEvent.id (webhook_events (current s))) = false ->
  let row := WebhookEvent.mk (uuid4 w (drawn s)) chatbot_id event_type source payload
               false None None 0%Z (utcnow w) in
  let returned :=
    WebhookEvents.mkUnflushed chatbot_id event_type source payload None None in
  let r := WebhookEvents.create_event w event_type source payload chatbot_id s in
  fst r = Ok returned
  /\ webhook_events (current (snd r)) = webhook_events (current s) ++ [row]
  /\ committed (snd r) = committed s
  /\ webhook_event_by_id (current (snd r)) (Some (WebhookEvent.id row)) = Some row
  /\ (forall max_retries,
        exists msg,
          WebhookEvents.can_retry_unflushed max_retries returned = Raise (TypeError msg))
  /\ (forall max_retries, (0 < max_retries)%Z -> WebhookEvent.can_retry max_retries row = true)
  /\ (fst (flush (snd r)) = Ok tt <-> event_type <> None /\ source <> None).
Proof.
  intros Hok Hfresh row returned r.
  assert (Hr : r = (Ok returned, mkSession (committed s)
                                   (insert_webhook_event row (current s)) (S (drawn s)))).
  { reflexivity. }
  rewrite Hr. cbn [fst snd current committed].
  split; [reflexivity|]. split; [reflexivity|]. split; [reflexivity|].
  split; [|split; [|split]].
  - cbn [webhook_event_by_id insert_webhook_event set_webhook_events webhook_events].
    apply (find_snoc_fresh (webhook_events (current s)) row). exact Hfresh.
  - intros max_retries. eexists. reflexivity.
  - intros max_retries Hpos. unfold WebhookEvent.can_retry, row. simpl.
    apply Z.ltb_lt in Hpos. rewrite Hpos. reflexivity.
  - unfold flush. cbn [current].
    unfold constraints_ok in *.
    cbn [insert_webhook_event set_webhook_events webhook_events conversations messages
         analytics_events].
    apply andb_true_iff in Hok as [Hok Hnn]. apply andb_true_iff in Hok as [Hok Hphone].
    apply andb_true_iff in Hok as [Hok Han]. apply andb_true_iff in Hok as [Hok Hev].
    apply andb_true_iff in Hok as [Hconv Hmsg].
    rewrite Hconv, Hmsg, Han, Hphone. rewrite map_app, forallb_app, Hnn.
    cbn [map].
    rewrite (distinct_snoc_fresh (map WebhookEvent.id (webhook_events (current s)))
               (WebhookEvent.id row) Hev Hfresh).
    cbn [forallb andb row WebhookEvent.event_type WebhookEvent.source].
    destruct event_type, source; cbn; split; intros Hx;
      try (repeat split; congruence); try discriminate;
      destruct Hx as [H3 H4]; congruence.
Qed.

Lemma create_event_adds_pending_row_witness :
  map WebhookEvent.id
      (webhook_events
         (current (snd (WebhookEvents.create_event sample_world (Some "bot_error")
                          (Some "botpress") None (Some "bot-1") (begin sample_db)))))
  = ["evt-1"; "u"].
Proof.
  refine (eq_trans
            (f_equal (map WebhookEvent.id)
               (proj1 (proj2 (create_event_adds_pending_row sample_world (Some "bot_error")
                                (Some "botpress") None (Some "bot-1")
                                (begin sample_db) (eq_refl true) (eq_refl false)))))
            _).
  vm_compute. reflexivity.
Defined.

(** ** What a message displays as *)

Lemma or_else_nonempty (x : option string) (default : string) :
  default <> ""%string -> MessageMethods.or_else x default <> ""%string.
Proof.
  intros Hd. unfold MessageMethods.or_else. destruct x as [s|]; [|exact Hd].
  destruct (String.eqb s "") eqn:E; [exact Hd|].
  apply String.eqb_neq. exact E.
Qed.

(** [get_display_content] returns the content as it is for a text message
    (possibly [None] or empty), and a non-empty string for every other type.
    A message of a media type that has no [media_url] is not shown as media:
    it displays its content, or ["[TYPE] Message"] when it has none. *)
Theorem get_display_content_never_blank (w : World) (self : Message.t) :
  (Message.type self = "text"%string ->
   MessageMethods.get_display_content w self = Message.content self)
  /\ (Message.type self <> "text"%string ->
      exists s, MessageMethods.get_display_content w self = Some s /\ s <> ""%string)
  /\ (In (Message.type self) ["image"; "audio"; "video"; "document"]%string ->
      truthy (Message.media_url self) = false ->
      MessageMethods.get_display_content w self
      = Some (MessageMethods.or_else (Message.content self)
                ("[" ++ ascii_upper (Message.type self) ++ "] Message")%string)).
Proof.
  split; [|split].
  - intros Ht. unfold MessageMethods.get_display_content. rewrite Ht. reflexivity.
  - intros Ht. unfold MessageMethods.get_display_content.
    apply String.eqb_neq in Ht. rewrite Ht.
    destruct (MessageMethods.has_media self).
    { eexists. split; [reflexivity|]. discriminate. }
    destruct (String.eqb (Message.type self) "location").
    { eexists. split; [reflexivity|]. discriminate. }
    destruct (String.eqb (Message.type self) "contact").
    { eexists. split; [reflexivity|]. discriminate. }
    destruct (String.eqb (Message.type self) "interactive").
    { eexists. split; [reflexivity|]. discriminate. }
    eexists. split; [reflexivity|]. apply or_else_nonempty. discriminate.
  - intros Hin Hurl. unfold MessageMethods.get_display_content, MessageMethods.has_media.
    rewrite Hurl, andb_false_r.
    destruct Hin as [H|[H|[H|[H|[]]]]]; rewrite <- H; reflexivity.
Qed.

(** ** Pages of a conversation's messages *)

Lemma sorted_skipn {A} (R : A -> A -> Prop) (n : nat) (l : list A) :
  Sorted R l -> Sorted R (skipn n l).
Proof.
  revert l. induction n as [|n IH]; intros l Hl; simpl; [exact Hl|].
  destruct Hl as [|x l Hl _]; [constructor|]. apply IH. exact Hl.
Qed.

Lemma skipn_in {A} (n : nat) (l : list A) (x : A) : In x (skipn n l) -> In x l.
Proof.
  revert l. induction n as [|n IH]; intros [|y l]; simpl; auto.
Qed.

Lemma all_loaded_cases (selected : list Message.t) :
  (forallb Message.type_in_enum selected = true /\ all_loaded selected = Ok selected)
  \/ (exists m msg, In m selected /\ Message.type_in_enum m = false
                    /\ all_loaded selected = Raise (LookupError msg)).
Proof.
  unfold all_loaded. destruct (forallb Message.type_in_enum selected) eqn:E.
  - left. auto.
  - right. assert (Hex : exists m, In m selected /\ Message.type_in_enum m = false).
    { induction selected as [|x l IH]; [discriminate|]. simpl in E.
      destruct (Message.type_in_enum x) eqn:Ex.
      - destruct (IH E) as [m [Hm Hty]]. exists m. split; [right; exact Hm | exact Hty].
      - exists x. split; [left; reflexivity | exact Ex]. }
    destruct Hex as [m [Hm Hty]]. exists m. eexists. auto.
Qed.

Lemma forallb_firstn {A} (p : A -> bool) (n : nat) (l : list A) :
  forallb p l = true -> forallb p (firstn n l) = true.
Proof.
  intros H. apply forallb_forall. intros x Hx.
  apply (proj1 (forallb_forall p l) H). eapply firstn_in. exact Hx.
Qed.

Lemma forallb_skipn {A} (p : A -> bool) (n : nat) (l : list A) :
  forallb p l = true -> forallb p (skipn n l) = true.
Proof.
  intros H. apply forallb_forall. intros x Hx.
  apply (proj1 (forallb_forall p l) H). eapply skipn_in. exact Hx.
Qed.

(** [get_conversation_messages] with a limit and an offset that are not
    negative.  The query loads the rows of the page, and loading a row whose
    [type] is not a value of the column's Enum raises [LookupError]; an
    inbound message of a type the Enum lacks (['contacts'], ['sticker'],
    ...) is stored with that type, so a page that holds one cannot be read.
    When it returns, a page holds [min limit (count - offset)] rows, where
    [count] is the number of rows of the conversation; they belong to the
    conversation and come newest first.  It returns whenever every message
    of the conversation has a type of the Enum; then, with consistent
    counters, the page of [message_count] rows from offset 0 holds every
    message of the conversation, so the [total_messages] that
    [get_conversation] reports is the number of rows its pages reach. *)
Theorem conversation_messages_page (d : Db) (conversation_id : string)
    (limit offset : nat) :
  let rows := filter (fun m => String.eqb (Message.conversation_id m) conversation_id)
                     (messages d) in
  match MessageMethods.get_conversation_messages d conversation_id limit offset with
  | Ok page =>
      length page = Nat.min limit (Z.to_nat (count_messages d conversation_id) - offset)
      /\ (forall m, In m page ->
                    In m (messages d) /\ Message.conversation_id m = conversation_id
                    /\ Message.type_in_enum m = true)
      /\ Sorted (fun a b => (Message.timestamp b <= Message.timestamp a)%Z) page
  | Raise e =>
      exists m msg, e = LookupError msg /\ In m rows /\ Message.type_in_enum m = false
  end
  /\ (forallb Message.type_in_enum rows = true ->
      exists page,
        MessageMethods.get_conversation_messages d conversation_id limit offset = Ok page)
  /\ (forall m, In m rows -> Message.type_in_enum m = false ->
      exists msg,
        MessageMethods.get_conversation_messages d conversation_id (length rows) 0
        = Raise (LookupError msg))
  /\ (forall c, consistent d = true ->
                conversation_by_id d conversation_id = Some c ->
                forallb Message.type_in_enum rows = true ->
                let total_messages := Z.to_nat (Conversation.message_count c) in
                exists all,
                  MessageMethods.get_conversation_messages d conversation_id
                    total_messages 0 = Ok all
                  /\ length all = total_messages
                  /\ (forall m, In m (messages d) ->
                                Message.conversation_id m = conversation_id -> In m all)
                  /\ MessageMethods.get_conversation_messages d conversation_id limit
                       total_messages = Ok []).
Proof.
  intros rows. unfold MessageMethods.get_conversation_messages, count_messages.
  fold rows.
  set (before := fun a b : Message.t => (Message.timestamp b <=? Message.timestamp a)%Z).
  assert (Hsorted : Sorted (fun a b => (Message.timestamp b <= Message.timestamp a)%Z)
                           (order_by before rows)).
  { assert (Htotal : forall a b, before a b = false -> before b a = true).
    { intros a b H. unfold before in *. apply Z.leb_gt in H. apply Z.leb_le. lia. }
    pose proof (order_by_sorted before rows Htotal) as H.
    induction H as [|x l' Hl IH Hhd]; constructor; [exact IH|].
    destruct Hhd as [|y l'' Hxy]; constructor. apply Z.leb_le. exact Hxy. }
  assert (Hvalid : forallb Message.type_in_enum rows = true ->
                   forallb Message.type_in_enum (order_by before rows) = true).
  { intros H. apply forallb_forall. intros x Hx. apply order_by_in in Hx.
    apply (proj1 (forallb_forall _ rows) H). exact Hx. }
  split; [|split; [|split]].
  - destruct (all_loaded_cases (firstn limit (skipn offset (order_by before rows))))
      as [[Hall ->] | [m [msg [Hm [Hty ->]]]]].
    + split; [|split].
      * rewrite length_firstn, length_skipn, order_by_length, Nat2Z.id. reflexivity.
      * intros m Hm. pose proof (proj1 (forallb_forall _ _) Hall m Hm) as Hty.
        apply firstn_in, skipn_in in Hm. apply order_by_in in Hm.
        apply filter_In in Hm as [Hin Heq]. apply String.eqb_eq in Heq. auto.
      * apply sorted_firstn, sorted_skipn, Hsorted.
    + exists m, msg. split; [reflexivity|]. split; [|exact Hty].
      apply firstn_in, skipn_in in Hm. apply order_by_in in Hm. exact Hm.
  - intros Hrows. eexists. unfold all_loaded.
    rewrite forallb_firstn by (apply forallb_skipn, Hvalid, Hrows). reflexivity.
  - intros m Hm Hty. cbn [skipn].
    rewrite firstn_all2 by (rewrite order_by_length; lia).
    destruct (all_loaded_cases (order_by before rows))
      as [[Hall _] | [m' [msg [_ [_ ->]]]]]; [|eexists; reflexivity].
    exfalso. pose proof (proj1 (forallb_forall _ _) Hall m) as H.
    rewrite H in Hty by (apply order_by_in; exact Hm). discriminate.
  - intros c Hcons Hfind Hrows.
    apply find_some in Hfind as [Hin Hid]. apply String.eqb_eq in Hid.
    apply consistent_spec in Hcons as [Hcounts _].
    pose proof (proj1 (counts_ok_spec d) Hcounts c Hin) as Hcount.
    rewrite Hid in Hcount. unfold count_messages in Hcount. fold rows in Hcount.
    assert (Htotal : Z.to_nat (Conversation.message_count c) = length rows).
    { rewrite Hcount. apply Nat2Z.id. }
    cbv zeta. rewrite Htotal. cbn [skipn].
    rewrite firstn_all2 by (rewrite order_by_length; lia).
    exists (order_by before rows).
    split; [unfold all_loaded; rewrite (Hvalid Hrows); reflexivity|].
    split; [apply order_by_length|].
    split.
    + intros m Hm Hconv. apply order_by_in. apply filter_In.
      split; [exact Hm|]. apply String.eqb_eq. exact Hconv.
    + rewrite skipn_all2 by (rewrite order_by_length; lia).
      rewrite firstn_nil. reflexivity.
Qed.

(** ** Tags of a conversation *)

Lemma list_remove_not_in (x : string) (l : list string) :
  ~ In x l -> ConversationTags.list_remove x l = l.
Proof.
  induction l as [|y l IH]; simpl; intros H; [reflexivity|].
  destruct (String.eqb y x) eqn:E.
  - apply String.eqb_eq in E. exfalso. apply H. left. exact E.
  - f_equal. apply IH. intros Hin. apply H. right. exact Hin.
Qed.

Lemma list_remove_snoc (x : string) (l : list string) :
  ~ In x l -> ConversationTags.list_remove x (l ++ [x]) = l.
Proof.
  induction l as [|y l IH]; simpl; intros H.
  - rewrite String.eqb_refl. reflexivity.
  - destruct (String.eqb y x) eqn:E.
    + apply String.eqb_eq in E. exfalso. apply H. left. exact E.
    + f_equal. apply IH. intros Hin. apply H. right. exact Hin.
Qed.

Lemma list_remove_in (x y : string) (l : list string) :
  In y (ConversationTags.list_remove x l) -> In y l.
Proof.
  induction l as [|z l IH]; simpl; [auto|].
  destruct (String.eqb z x); simpl; [auto|]. intros [H|H]; auto.
Qed.

Lemma list_remove_nodup (x : string) (l : list string) :
  NoDup l -> NoDup (ConversationTags.list_remove x l)
             /\ ~ In x (ConversationTags.list_remove x l).
Proof.
  induction 1 as [|y l Hy Hl IH]; simpl.
  - split; [constructor | auto].
  - destruct (String.eqb y x) eqn:E.
    + apply String.eqb_eq in E. subst y. split; assumption.
    + destruct IH as [IH1 IH2]. split.
      * constructor; [|exact IH1]. intros Hin. apply Hy. eapply list_remove_in. exact Hin.
      * intros [Heq|Hin]; [|contradiction].
        apply String.eqb_neq in E. contradiction.
Qed.

Lemma existsb_eqb_in (x : string) (l : list string) :
  existsb (String.eqb x) l = true <-> In x l.
Proof.
  rewrite existsb_exists. split.
  - intros [y [Hy E]]. apply String.eqb_eq in E. subst. exact Hy.
  - intros H. exists x. split; [exact H | apply String.eqb_refl].
Qed.

(** [add_tag] and [remove_tag] on the tag list of a conversation object:
    after [add_tag] the tag is shown; a list without duplicates stays so; a
    second [add_tag] of the same tag changes nothing, [updated_at] included;
    [remove_tag] of a tag that is not there changes nothing; removing a tag
    that was just added to a list without it gives the list back; and
    [remove_tag] removes the tag for good only when it occurs once: one
    occurrence goes per call. *)
Theorem tags_add_remove (now later : datetime) (tag : string)
    (self : ConversationTags.t) :
  let added := ConversationTags.add_tag now tag self in
  In tag (ConversationTags.shown added)
  /\ (forall t, In t (ConversationTags.shown self) -> In t (ConversationTags.shown added))
  /\ (NoDup (ConversationTags.shown self) -> NoDup (ConversationTags.shown added))
  /\ ConversationTags.add_tag later tag added = added
  /\ (~ In tag (ConversationTags.shown self) ->
      ConversationTags.remove_tag later tag self = self
      /\ ConversationTags.updated_at added = now
      /\ ConversationTags.shown (ConversationTags.remove_tag later tag added)
         = ConversationTags.shown self)
  /\ (NoDup (ConversationTags.shown self) ->
      ~ In tag (ConversationTags.shown (ConversationTags.remove_tag later tag self)))
  /\ (forall l, ConversationTags.tags self = Some (tag :: tag :: l) ->
      In tag (ConversationTags.shown (ConversationTags.remove_tag later tag self))).
Proof.
  destruct self as [tags updated_at].
  assert (Hcur : match tags with Some (x :: l) => x :: l | _ => [] end
                 = ConversationTags.shown (ConversationTags.mk tags updated_at)).
  { destruct tags as [[|x l]|]; reflexivity. }
  cbn [ConversationTags.shown ConversationTags.tags] in Hcur.
  set (cur := match tags with Some l => l | None => [] end) in *.
  intros added.
  assert (Hadded : added = if existsb (String.eqb tag) cur
                           then ConversationTags.mk (Some cur) updated_at
                           else ConversationTags.mk (Some (cur ++ [tag])) now).
  { unfold added, ConversationTags.add_tag. cbn [ConversationTags.tags
      ConversationTags.updated_at]. rewrite Hcur. reflexivity. }
  cbn [ConversationTags.shown ConversationTags.tags]. fold cur.
  destruct (existsb (String.eqb tag) cur) eqn:E.
  - (* the tag is already there *)
    pose proof (proj1 (existsb_eqb_in tag cur) E) as Hin.
    assert (Hne : exists x l, cur = x :: l).
    { destruct cur as [|x l]; [contradiction|]. eauto. }
    destruct Hne as [x [l Hxl]].
    rewrite Hadded. cbn [ConversationTags.shown ConversationTags.tags].
    split; [exact Hin|]. split; [auto|]. split; [auto|]. split.
    { unfold ConversationTags.add_tag. cbn [ConversationTags.tags
        ConversationTags.updated_at]. rewrite Hxl. rewrite <- Hxl. rewrite E. reflexivity. }
    split; [intros Hnot; contradiction|]. split.
    + intros Hnd. unfold ConversationTags.remove_tag. cbn [ConversationTags.tags].
      assert (Htags : tags = Some (x :: l)).
      { unfold cur in Hxl. destruct tags as [t|]; [congruence | discriminate]. }
      rewrite Htags. rewrite <- Hxl, E. cbn [ConversationTags.shown ConversationTags.tags].
      apply list_remove_nodup. exact Hnd.
    + intros l' Hl'. unfold ConversationTags.remove_tag. cbn [ConversationTags.tags].
      rewrite Hl'. cbn [existsb]. rewrite String.eqb_refl. cbn [orb].
      cbn [ConversationTags.shown ConversationTags.tags ConversationTags.list_remove].
      rewrite String.eqb_refl. left. reflexivity.
  - (* the tag is new *)
    assert (Hnot : ~ In tag cur).
    { intros Hin. apply existsb_eqb_in in Hin. congruence. }
    rewrite Hadded. cbn [ConversationTags.shown ConversationTags.tags
                         ConversationTags.updated_at].
    assert (Hsnoc : exists x l, cur ++ [tag] = x :: l).
    { destruct cur as [|x l]; simpl; eauto. }
    destruct Hsnoc as [x [l Hxl]].
    assert (Hthere : existsb (String.eqb tag) (cur ++ [tag]) = true).
    { apply existsb_eqb_in. apply in_or_app. right. left. reflexivity. }
    assert (Hself : ConversationTags.remove_tag later tag
                      (ConversationTags.mk tags updated_at)
                    = ConversationTags.mk tags updated_at).
    { unfold ConversationTags.remove_tag. cbn [ConversationTags.tags].
      destruct tags as [[|y l']|]; try reflexivity.
      unfold cur in E. rewrite E. reflexivity. }
    split; [apply in_or_app; right; left; reflexivity|].
    split; [intros t Ht; apply in_or_app; left; exact Ht|].
    split.
    { intros Hnd. apply NoDup_app; [exact Hnd | constructor; [auto | constructor] |].
      intros a Ha [Hb|[]]. subst a. contradiction. }
    split.
    { unfold ConversationTags.add_tag. cbn [ConversationTags.tags
        ConversationTags.updated_at]. rewrite Hxl. rewrite <- Hxl. rewrite Hthere.
      reflexivity. }
    split.
    { intros _. split; [exact Hself|]. split; [reflexivity|].
      unfold ConversationTags.remove_tag. cbn [ConversationTags.tags].
      rewrite Hxl. rewrite <- Hxl. rewrite Hthere.
      cbn [ConversationTags.shown ConversationTags.tags].
      apply list_remove_snoc. exact Hnot. }
    split.
    + intros _. rewrite Hself. exact Hnot.
    + intros l' Hl'. exfalso. apply Hnot. unfold cur. rewrite Hl'. left. reflexivity.
Qed.

(** ** Requests that are turned away *)

Lemma with_access_refused get_companies user conversation_id action (s : Session) :
  (user = None \/ conversation_by_id (current s) conversation_id = None ->
   refused (with_access_with get_companies user conversation_id action) 404 s)
  /\ (forall u companies conversation chatbot,
        user = Some u ->
        conversation_by_id (current s) conversation_id = Some conversation ->
        get_companies u = Ok companies ->
        chatbot_by_id (current s) (Conversation.chatbot_id conversation) = Some chatbot ->
        existsb (String.eqb (Chatbot.company_id chatbot)) companies = false ->
        refused (with_access_with get_companies user conversation_id action) 403 s).
Proof.
  unfold refused. rewrite with_access_with_run. split.
  - intros [Hu|Hc].
    + rewrite Hu. eexists. split; reflexivity.
    + destruct user; [|eexists; split; reflexivity].
      rewrite Hc. eexists. split; reflexivity.
  - intros u companies conversation chatbot Hu Hc Hgc Hb Hno.
    rewrite Hu, Hc, Hgc, Hb, Hno. eexists. split; reflexivity.
Qed.

Lemma try_except_refused (m : M Response) h code s :
  refused m code s -> refused (try_except m h) code s.
Proof.
  intros [resp [Hrun Hcode]]. exists resp. unfold try_except. rewrite Hrun. auto.
Qed.

Lemma try_except_failed_with get_companies u conversation_id action (msg : string)
    (s : Session) (conversation : Conversation.t) (e : PyExn) :
  conversation_by_id (current s) conversation_id = Some conversation ->
  get_companies u = Raise e ->
  failed_with (try_except (with_access_with get_companies (Some u) conversation_id action)
                          (fun _ => rollback ;; ret (error_response msg 500)))
              500 s.
Proof.
  intros Hconv Hraise. unfold failed_with, try_except.
  rewrite with_access_with_run, Hconv, Hraise.
  eexists. repeat split.
Qed.

(** The three routes that write to a conversation, for any [get_companies].
    They turn a request away before touching anything, with 404, when the
    user or the conversation is not found; and with 403 when [get_companies]
    returns and the conversation's chatbot belongs to none of the companies
    it returns: the session is then exactly as it was.  When
    [get_companies] raises, the routes answer 500 after a rollback.  That is
    what the routes of the code do for every user and conversation that
    exist, since [User.get_companies] raises on every user: they never reach
    the check of the companies, and never write. *)
Theorem conversation_routes_refuse_without_change
    (get_companies : User.t -> Outcome (list string)) (w : World)
    (user : option User.t) (user_id conversation_id : string)
    (data : SendMessageData) (s : Session) :
  let routes (answer : M Response -> Prop) :=
    answer (send_message_with get_companies w user user_id conversation_id data)
    /\ answer (close_conversation_with get_companies w user user_id conversation_id)
    /\ answer (reopen_conversation_with get_companies w user conversation_id) in
  (user = None \/ conversation_by_id (current s) conversation_id = None ->
   routes (fun route => refused route 404%Z s))
  /\ (forall u companies conversation chatbot,
        user = Some u ->
        conversation_by_id (current s) conversation_id = Some conversation ->
        get_companies u = Ok companies ->
        chatbot_by_id (current s) (Conversation.chatbot_id conversation) = Some chatbot ->
        existsb (String.eqb (Chatbot.company_id chatbot)) companies = false ->
        routes (fun route => refused route 403%Z s))
  /\ (forall u conversation e,
        user = Some u ->
        conversation_by_id (current s) conversation_id = Some conversation ->
        get_companies u = Raise e ->
        routes (fun route => failed_with route 500%Z s))
  /\ (forall u conversation,
        conversation_by_id (current s) conversation_id = Some conversation ->
        failed_with (send_message w (Some u) user_id conversation_id data) 500%Z s
        /\ failed_with (close_conversation w (Some u) user_id conversation_id) 500%Z s
        /\ failed_with (reopen_conversation w (Some u) conversation_id) 500%Z s).
Proof.
  intros routes. unfold routes. split; [|split; [|split]].
  - intros H. repeat split; apply try_except_refused;
      apply (proj1 (with_access_refused _ _ _ _ s)); exact H.
  - intros u companies conversation chatbot Hu Hc Hgc Hb Hno.
    repeat split; apply try_except_refused;
      apply (proj2 (with_access_refused _ _ _ _ s) u companies conversation chatbot);
      assumption.
  - intros u conversation e Hu Hc Hraise. subst user.
    split; [|split].
    + apply (try_except_failed_with get_companies u conversation_id _ _ s conversation e
               Hc Hraise).
    + apply (try_except_failed_with get_companies u conversation_id _ _ s conversation e
               Hc Hraise).
    + apply (try_except_failed_with get_companies u conversation_id _ _ s conversation e
               Hc Hraise).
  - intros u conversation Hc.
    split; [|split].
    + apply (try_except_failed_with User.get_companies u conversation_id _ _ s
               conversation _ Hc (eq_refl _)).
    + apply (try_except_failed_with User.get_companies u conversation_id _ _ s
               conversation _ Hc (eq_refl _)).
    + apply (try_except_failed_with User.get_companies u conversation_id _ _ s
               conversation _ Hc (eq_refl _)).
Qed.

(** ** Status callbacks: what they leave alone *)

Lemma map_if_same {A} (p : A -> bool) (f : A -> A) (l : list A) :
  (forall x, In x l -> p x = true -> f x = x) ->
  map (fun x => if p x then f x else x) l = l.
Proof.
  induction l as [|x l IH]; simpl; intros H; [reflexivity|].
  rewrite IH by (intros y Hy; apply H; right; exact Hy).
  destruct (p x) eqn:E; [rewrite (H x (or_introl eq_refl) E)|]; reflexivity.
Qed.

Lemma apply_status_unknown w status error message :
  known_status status = false -> apply_status w status error message = message.
Proof.
  unfold known_status, apply_status. cbn [existsb]. intros H.
  repeat (apply orb_false_iff in H as [? H]).
  repeat match goal with E : opt_eqb _ _ = false |- _ => rewrite E; clear E end.
  reflexivity.
Qed.

Lemma apply_status_keeps w status error message :
  Message.id (apply_status w status error message) = Message.id message
  /\ Message.conversation_id (apply_status w status error message)
     = Message.conversation_id message
  /\ Message.content (apply_status w status error message) = Message.content message
  /\ Message.whatsapp_message_id (apply_status w status error message)
     = Message.whatsapp_message_id message
  /\ Message.timestamp (apply_status w status error message) = Message.timestamp message.
Proof.
  unfold apply_status.
  repeat match goal with |- context [if ?b then _ else _] => destruct b end;
    repeat split.
Qed.


(** ** Recorded inbound events stay unprocessed *)

Lemma find_or_create_conversation_webhook_events w d chatbot customer_phone s :
  webhook_events (current (snd (find_or_create_conversation w d chatbot customer_phone s)))
  = webhook_events (current s).
Proof.
  unfold find_or_create_conversation.
  destruct (open_conversation d (Chatbot.id chatbot) customer_phone); [reflexivity|].
  unfold bind, fresh_uuid, modify_db, flush, track_event, ret. simpl.
  destruct (constraints_ok _); reflexivity.
Qed.

(** Processing a sub-event with the id [None] leaves the webhook events as
    they are. *)
Lemma await_process_without_id_webhook_events w (event : Event) s :
  webhook_events
    (current (snd (match event with
                   | message_received e => await_process_whatsapp_message w e None s
                   | message_status e => await_process_whatsapp_status w e None s
                   end)))
  = webhook_events (current s).
Proof.
  destruct event as [e|e].
  - rewrite await_process_whatsapp_message_run.
    destruct (chatbot_by_phone_number_id (current s) (me_phone_number_id e))
      as [chatbot|]; [|reflexivity].
    pose proof (find_or_create_conversation_webhook_events w (current s) chatbot
                  (me_from e) s) as Hfind.
    destruct (find_or_create_conversation w (current s) chatbot (me_from e) s)
      as [[conversation|x] s1]; [|exact Hfind].
    destruct (store_and_forward_run w e None chatbot conversation s1)
      as [s' [m [Hrun [_ [_ [_ [_ Hev]]]]]]].
    rewrite Hrun. cbn [snd]. rewrite Hev. exact Hfind.
  - rewrite await_process_whatsapp_status_run.
    destruct (message_by_whatsapp_id (current s) (se_message_id e)) as [[m|]|x];
      reflexivity.
Qed.

Lemma record_and_process_webhook_events new_event w event s :
  (forall ev we, new_event ev = Ok we -> WebhookEvent.processed we = false) ->
  exists rows,
    webhook_events (current (snd (record_and_process new_event w event s)))
    = webhook_events (current s) ++ rows
    /\ forallb (fun e => negb (WebhookEvent.processed e)) rows = true
    /\ (is_ok (fst (record_and_process new_event w event s)) = true ->
        length rows = 1%nat).
Proof.
  intros Hnew. unfold record_and_process. unfold bind at 1. unfold lift at 1.
  destruct (new_event event) as [we|x] eqn:Hwe.
  - unfold bind at 1. unfold session_add_webhook_event, bind, fresh_uuid, modify_db, ret.
    cbv beta iota zeta.
    assert (Hrun : forall s1,
               webhook_events
                 (current (snd ((match event with
                                 | message_received e =>
                                     await_process_whatsapp_message w e None
                                 | message_status e =>
                                     await_process_whatsapp_status w e None
                                 end) s1)))
               = webhook_events (current s1)).
    { intros s1. pose proof (await_process_without_id_webhook_events w event s1) as H.
      destruct event; exact H. }
    rewrite Hrun. cbn [current insert_webhook_event set_webhook_events webhook_events].
    eexists. split; [reflexivity|]. split; [|reflexivity].
    cbn [forallb WebhookEvent.processed]. rewrite (Hnew event we Hwe). reflexivity.
  - exists []. cbn [snd fst is_ok]. rewrite app_nil_r.
    split; [reflexivity|]. split; [reflexivity | discriminate].
Qed.

Lemma for_each_record_webhook_events new_event w events s :
  (forall ev we, new_event ev = Ok we -> WebhookEvent.processed we = false) ->
  exists rows,
    webhook_events (current (snd (for_each events (record_and_process new_event w) s)))
    = webhook_events (current s) ++ rows
    /\ forallb (fun e => negb (WebhookEvent.processed e)) rows = true
    /\ (is_ok (fst (for_each events (record_and_process new_event w) s)) = true ->
        length rows = length events).
Proof.
  intros Hnew. revert s. induction events as [|event events IH]; intros s.
  - exists []. cbn. rewrite app_nil_r. auto.
  - cbn [for_each]. unfold bind.
    destruct (record_and_process_webhook_events new_event w event s Hnew)
      as [rows1 [H1 [P1 L1]]].
    destruct (record_and_process new_event w event s) as [[[]|x] s1].
    + destruct (IH s1) as [rows2 [H2 [P2 L2]]].
      exists (rows1 ++ rows2). rewrite H2. cbn [snd] in H1. rewrite H1, app_assoc.
      split; [reflexivity|]. rewrite forallb_app, P1, P2.
      split; [reflexivity|]. intros Hok. rewrite length_app, L2 by exact Hok.
      rewrite L1 by reflexivity. reflexivity.
    + exists rows1. cbn [snd fst is_ok] in *. split; [exact H1|].
      split; [exact P1 | discriminate].
Qed.

(** The inbound webhook endpoint, for any way of building the [WebhookEvent]
    that leaves it unprocessed (as the call that passes [processed=False]
    does): the rows of earlier deliveries are kept as they are, and the
    delivery adds only unprocessed rows, one per sub-event when it is
    answered 200 and none otherwise.  The handler hands [webhook_event.id] to
    the processing functions before any flush has assigned it, so their
    [WebhookEvent.query.get(None)] finds nothing to mark. *)
Theorem recorded_inbound_events_stay_unprocessed
    (new_event : Event -> Outcome WebhookEvent.t) (w : World) (json : option WaPayload)
    (d : Db) :
  (forall ev we, new_event ev = Ok we -> WebhookEvent.processed we = false) ->
  let r := serve (handle_whatsapp_webhook_with new_event w json) d in
  exists rows,
    webhook_events (snd r) = webhook_events d ++ rows
    /\ forallb (fun e => negb (WebhookEvent.processed e)) rows = true
    /\ (fmap_status_code (fst r) = Some 200%Z ->
        exists payload, json = Some payload
                        /\ length rows = length (process_webhook_event payload))
    /\ (fmap_status_code (fst r) <> Some 200%Z -> rows = []).
Proof.
  intros Hnew r. unfold r.
  pose proof (handle_whatsapp_webhook_served new_event w json d) as Hserved.
  pose proof (handle_whatsapp_webhook_try_run new_event w json (begin d)) as Hrun.
  destruct (handle_whatsapp_webhook_try new_event w json (begin d)) as [[resp|x] s'].
  - destruct Hrun as [payload [s1 [Hjson [Hloop [_ [Hcommitted [_ Hresp]]]]]]].
    rewrite Hserved. cbn [fst snd fmap_status_code].
    destruct (for_each_record_webhook_events new_event w (process_webhook_event payload)
                (begin d) Hnew) as [rows [Hrows [Hproc Hlen]]].
    rewrite Hloop in Hrows, Hlen. cbn [fst snd is_ok] in Hrows, Hlen.
    exists rows. rewrite Hcommitted. split; [exact Hrows|]. split; [exact Hproc|].
    split.
    + intros _. exists payload. split; [exact Hjson | apply Hlen; reflexivity].
    + intros Hno. exfalso. apply Hno. rewrite Hresp. reflexivity.
  - rewrite Hserved. exists []. cbn [fst snd fmap_status_code]. rewrite app_nil_r.
    split; [reflexivity|]. split; [reflexivity|]. split; [|reflexivity].
    unfold failure_response, error_response. cbn. discriminate.
Qed.

Lemma webhook_event_with_payload_unprocessed (ev : Event) (we : WebhookEvent.t) :
  webhook_event_with_payload ev = Ok we -> WebhookEvent.processed we = false.
Proof.
  unfold webhook_event_with_payload. cbn. intros H. injection H as <-. reflexivity.
Qed.

Lemma recorded_inbound_events_stay_unprocessed_witness :
  exists rows,
    webhook_events
      (snd (serve (handle_whatsapp_webhook_with webhook_event_with_payload sample_world
                     (Some sample_payload)) sample_db))
    = webhook_events sample_db ++ rows
    /\ forallb (fun e => negb (WebhookEvent.processed e)) rows = true
    /\ (fmap_status_code
          (fst (serve (handle_whatsapp_webhook_with webhook_event_with_payload sample_world
                         (Some sample_payload)) sample_db)) = Some 200%Z ->
        exists payload, Some sample_payload = Some payload
                        /\ length rows = length (process_webhook_event payload))
    /\ (fmap_status_code
          (fst (serve (handle_whatsapp_webhook_with webhook_event_with_payload sample_world
                         (Some sample_payload)) sample_db)) <> Some 200%Z -> rows = []).
Proof.
  exact (recorded_inbound_events_stay_unprocessed webhook_event_with_payload sample_world
           (Some sample_payload) sample_db webhook_event_with_payload_unprocessed).
Defined.

(** ** Relaying a reply of the bot backend *)

Lemma await_process_botpress_message_run (w : World)
    (event : BotpressService.ProcessedEvent)
    (webhook_event_id : option string) (chatbot : Chatbot.t)
    (conversation : Conversation.t) (text user phone_number_id : string) (s : Session) :
  chatbot_by_botpress_bot_id (current s) (BotpressService.bot_id event) = Some chatbot ->
  BotpressService.payload_text (BotpressService.data event) = Ok (Some text) ->
  BotpressService.userId (BotpressService.data event) = Some user ->
  truthy (Some text) = true ->
  truthy (Some user) = true ->
  open_conversation (current s) (Chatbot.id chatbot) (Some user) = Some conversation ->
  Chatbot.whatsapp_phone_number_id chatbot = Some phone_number_id ->
  truthy (Some phone_number_id) = true ->
  let stored wid :=
    snd ((added <- session_add_message w conversation
                     (Message.mk_data Message.outbound (Some "text") (Some text)
                        (Chatbot.whatsapp_phone_number chatbot)
                        (Some (Chatbot.name chatbot)) wid None None None) ;;
          track_event w (Chatbot.company_id chatbot) "message_sent" (Chatbot.id chatbot)
            None
            [("conversation_id", Some (Conversation.id conversation));
             ("message_id", None); ("message_type", Some "text");
             ("customer_phone", Some user); ("bot_response", Some "True")]) s) in
  await_process_botpress_message w event webhook_event_id s
  = mark_webhook_event_processed w webhook_event_id
      match whatsapp_send_text_message w phone_number_id user text with
      | Ok (Some (wid :: _)) => stored wid
      | Ok None => stored None
      | Ok (Some []) | Raise _ => s
      end.
Proof.
  intros Hbot Htext Huser Httext Htuser Hconv Hphone Htphone stored.
  unfold stored, await_process_botpress_message. cbv zeta.
  unfold bind at 1. unfold get_db at 1. cbv beta iota.
  rewrite Hbot. unfold bind at 1. unfold lift at 1. rewrite Htext, Huser, Httext, Htuser.
  cbn [negb orb]. rewrite Hconv.
  rewrite Hphone, Htphone.
  unfold bind at 1. unfold try_except. unfold bind at 1. unfold lift.
  destruct (whatsapp_send_text_message w phone_number_id user text)
    as [[[|wid rest]|]|x]; reflexivity.
Qed.



(** ** One open conversation per chatbot and customer *)

Lemma one_open_each_snoc (l : list Conversation.t) (c : Conversation.t) :
  one_open_each l = true ->
  (forall c', In c' l -> is_open c' = true -> same_customer c' c = false) ->
  one_open_each (l ++ [c]) = true.
Proof.
  induction l as [|a l IH]; intros Hl Hnew.
  - simpl. rewrite orb_true_r. reflexivity.
  - simpl in *. apply andb_true_iff in Hl as [Ha Hl].
    rewrite IH by (auto; intros c' Hin; apply Hnew; right; exact Hin).
    rewrite andb_true_r, existsb_app. simpl. rewrite orb_false_r.
    destruct (is_open a) eqn:Hopen; [|reflexivity].
    simpl in *. apply negb_true_iff in Ha. rewrite Ha. simpl.
    rewrite (Hnew a (or_introl eq_refl) Hopen). rewrite andb_false_r. reflexivity.
Qed.

Lemma one_open_each_map (f : Conversation.t -> Conversation.t) (l : list Conversation.t) :
  (forall c, Conversation.chatbot_id (f c) = Conversation.chatbot_id c) ->
  (forall c, Conversation.customer_phone (f c) = Conversation.customer_phone c) ->
  (forall c, is_open (f c) = true -> is_open c = true) ->
  one_open_each l = true -> one_open_each (map f l) = true.
Proof.
  intros Hbot Hphone Hopen. induction l as [|a l IH]; intros Hl; [reflexivity|].
  simpl in *. apply andb_true_iff in Hl as [Ha Hl]. rewrite (IH Hl), andb_true_r.
  destruct (is_open (f a)) eqn:Hfa; [|reflexivity]. simpl.
  rewrite (Hopen a Hfa) in Ha. simpl in Ha. apply negb_true_iff in Ha.
  apply negb_true_iff.
  destruct (existsb _ (map f l)) eqn:E; [|reflexivity].
  apply existsb_exists in E as [x [Hx Hg]]. apply in_map_iff in Hx as [c' [Hfc Hin]].
  subst x. apply andb_true_iff in Hg as [Hg1 Hg2].
  assert (Hthere : existsb (fun c'0 => is_open c'0 && same_customer a c'0) l = true).
  { apply existsb_exists. exists c'. split; [exact Hin|].
    rewrite (Hopen c' Hg1). simpl. unfold same_customer in *.
    rewrite !Hbot, !Hphone in Hg2. exact Hg2. }
  congruence.
Qed.

Lemma one_open_update_conversation id (method : Conversation.t -> Conversation.t) (d : Db) :
  (forall c, Conversation.chatbot_id (method c) = Conversation.chatbot_id c) ->
  (forall c, Conversation.customer_phone (method c) = Conversation.customer_phone c) ->
  (forall c, is_open (method c) = true -> is_open c = true) ->
  one_open_conversation d = true ->
  one_open_conversation (update_conversation id method d) = true.
Proof.
  intros Hbot Hphone Hopen Hd. unfold one_open_conversation, update_conversation. simpl.
  apply one_open_each_map; try assumption;
    intros c; destruct (String.eqb (Conversation.id c) id); auto.
Qed.

Lemma stable_ret {A} (a : A) : stable (ret a).
Proof. intros s Hs. exact Hs. Qed.

Lemma stable_raise {A} e : stable (@raise A e).
Proof. intros s Hs. exact Hs. Qed.

Lemma stable_lift {A} (o : Outcome A) : stable (lift o).
Proof. intros s Hs. exact Hs. Qed.

Lemma stable_bind {A B} (m : M A) (k : A -> M B) :
  stable m -> (forall a, stable (k a)) -> stable (bind m k).
Proof.
  intros Hm Hk s Hs. unfold bind. specialize (Hm s Hs).
  destruct (m s) as [[a|e] s']; [apply Hk; exact Hm | exact Hm].
Qed.

(** After [d <- get_db], the rest may rely on [d] being the current state. *)
Lemma stable_get_db {B} (k : Db -> M B) :
  (forall s, one_open_session s -> one_open_session (snd (k (current s) s))) ->
  stable (bind get_db k).
Proof. intros Hk s Hs. unfold bind, get_db. apply Hk. exact Hs. Qed.

Lemma stable_try_except {A} (m : M A) (h : PyExn -> M A) :
  stable m -> (forall e, stable (h e)) -> stable (try_except m h).
Proof.
  intros Hm Hh s Hs. unfold try_except. specialize (Hm s Hs).
  destruct (m s) as [[a|e] s']; [exact Hm | apply Hh; exact Hm].
Qed.

Lemma stable_for_each {A} (l : list A) (f : A -> M unit) :
  (forall x, stable (f x)) -> stable (for_each l f).
Proof.
  intros Hf. induction l as [|x l IH]; simpl; [apply stable_ret|].
  apply stable_bind; [apply Hf | intros ?; exact IH].
Qed.

Lemma stable_modify_db (f : Db -> Db) :
  (forall d, one_open_conversation d = true -> one_open_conversation (f d) = true) ->
  stable (modify_db f).
Proof. intros Hf s [Hc Hd]. split; simpl; auto. Qed.

Lemma stable_fresh_uuid w : stable (fresh_uuid w).
Proof. intros s Hs. exact Hs. Qed.

Lemma stable_flush : stable flush.
Proof. intros s Hs. unfold flush. destruct (constraints_ok (current s)); exact Hs. Qed.

Lemma stable_commit : stable commit.
Proof.
  intros s [Hc Hd]. unfold commit.
  destruct (constraints_ok (current s)); split; simpl; assumption.
Qed.

Lemma stable_rollback : stable rollback.
Proof. intros s [Hc Hd]. split; simpl; assumption. Qed.

Lemma stable_logged {A} (o : Outcome A) : stable (logged o).
Proof. intros s Hs. rewrite logged_run. exact Hs. Qed.

Lemma stable_track_event w company_id event_name chatbot_id user_id event_data :
  stable (track_event w company_id event_name chatbot_id user_id event_data).
Proof.
  apply stable_bind; [apply stable_fresh_uuid|]. intros uuid.
  apply stable_modify_db. intros d Hd. exact Hd.
Qed.

Lemma stable_session_add_webhook_event w e : stable (session_add_webhook_event w e).
Proof.
  apply stable_bind; [apply stable_fresh_uuid|]. intros uuid.
  apply stable_bind; [|intros ?; apply stable_ret].
  apply stable_modify_db. intros d Hd. exact Hd.
Qed.

Lemma stable_mark_webhook_event_processed w id :
  stable (mark_webhook_event_processed w id).
Proof.
  apply stable_get_db. intros s Hs.
  destruct (webhook_event_by_id (current s) id); [|exact Hs].
  apply stable_modify_db; [|exact Hs]. intros d Hd. exact Hd.
Qed.

Lemma stable_session_add_message w self data : stable (session_add_message w self data).
Proof.
  apply stable_bind; [apply stable_fresh_uuid|]. intros uuid. cbv zeta.
  apply stable_bind; [apply stable_modify_db; intros d Hd; exact Hd|]. intros ?.
  apply stable_bind; [|intros ?; apply stable_ret].
  apply stable_modify_db. intros d Hd.
  apply one_open_update_conversation; auto.
Qed.

(** The conversation that "find or create" inserts is the only open one of
    its chatbot and customer: the query before it found none. *)
Lemma one_open_find_or_create_conversation w chatbot customer_phone s :
  one_open_session s ->
  one_open_session
    (snd (find_or_create_conversation w (current s) chatbot customer_phone s)).
Proof.
  intros [Hc Hd]. unfold find_or_create_conversation.
  destruct (open_conversation (current s) (Chatbot.id chatbot) customer_phone)
    as [conversation|] eqn:Hfind; [split; assumption|].
  assert (Hnew : one_open_conversation
                   (insert_conversation
                      (Conversation.new (uuid4 w (drawn s)) (utcnow w) (Chatbot.id chatbot)
                         customer_phone) (current s)) = true).
  { unfold one_open_conversation, insert_conversation. simpl.
    apply one_open_each_snoc; [exact Hd|].
    intros c' Hin Hopen. unfold open_conversation in Hfind.
    pose proof (find_none _ _ Hfind c' Hin) as Hno. cbv beta in Hno.
    unfold is_open in Hopen. rewrite Hopen, andb_true_r in Hno.
    unfold same_customer. simpl. exact Hno. }
  unfold bind, fresh_uuid, modify_db, flush, track_event, ret. simpl.
  destruct (constraints_ok _); split; simpl; assumption.
Qed.

Lemma stable_store_and_forward w e id chatbot conversation :
  stable (store_and_forward w e id chatbot conversation).
Proof.
  unfold store_and_forward. cbv zeta.
  apply stable_bind; [apply stable_session_add_message|]. intros message.
  apply stable_bind; [apply stable_track_event|]. intros ?.
  apply stable_bind.
  { destruct (truthy _ && _); [apply stable_logged | apply stable_ret]. }
  intros ?.
  apply stable_bind; [apply stable_logged|]. intros ?.
  apply stable_mark_webhook_event_processed.
Qed.

Lemma stable_await_process_whatsapp_message w e id :
  stable (await_process_whatsapp_message w e id).
Proof.
  intros s Hs. rewrite await_process_whatsapp_message_run.
  destruct (chatbot_by_phone_number_id (current s) (me_phone_number_id e))
    as [chatbot|]; [|exact Hs].
  pose proof (one_open_find_or_create_conversation w chatbot (me_from e) s Hs) as Hfind.
  destruct (find_or_create_conversation w (current s) chatbot (me_from e) s)
    as [[conversation|x] s1]; [|exact Hfind].
  apply stable_store_and_forward. exact Hfind.
Qed.

Lemma stable_await_process_whatsapp_status w e id :
  stable (await_process_whatsapp_status w e id).
Proof.
  unfold await_process_whatsapp_status. cbv zeta.
  apply stable_get_db. intros s Hs.
  apply stable_bind; [apply stable_lift| |exact Hs]. intros found.
  apply stable_bind; [|intros ?; apply stable_mark_webhook_event_processed].
  destruct found; [|apply stable_ret].
  apply stable_modify_db. intros d Hd. exact Hd.
Qed.

Lemma stable_await_process_botpress_message w e id :
  stable (await_process_botpress_message w e id).
Proof.
  unfold await_process_botpress_message. cbv zeta.
  apply stable_get_db. intros s Hs.
  destruct (chatbot_by_botpress_bot_id (current s) (BotpressService.bot_id e))
    as [chatbot|]; [|exact Hs].
  apply stable_bind; [apply stable_lift| |exact Hs]. intros message_text.
  destruct (negb _ || negb _); [apply stable_ret|].
  destruct (open_conversation (current s) (Chatbot.id chatbot) _) as [conversation|];
    [|apply stable_ret].
  apply stable_bind; [|intros ?; apply stable_mark_webhook_event_processed].
  destruct (truthy (Chatbot.whatsapp_phone_number_id chatbot)); [|apply stable_ret].
  apply stable_try_except; [|intros ?; apply stable_ret].
  apply stable_bind; [apply stable_lift|]. intros whatsapp_response.
  apply stable_bind.
  { destruct whatsapp_response as [[|first rest]|];
      [apply stable_raise | apply stable_ret | apply stable_ret]. }
  intros wid. cbv zeta.
  apply stable_bind; [apply stable_session_add_message|]. intros added.
  apply stable_track_event.
Qed.

Lemma stable_with_access get_companies user conversation_id action :
  (forall chatbot conversation, stable (action chatbot conversation)) ->
  stable (with_access_with get_companies user conversation_id action).
Proof.
  intros Haction s Hs. rewrite with_access_with_run.
  destruct user as [u|]; [|exact Hs].
  destruct (conversation_by_id (current s) conversation_id) as [conversation|];
    [|exact Hs].
  destruct (get_companies u) as [user_companies|]; [|exact Hs].
  destruct (chatbot_by_id (current s) _) as [chatbot|]; [|exact Hs].
  destruct (existsb _ user_companies); [|exact Hs].
  apply Haction. exact Hs.
Qed.

Lemma stable_rollback_handler {A} (m : M A) (r : A) :
  stable m -> stable (try_except m (fun _ => rollback ;; ret r)).
Proof.
  intros Hm. apply stable_try_except; [exact Hm|]. intros e.
  apply stable_bind; [apply stable_rollback | intros ?; apply stable_ret].
Qed.

Lemma stable_handle (c : Calls) w (r : Request) :
  is_reopen r = false -> stable (handle_with c w r).
Proof.
  destruct r; simpl; intros Hr; try discriminate.
  - apply stable_rollback_handler. unfold handle_whatsapp_webhook_try.
    apply stable_bind; [destruct json; [apply stable_ret | apply stable_raise]|].
    intros webhook_data. cbv zeta.
    apply stable_bind.
    { apply stable_for_each. intros event. unfold record_and_process.
      apply stable_bind; [apply stable_lift|]. intros webhook_event.
      apply stable_bind; [apply stable_session_add_webhook_event|]. intros ?.
      destruct event;
        [apply stable_await_process_whatsapp_message
        |apply stable_await_process_whatsapp_status]. }
    intros ?. apply stable_bind; [apply stable_commit | intros ?; apply stable_ret].
  - apply stable_rollback_handler. unfold handle_botpress_webhook_try.
    apply stable_bind;
      [destruct (br_json rq); [apply stable_raise | apply stable_ret | apply stable_ret]|].
    intros webhook_data.
    apply stable_bind; [apply stable_lift|].
    intros [|]; [apply stable_ret|].
    apply stable_bind;
      [destruct webhook_data; [apply stable_raise | apply stable_raise | apply stable_ret]|].
    intros processed_event. cbv zeta.
    apply stable_bind; [apply stable_lift|]. intros webhook_event.
    apply stable_bind; [apply stable_session_add_webhook_event|]. intros row.
    apply stable_bind; [apply stable_flush|]. intros ?.
    apply stable_bind.
    { repeat match goal with |- context [if ?b then _ else _] => destruct b end.
      - apply stable_await_process_botpress_message.
      - apply stable_mark_webhook_event_processed.
      - apply stable_mark_webhook_event_processed.
      - apply stable_ret. }
    intros ?. apply stable_bind; [apply stable_commit | intros ?; apply stable_ret].
  - apply stable_rollback_handler, stable_with_access. intros chatbot conversation.
    destruct (negb (truthy (sm_content data))); [apply stable_ret|]. cbv zeta.
    apply stable_bind; [apply stable_session_add_message|]. intros added.
    apply stable_bind; [apply stable_commit|]. intros ?.
    apply stable_bind; [apply stable_track_event|]. intros ?.
    apply stable_bind; [apply stable_commit | intros ?; apply stable_ret].
  - apply stable_rollback_handler, stable_with_access. intros chatbot conversation.
    apply stable_bind.
    { apply stable_modify_db. intros d Hd.
      apply one_open_update_conversation; auto. intros conv Hc. discriminate. }
    intros ?. apply stable_bind; [apply stable_commit|]. intros ?.
    apply stable_bind; [apply stable_track_event|]. intros ?.
    apply stable_bind; [apply stable_commit | intros ?; apply stable_ret].
Qed.

Lemma one_open_step (c : Calls) (d : Db) (wr : World * Request) :
  is_reopen (snd wr) = false ->
  one_open_conversation d = true -> one_open_conversation (step_with c d wr) = true.
Proof.
  intros Hr Hd. unfold step_with, serve.
  pose proof (stable_handle c (fst wr) (snd wr) Hr (begin d) (conj Hd Hd)) as [Hc _].
  destruct (handle_with c (fst wr) (snd wr) (begin d)) as [o s]. exact Hc.
Qed.

(** No customer gets a second open conversation with the same chatbot: from
    a database where each chatbot and customer phone have at most one open
    conversation, any sequence of webhook deliveries, bot callbacks, sent
    messages and closings, served one after the other, leaves a database
    with the same property, whether the requests succeed or fail, and
    however the three calls that raise in the handlers as written are
    written.  An inbound message opens a conversation only after the query
    for an open one found none, and no other of these requests changes a
    status to 'open'.  Reopening is left out: it sets 'open' without looking
    for another open conversation. *)
Theorem one_open_conversation_kept (c : Calls) (trace : list (World * Request))
    (d : Db) :
  forallb (fun wr => negb (is_reopen (snd wr))) trace = true ->
  one_open_conversation d = true ->
  one_open_conversation (run_with c trace d) = true.
Proof.
  unfold run_with. revert d. induction trace as [|wr trace IH]; intros d Htrace Hd;
    [exact Hd|].
  simpl in *. apply andb_true_iff in Htrace as [Hr Htrace].
  apply IH; [exact Htrace|]. apply one_open_step; [|exact Hd].
  apply negb_true_iff. exact Hr.
Qed.

(** With the calls as they were meant, the sample trace opens a conversation
    for an inbound message, closes it, and opens another one for the next
    inbound message of the same customer. *)
Lemma one_open_conversation_kept_witness :
  map Conversation.status
      (conversations (run_with as_intended returning_customer_trace sample_db))
  = [Conversation.closed; Conversation.open]
  /\ one_open_conversation (run_with as_intended returning_customer_trace sample_db)
     = true.
Proof.
  split; [vm_compute; reflexivity|].
  exact (one_open_conversation_kept as_intended returning_customer_trace sample_db
           (eq_refl true) (eq_refl true)).
Defined.

Lemma same_customer_sym (a b : Conversation.t) : same_customer a b = same_customer b a.
Proof.
  unfold same_customer. rewrite String.eqb_sym. f_equal.
  destruct (Conversation.customer_phone a), (Conversation.customer_phone b); simpl;
    auto using String.eqb_sym.
Qed.

Lemma one_open_each_two (l : list Conversation.t) (a b : Conversation.t) :
  In a l -> In b l -> Conversation.id a <> Conversation.id b ->
  is_open a = true -> is_open b = true -> same_customer a b = true ->
  one_open_each l = false.
Proof.
  intros Ha Hb Hneq Hoa Hob Hsame. induction l as [|x l IH]; [contradiction|].
  simpl. destruct Ha as [Ha|Ha], Hb as [Hb|Hb].
  - subst. congruence.
  - subst x. rewrite Hoa. simpl.
    assert (E : existsb (fun c' => is_open c' && same_customer a c') l = true).
    { apply existsb_exists. exists b. rewrite Hob, Hsame. auto. }
    rewrite E. reflexivity.
  - subst x. rewrite Hob. simpl.
    assert (E : existsb (fun c' => is_open c' && same_customer b c') l = true).
    { apply existsb_exists. exists a. rewrite Hoa, same_customer_sym, Hsame. auto. }
    rewrite E. reflexivity.
  - rewrite (IH Ha Hb). apply andb_false_r.
Qed.

Lemma forallb_of_map {A B} (p : B -> bool) (f : A -> B) (l : list A) :
  forallb p (map f l) = forallb (fun x => p (f x)) l.
Proof. induction l as [|x l IH]; simpl; [|rewrite IH]; reflexivity. Qed.

Lemma constraints_ok_update_conversation id (method : Conversation.t -> Conversation.t)
    (d : Db) :
  (forall c, Conversation.id (method c) = Conversation.id c) ->
  (forall c, Conversation.customer_phone (method c) = Conversation.customer_phone c) ->
  constraints_ok (update_conversation id method d) = constraints_ok d.
Proof.
  intros Hid Hphone. unfold constraints_ok, update_conversation. simpl.
  rewrite map_map.
  rewrite (map_ext (fun c => Conversation.id
                               (if String.eqb (Conversation.id c) id then method c else c))
                   Conversation.id)
    by (intros c; destruct (String.eqb (Conversation.id c) id); auto).
  rewrite forallb_of_map.
  assert (Hsame : forall l,
             forallb (fun c => is_some (Conversation.customer_phone
                                          (if String.eqb (Conversation.id c) id
                                           then method c else c))) l
             = forallb (fun c => is_some (Conversation.customer_phone c)) l).
  { induction l as [|c l IH]; simpl; [reflexivity|]. rewrite IH.
    destruct (String.eqb (Conversation.id c) id); [rewrite Hphone|]; reflexivity. }
  rewrite Hsame. reflexivity.
Qed.

(** Reopening does break the invariant.  When the customer of a conversation
    has another conversation open with the same chatbot (the one a later
    inbound message created), [Conversation.reopen] written to the first
    conversation's row leaves the customer with two open conversations:
    neither the method nor the route looks for another open conversation.
    The route commits exactly that when [get_companies] returns companies
    that include the chatbot's.  As written, [get_companies] raises, and the
    route leaves the database as it was. *)
Theorem reopen_opens_second_conversation (c : Calls) (w : World) (u : User.t)
    (conversation_id : string) (d : Db) (conversation other : Conversation.t)
    (chatbot : Chatbot.t) :
  constraints_ok d = true ->
  conversation_by_id d conversation_id = Some conversation ->
  chatbot_by_id d (Conversation.chatbot_id conversation) = Some chatbot ->
  In other (conversations d) ->
  Conversation.id other <> conversation_id ->
  is_open other = true ->
  same_customer conversation other = true ->
  one_open_conversation
    (update_conversation conversation_id (Conversation.reopen (utcnow w)) d) = false
  /\ (forall companies,
        get_companies c u = Ok companies ->
        existsb (String.eqb (Chatbot.company_id chatbot)) companies = true ->
        step_with c d (w, ReopenConversation (Some u) conversation_id)
        = update_conversation conversation_id (Conversation.reopen (utcnow w)) d)
  /\ step d (w, ReopenConversation (Some u) conversation_id) = d.
Proof.
  intros Hck Hconv Hbot Hother Hneq Hopen Hsame.
  assert (Hin : In conversation (conversations d)
                /\ Conversation.id conversation = conversation_id).
  { unfold conversation_by_id in Hconv. apply find_some in Hconv as [Hin E].
    apply String.eqb_eq in E. auto. }
  destruct Hin as [Hin Hid].
  split; [|split].
  - unfold one_open_conversation, update_conversation. simpl.
    apply one_open_each_two
      with (a := Conversation.reopen (utcnow w) conversation) (b := other).
    + apply in_map_iff. exists conversation. split; [|exact Hin].
      rewrite Hid, String.eqb_refl. reflexivity.
    + apply in_map_iff. exists other. split; [|exact Hother].
      apply String.eqb_neq in Hneq. rewrite Hneq. reflexivity.
    + simpl. rewrite Hid. auto.
    + reflexivity.
    + exact Hopen.
    + exact Hsame.
  - intros companies Hgc Haccess.
    unfold step_with, serve. cbn [fst snd handle_with].
    unfold reopen_conversation_with, try_except.
    rewrite with_access_with_run. change (current (begin d)) with d.
    rewrite Hconv, Hgc, Hbot, Haccess.
    unfold bind, modify_db, commit, ret. simpl. rewrite Hid.
    rewrite constraints_ok_update_conversation by reflexivity. rewrite Hck.
    reflexivity.
  - unfold step, step_with. cbn [fst snd handle_with as_written get_companies].
    unfold reopen_conversation_with.
    rewrite (route_fails_when_get_companies_raises User.get_companies u conversation_id
               _ _ d conversation _ Hconv (eq_refl _)).
    reflexivity.
Qed.

Lemma reopen_opens_second_conversation_witness :
  one_open_conversation returning_customer_db = true
  /\ one_open_conversation
       (step_with as_intended returning_customer_db
          (sample_world, ReopenConversation (Some sample_user) "conv-1")) = false.
Proof.
  split; [reflexivity|].
  assert (Hother : In (Conversation.mk "conv-2" "bot-1" (Some "77010000001")
                         (Some "77010000001") Conversation.open 30%Z None (Some 30%Z) 0%Z
                         30%Z)
                      (conversations returning_customer_db))
    by (right; left; reflexivity).
  assert (Hneq : "conv-2"%string <> "conv-1"%string) by discriminate.
  destruct (reopen_opens_second_conversation as_intended sample_world sample_user
              "conv-1" returning_customer_db (sample_conversation Conversation.closed)
              _ sample_chatbot (eq_refl true) (eq_refl _) (eq_refl _) Hother Hneq
              (eq_refl true) (eq_refl true))
    as [Hbroken [Hroute _]].
  rewrite (Hroute ["co-1"] (eq_refl _) (eq_refl true)). exact Hbroken.
Defined.

(** ** The last message of each side *)

Lemma newest_first_head (p : Message.t -> bool) (l : list Message.t) :
  match hd_error (order_by newest_first (filter p l)) with
  | None => forall m, In m l -> p m = false
  | Some m =>
      In m l /\ p m = true
      /\ forall m', In m' l -> p m' = true ->
                    (Message.timestamp m' <= Message.timestamp m)%Z
  end.
Proof.
  assert (Hsorted : StronglySorted (fun a b => newest_first a b = true)
                                   (order_by newest_first (filter p l))).
  { apply Sorted_StronglySorted.
    - intros a b c Hab Hbc. unfold newest_first in *.
      apply Z.leb_le in Hab, Hbc. apply Z.leb_le. lia.
    - apply order_by_sorted. intros a b H. unfold newest_first in *.
      apply Z.leb_gt in H. apply Z.leb_le. lia. }
  pose proof (order_by_in newest_first (filter p l)) as Hin.
  destruct (order_by newest_first (filter p l)) as [|m rest]; simpl.
  - intros m Hm. destruct (p m) eqn:E; [|reflexivity].
    exfalso. apply (proj2 (Hin m)). apply filter_In. auto.
  - pose proof (proj1 (Hin m) (or_introl eq_refl)) as Hm.
    apply filter_In in Hm as [Hm Hp]. split; [exact Hm|]. split; [exact Hp|].
    intros m' Hm' Hp'.
    assert (Hthere : In m' (m :: rest)) by (apply Hin, filter_In; auto).
    destruct Hthere as [<-|Hrest]; [lia|].
    apply StronglySorted_inv in Hsorted as [_ Hall].
    rewrite Forall_forall in Hall. specialize (Hall m' Hrest).
    unfold newest_first in Hall. apply Z.leb_le. exact Hall.
Qed.

(** The newest selected row, once loaded. *)
Lemma first_loaded_newest (p : Message.t -> bool) (l : list Message.t) :
  match first_loaded (hd_error (order_by newest_first (filter p l))) with
  | Ok None => forall m, In m l -> p m = false
  | Ok (Some last) =>
      In last l /\ p last = true /\ Message.type_in_enum last = true
      /\ forall m, In m l -> p m = true ->
                   (Message.timestamp m <= Message.timestamp last)%Z
  | Raise e =>
      e = LookupError "is not among the defined enum values"
      /\ exists newest,
           In newest l /\ p newest = true /\ Message.type_in_enum newest = false
           /\ forall m, In m l -> p m = true ->
                        (Message.timestamp m <= Message.timestamp newest)%Z
  end.
Proof.
  pose proof (newest_first_head p l) as H.
  destruct (hd_error _) as [m|]; simpl; [|exact H].
  unfold Message.load. destruct H as [Hin [Hp Hmax]].
  destruct (Message.type_in_enum m) eqn:Hty.
  - auto.
  - split; [reflexivity|]. exists m. auto.
Qed.

(** [get_last_customer_message] looks at the newest inbound message of the
    conversation, a message that no other inbound message of the
    conversation is later than.  It returns [None] exactly when the
    conversation has no inbound message; it returns the newest one when its
    stored type is one of the column's; and it raises [LookupError] when
    that row's type is not, as for the ['contacts'] or ['sticker'] messages
    the WhatsApp handler stores.  [get_last_bot_message] does the same for
    the outbound messages. *)
Theorem last_message_of_each_side (d : Db) (self : Conversation.t) :
  let mine m := String.eqb (Message.conversation_id m) (Conversation.id self) in
  let newest_of direction last :=
    In last (messages d) /\ mine last = true
    /\ Message.direction last = direction
    /\ forall m, In m (messages d) -> mine m = true ->
                 Message.direction m = direction ->
                 (Message.timestamp m <= Message.timestamp last)%Z in
  match get_last_customer_message d self with
  | Ok None => forall m, In m (messages d) -> mine m = true ->
                         Message.direction m = Message.outbound
  | Ok (Some last) =>
      newest_of Message.inbound last /\ Message.type_in_enum last = true
  | Raise e =>
      e = LookupError "is not among the defined enum values"
      /\ exists newest,
           newest_of Message.inbound newest /\ Message.type_in_enum newest = false
  end
  /\ match get_last_bot_message d self with
     | Ok None => forall m, In m (messages d) -> mine m = true ->
                            Message.direction m = Message.inbound
     | Ok (Some last) =>
         newest_of Message.outbound last /\ Message.type_in_enum last = true
     | Raise e =>
         e = LookupError "is not among the defined enum values"
         /\ exists newest,
              newest_of Message.outbound newest /\ Message.type_in_enum newest = false
     end.
Proof.
  intros mine newest_of.
  assert (Hin_dir : forall m, MessageMethods.is_from_customer m = true
                              <-> Message.direction m = Message.inbound).
  { intros m. unfold MessageMethods.is_from_customer.
    destruct (Message.direction m); split; intros; congruence. }
  assert (Hout_dir : forall m, MessageMethods.is_from_bot m = true
                               <-> Message.direction m = Message.outbound).
  { intros m. unfold MessageMethods.is_from_bot.
    destruct (Message.direction m); split; intros; congruence. }
  assert (Hnewest :
            forall side direction,
              (forall m, side m = true <-> Message.direction m = direction) ->
              forall last,
                In last (messages d) ->
                mine last && side last = true ->
                (forall m, In m (messages d) -> mine m && side m = true ->
                           (Message.timestamp m <= Message.timestamp last)%Z) ->
                newest_of direction last).
  { intros side direction Hside last Hin Hp Hmax.
    apply andb_true_iff in Hp as [Hmine Hdir].
    split; [exact Hin|]. split; [exact Hmine|]. split; [apply Hside; exact Hdir|].
    intros m Hm Hmm Hd. apply Hmax; [exact Hm|]. rewrite Hmm.
    apply Hside in Hd. rewrite Hd. reflexivity. }
  split.
  - unfold get_last_customer_message.
    pose proof (first_loaded_newest
                  (fun m => mine m && MessageMethods.is_from_customer m) (messages d)) as H.
    fold mine.
    destruct (first_loaded _) as [[last|]|e].
    + destruct H as [Hin [Hp [Hty Hmax]]]. split; [|exact Hty].
      apply (Hnewest _ _ Hin_dir last Hin Hp Hmax).
    + intros m Hm Hmm. specialize (H m Hm). rewrite Hmm in H. simpl in H.
      unfold MessageMethods.is_from_customer in H.
      destruct (Message.direction m); [discriminate | reflexivity].
    + destruct H as [He [newest [Hin [Hp [Hty Hmax]]]]]. split; [exact He|].
      exists newest. split; [|exact Hty].
      apply (Hnewest _ _ Hin_dir newest Hin Hp Hmax).
  - unfold get_last_bot_message.
    pose proof (first_loaded_newest
                  (fun m => mine m && MessageMethods.is_from_bot m) (messages d)) as H.
    fold mine.
    destruct (first_loaded _) as [[last|]|e].
    + destruct H as [Hin [Hp [Hty Hmax]]]. split; [|exact Hty].
      apply (Hnewest _ _ Hout_dir last Hin Hp Hmax).
    + intros m Hm Hmm. specialize (H m Hm). rewrite Hmm in H. simpl in H.
      unfold MessageMethods.is_from_bot in H.
      destruct (Message.direction m); [reflexivity | discriminate].
    + destruct H as [He [newest [Hin [Hp [Hty Hmax]]]]]. split; [exact He|].
      exists newest. split; [|exact Hty].
      apply (Hnewest _ _ Hout_dir newest Hin Hp Hmax).
Qed.

(** ** What [add_message] writes to its conversation *)

(** [conversation.add_message] with a [message_data] that has no
    ['timestamp'], as at every call site: the message row gets the time of
    the insert as its timestamp, and the conversation's [message_count]
    grows by one, but its [last_message_at] is set to [None]: the method
    copies [message.timestamp] before any flush has filled the column
    default. *)
Theorem add_message_clears_last_message_at (w : World) (self c : Conversation.t)
    (message_data : Message.data) (s : Session) :
  conversation_by_id (current s) (Conversation.id self) = Some c ->
  Message.d_timestamp message_data = None ->
  let r := session_add_message w self message_data s in
  exists message c',
    fst r = Ok message
    /\ messages (current (snd r)) = messages (current s) ++ [message]
    /\ Message.timestamp message = utcnow w
    /\ conversation_by_id (current (snd r)) (Conversation.id self) = Some c'
    /\ Conversation.last_message_at c' = None
    /\ Conversation.message_count c' = (Conversation.message_count c + 1)%Z
    /\ Conversation.status c' = Conversation.status c.
Proof.
  intros Hfind Hts r.
  exists (fst (Conversation.add_message (uuid4 w (drawn s)) (utcnow w) self message_data)),
         (snd (Conversation.add_message (uuid4 w (drawn s)) (utcnow w) c message_data)).
  split; [reflexivity|]. split; [reflexivity|].
  split; [simpl; rewrite Hts; reflexivity|].
  split.
  - unfold r, session_add_message, bind, fresh_uuid, modify_db, ret. cbn [snd current].
    rewrite conversation_by_id_update by reflexivity.
    change (conversation_by_id (insert_message _ (current s)) (Conversation.id self))
      with (conversation_by_id (current s) (Conversation.id self)).
    rewrite Hfind. reflexivity.
  - simpl. rewrite Hts. auto.
Qed.

Lemma add_message_clears_last_message_at_witness :
  option_map Conversation.last_message_at
    (conversation_by_id
       (current (snd (session_add_message sample_world (sample_conversation Conversation.open)
                        (inbound_message_data sample_world sample_event)
                        (begin sample_open_db))))
       "conv-1")
  = Some None.
Proof.
  destruct (add_message_clears_last_message_at sample_world
              (sample_conversation Conversation.open) (sample_conversation Conversation.open)
              (inbound_message_data sample_world sample_event) (begin sample_open_db)
              (eq_refl _) (eq_refl _))
    as [message [c' [_ [_ [_ [Hfind [Hlast _]]]]]]].
  change (Conversation.id (sample_conversation Conversation.open)) with "conv-1" in Hfind.
  rewrite Hfind. simpl. rewrite Hlast. reflexivity.
Defined.

(** ** Where an inbound message lands *)

Lemma find_or_create_conversation_found w chatbot customer_phone s conversation s1 :
  find_or_create_conversation w (current s) chatbot customer_phone s
  = (Ok conversation, s1) ->
  In conversation (conversations (current s1))
  /\ is_open conversation = true
  /\ Conversation.chatbot_id conversation = Chatbot.id chatbot
  /\ Conversation.customer_phone conversation = customer_phone
  /\ (open_conversation (current s) (Chatbot.id chatbot) customer_phone = None ->
      conversations (current s1) = conversations (current s) ++ [conversation]
      /\ Conversation.message_count conversation = 0%Z)
  /\ (open_conversation (current s) (Chatbot.id chatbot) customer_phone <> None ->
      conversations (current s1) = conversations (current s)).
Proof.
  unfold find_or_create_conversation.
  destruct (open_conversation (current s) (Chatbot.id chatbot) customer_phone)
    as [found|] eqn:Hfind.
  - intros H. injection H as <- <-.
    unfold open_conversation in Hfind. apply find_some in Hfind as [Hin Hb].
    apply andb_true_iff in Hb as [Hb Hst]. apply andb_true_iff in Hb as [Hbot Hphone].
    apply String.eqb_eq in Hbot. apply opt_eqb_eq in Hphone.
    split; [exact Hin|]. split; [exact Hst|]. split; [exact Hbot|].
    split; [exact Hphone|]. split; [discriminate | reflexivity].
  - unfold bind, fresh_uuid, modify_db, flush, track_event, ret. simpl.
    destruct (constraints_ok _); [|discriminate].
    intros H. injection H as <- <-. simpl.
    split; [apply in_or_app; right; left; reflexivity|].
    split; [reflexivity|]. split; [reflexivity|]. split; [reflexivity|].
    split; [intros _; split; reflexivity|].
    intros Hno. contradiction.
Qed.

(** An inbound message for a number with an active chatbot, once
    [await_process_whatsapp_message] returns, is stored in an open
    conversation of that chatbot and of the sender: the one that was open
    before, or a new one when there was none, in which case exactly one
    conversation was added.  The conversation's [message_count] has grown by
    one, and a later query for the sender's open conversation finds a
    conversation with these properties. *)
Theorem inbound_message_lands_in_open_conversation (w : World) (event : MessageEvent)
    (webhook_event_id : option string) (chatbot : Chatbot.t) (s : Session) :
  chatbot_by_phone_number_id (current s) (me_phone_number_id event) = Some chatbot ->
  let r := await_process_whatsapp_message w event webhook_event_id s in
  fst r = Ok tt ->
  exists message conversation,
    messages (current (snd r)) = messages (current s) ++ [message]
    /\ In conversation (conversations (current (snd r)))
    /\ Message.conversation_id message = Conversation.id conversation
    /\ is_open conversation = true
    /\ Conversation.chatbot_id conversation = Chatbot.id chatbot
    /\ Conversation.customer_phone conversation = me_from event
    /\ match open_conversation (current s) (Chatbot.id chatbot) (me_from event) with
       | Some before =>
           Conversation.id conversation = Conversation.id before
           /\ Conversation.message_count conversation
              = (Conversation.message_count before + 1)%Z
           /\ length (conversations (current (snd r))) = length (conversations (current s))
       | None =>
           Conversation.message_count conversation = 1%Z
           /\ length (conversations (current (snd r)))
              = S (length (conversations (current s)))
       end
    /\ open_conversation (current (snd r)) (Chatbot.id chatbot) (me_from event) <> None.
Proof.
  intros Hbot r Hok. unfold r in *. clear r.
  rewrite await_process_whatsapp_message_run in *. rewrite Hbot in *.
  destruct (find_or_create_conversation w (current s) chatbot (me_from event) s)
    as [[found|x] s1] eqn:Hfind; [|discriminate].
  destruct (find_or_create_conversation_found w chatbot (me_from event) s found s1 Hfind)
    as [Hin [Hopen [Hcb [Hphone [Hnew Hold]]]]].
  destruct (store_and_forward_stores w event webhook_event_id chatbot found s1)
    as [s' [Hrun [Hmsgs Hconvs]]].
  rewrite Hrun. cbn [fst snd].
  assert (Hsame : messages (current s1) = messages (current s)).
  { destruct (find_or_create_conversation_run w chatbot (me_from event) s)
      as [[c [s2 [E [Hm _]]]] | [msg [s2 [E _]]]]; rewrite Hfind in E;
      [injection E as <- <-; exact Hm | discriminate]. }
  set (updated := snd (Conversation.add_message (uuid4 w (drawn s1)) (utcnow w) found
                         (inbound_message_data w event))).
  assert (Hthere : In updated (conversations (current s'))).
  { rewrite Hconvs. apply in_map_iff. exists found. split; [|exact Hin].
    rewrite String.eqb_refl. reflexivity. }
  eexists. exists updated.
  split; [rewrite Hmsgs, Hsame; reflexivity|].
  split; [exact Hthere|].
  split; [reflexivity|].
  split; [exact Hopen|].
  split; [exact Hcb|].
  split; [exact Hphone|].
  split.
  - rewrite Hconvs, length_map.
    destruct (open_conversation (current s) (Chatbot.id chatbot) (me_from event))
      as [before|] eqn:Hq.
    + rewrite (Hold ltac:(discriminate)).
      unfold find_or_create_conversation in Hfind. rewrite Hq in Hfind.
      injection Hfind as <- <-. repeat split.
    + destruct (Hnew eq_refl) as [Happ Hzero]. rewrite Happ, length_app.
      split; [|simpl; lia].
      unfold updated. simpl. rewrite Hzero. reflexivity.
  - intros Hnone. unfold open_conversation in Hnone.
    pose proof (find_none _ _ Hnone updated Hthere) as Hno. cbv beta in Hno.
    change (Conversation.chatbot_id updated) with (Conversation.chatbot_id found) in Hno.
    change (Conversation.customer_phone updated)
      with (Conversation.customer_phone found) in Hno.
    change (Conversation.status updated) with (Conversation.status found) in Hno.
    rewrite Hcb, Hphone, String.eqb_refl, opt_eqb_refl in Hno.
    unfold is_open in Hopen. rewrite Hopen in Hno. discriminate.
Qed.

Lemma inbound_message_lands_in_open_conversation_witness :
  exists message conversation,
    messages (current (snd (await_process_whatsapp_message sample_world sample_event None
                              (begin sample_db))))
    = messages (current (begin sample_db)) ++ [message]
    /\ In conversation
          (conversations
             (current (snd (await_process_whatsapp_message sample_world sample_event None
                              (begin sample_db)))))
    /\ Message.conversation_id message = Conversation.id conversation
    /\ is_open conversation = true.
Proof.
  destruct (inbound_message_lands_in_open_conversation sample_world sample_event None
              sample_chatbot (begin sample_db) (eq_refl _) (eq_refl _))
    as [message [conversation [H1 [H2 [H3 [H4 _]]]]]].
  exists message, conversation. auto.
Defined.

(** ** Replies of the bot that are dropped *)

(** A reply of the bot is dropped without a trace when no active chatbot has
    its bot id, when its text or its user id is missing or empty (a reply
    without a ['payload'] counts as one with an empty text), or when the
    customer has no open conversation with the chatbot (it was closed, or
    never existed): [await_process_botpress_message] returns at once, nothing
    is sent to the provider's customer, no message is stored, and the webhook
    event is not marked processed.  A reply of an active chatbot whose
    ['payload'] is present but not an object, [null] included, is not
    dropped: reading its text raises [AttributeError]. *)
Theorem bot_reply_dropped (w : World) (event : BotpressService.ProcessedEvent)
    (webhook_event_id : option string) (s : Session) :
  let message_data := BotpressService.data event in
  let user_id := BotpressService.userId message_data in
  let found := chatbot_by_botpress_bot_id (current s) (BotpressService.bot_id event) in
  let r := await_process_botpress_message w event webhook_event_id s in
  (found = None -> r = (Ok tt, s))
  /\ (forall chatbot message_text,
        found = Some chatbot ->
        BotpressService.payload_text message_data = Ok message_text ->
        truthy message_text = false
        \/ truthy user_id = false
        \/ open_conversation (current s) (Chatbot.id chatbot) user_id = None ->
        r = (Ok tt, s))
  /\ (BotpressService.payload message_data = BotpressService.absent ->
      BotpressService.payload_text message_data = Ok (Some "")
      /\ truthy (Some "") = false)
  /\ (forall chatbot,
        found = Some chatbot ->
        BotpressService.payload message_data = BotpressService.not_an_object ->
        r = (Raise (AttributeError "object has no attribute 'get'"), s)).
Proof.
  intros message_data user_id found r.
  assert (Hnone : found = None -> r = (Ok tt, s)).
  { unfold r, found, await_process_botpress_message. cbv zeta. intros Hnone.
    unfold bind at 1. unfold get_db at 1. cbv beta iota. rewrite Hnone. reflexivity. }
  assert (Hsome : forall chatbot,
             found = Some chatbot ->
             r = match BotpressService.payload_text message_data with
                 | Raise e => (Raise e, s)
                 | Ok message_text =>
                     if negb (truthy message_text) || negb (truthy user_id)
                     then (Ok tt, s)
                     else
                       match open_conversation (current s) (Chatbot.id chatbot) user_id
                       with
                       | None => (Ok tt, s)
                       | Some _ => r
                       end
                 end).
  { intros chatbot Hbot. unfold found in Hbot.
    destruct (BotpressService.payload_text message_data) as [message_text|e] eqn:Htext.
    - destruct (negb (truthy message_text) || negb (truthy user_id)) eqn:Hempty.
      + unfold r, await_process_botpress_message. cbv zeta.
        fold message_data. fold user_id.
        unfold bind at 1. unfold get_db at 1. cbv beta iota. rewrite Hbot.
        unfold bind at 1. unfold lift at 1. rewrite Htext, Hempty. reflexivity.
      + destruct (open_conversation (current s) (Chatbot.id chatbot) user_id) eqn:Hconv;
          [reflexivity|].
        unfold r, await_process_botpress_message. cbv zeta.
        fold message_data. fold user_id.
        unfold bind at 1. unfold get_db at 1. cbv beta iota. rewrite Hbot.
        unfold bind at 1. unfold lift at 1. rewrite Htext, Hempty, Hconv. reflexivity.
    - unfold r, await_process_botpress_message. cbv zeta.
      fold message_data. fold user_id.
      unfold bind at 1. unfold get_db at 1. cbv beta iota. rewrite Hbot.
      unfold bind at 1. unfold lift at 1. rewrite Htext. reflexivity. }
  split; [exact Hnone|]. split; [|split].
  - intros chatbot message_text Hbot Htext H. rewrite (Hsome chatbot Hbot), Htext.
    destruct H as [H|[H|H]].
    + rewrite H. reflexivity.
    + rewrite H, orb_true_r. reflexivity.
    + rewrite H. destruct (negb (truthy message_text) || negb (truthy user_id));
        reflexivity.
  - intros Habsent. unfold BotpressService.payload_text. rewrite Habsent.
    split; reflexivity.
  - intros chatbot Hbot Hpayload. rewrite (Hsome chatbot Hbot).
    unfold BotpressService.payload_text. rewrite Hpayload. reflexivity.
Qed.

Lemma bot_reply_dropped_witness :
  await_process_botpress_message sample_world sample_reply (Some "evt-1")
    (begin archived_db)
  = (Ok tt, begin archived_db).
Proof.
  refine (proj1 (proj2 (bot_reply_dropped sample_world sample_reply (Some "evt-1")
                          (begin archived_db)))
            sample_chatbot (Some "Welcome") (eq_refl _) (eq_refl _) _).
  right. right. reflexivity.
Defined.
